(** * MT5Handler: a shallow embedding of [app/mt5_handler.py]

    The adapter is a sequence of blocking calls to the MetaTrader 5 terminal.

    - The terminal is a deterministic oracle that answers each call from the
      history of the calls made so far. As in the MetaTrader5 package, a
      call that fails answers [None] or [False]; only the sampling of rates
      inside the column probe may raise, which is what the probe's
      [try]/[except] is there for.
    - The methods are computations in a state-and-exception monad. The
      state holds the handler's attributes, the history of calls (with
      their answers) and the lines logged. Reading an attribute of [None]
      raises [AttributeError].
    - Symbols, directions and comments are [str], tickets are [int], and
      the numbers the terminal returns are binary64 floats. A volume passed
      by the caller is any value: it is known by what [float()] and the
      division by a number of positions give for it, a float or an
      exception.
    - A [str] is held as its UTF-8 encoding. [endswith], [in] and [split]
      read the same on the bytes as on the characters; [upper] decodes the
      characters and follows Unicode's uppercase mapping; [len] and the
      slice count bytes, and are only used to cut off a suffix that
      [endswith] found.
    - Result dictionaries are records whose optional keys are [option]s;
      f-strings are kept as their literal parts and interpolated values.
    - [time.sleep] is recorded in the history like a call to the terminal. *)

From Stdlib Require Import ZArith NArith List String Ascii Bool Lia.
From Stdlib Require Import Floats Uint63.
Import ListNotations.

#[local] Set Warnings "-inexact-float".
Local Open Scope string_scope.
Local Open Scope list_scope.

(** ** Exceptions and outcomes *)

Inductive exn :=
| AttributeError (what : string)
| ValueError (what : string)
| TypeError (what : string)
| OverflowError (what : string)
| RuntimeFault (what : string).

Inductive outcome (A : Type) :=
| Ok (a : A)
| Raised (e : exn).
Arguments Ok {A} a.
Arguments Raised {A} e.

(** ** Python built-ins used by the handler *)

Module Py.

(** [str.upper] is Unicode's full uppercase mapping applied to each
    character. A [str] is held as its UTF-8 encoding, so [upper] decodes
    one character at a time. *)

(** The mapping on ASCII: [a-z] to [A-Z]. *)
Definition upper_ascii (c : ascii) : ascii :=
  let n := nat_of_ascii c in
  if (97 <=? n)%nat && (n <=? 122)%nat then ascii_of_nat (n - 32) else c.

(** The characters above ASCII that [str.upper] changes, by code point, with
    the code points they become (Unicode 14.0, the data of CPython 3.11;
    both the simple mappings and the special casings such as U+00DF to
    "SS"). *)
Definition uppercase_table : list (N * list N) :=
  [(181, [924]); (223, [83; 83]); (224, [192]); (225, [193]); (226, [194]); (227, [195]);
   (228, [196]); (229, [197]); (230, [198]); (231, [199]); (232, [200]); (233, [201]);
   (234, [202]); (235, [203]); (236, [204]); (237, [205]); (238, [206]); (239, [207]);
   (240, [208]); (241, [209]); (242, [210]); (243, [211]); (244, [212]); (245, [213]);
   (246, [214]); (248, [216]); (249, [217]); (250, [218]); (251, [219]); (252, [220]);
   (253, [221]); (254, [222]); (255, [376]); (257, [256]); (259, [258]); (261, [260]);
   (263, [262]); (265, [264]); (267, [266]); (269, [268]); (271, [270]); (273, [272]);
   (275, [274]); (277, [276]); (279, [278]); (281, [280]); (283, [282]); (285, [284]);
   (287, [286]); (289, [288]); (291, [290]); (293, [292]); (295, [294]); (297, [296]);
   (299, [298]); (301, [300]); (303, [302]); (305, [73]); (307, [306]); (309, [308]);
   (311, [310]); (314, [313]); (316, [315]); (318, [317]); (320, [319]); (322, [321]);
   (324, [323]); (326, [325]); (328, [327]); (329, [700; 78]); (331, [330]); (333, [332]);
   (335, [334]); (337, [336]); (339, [338]); (341, [340]); (343, [342]); (345, [344]);
   (347, [346]); (349, [348]); (351, [350]); (353, [352]); (355, [354]); (357, [356]);
   (359, [358]); (361, [360]); (363, [362]); (365, [364]); (367, [366]); (369, [368]);
   (371, [370]); (373, [372]); (375, [374]); (378, [377]); (380, [379]); (382, [381]);
   (383, [83]); (384, [579]); (387, [386]); (389, [388]); (392, [391]); (396, [395]);
   (402, [401]); (405, [502]); (409, [408]); (410, [573]); (414, [544]); (417, [416]);
   (419, [418]); (421, [420]); (424, [423]); (429, [428]); (432, [431]); (436, [435]);
   (438, [437]); (441, [440]); (445, [444]); (447, [503]); (453, [452]); (454, [452]);
   (456, [455]); (457, [455]); (459, [458]); (460, [458]); (462, [461]); (464, [463]);
   (466, [465]); (468, [467]); (470, [469]); (472, [471]); (474, [473]); (476, [475]);
   (477, [398]); (479, [478]); (481, [480]); (483, [482]); (485, [484]); (487, [486]);
   (489, [488]); (491, [490]); (493, [492]); (495, [494]); (496, [74; 780]); (498, [497]);
   (499, [497]); (501, [500]); (505, [504]); (507, [506]); (509, [508]); (511, [510]);
   (513, [512]); (515, [514]); (517, [516]); (519, [518]); (521, [520]); (523, [522]);
   (525, [524]); (527, [526]); (529, [528]); (531, [530]); (533, [532]); (535, [534]);
   (537, [536]); (539, [538]); (541, [540]); (543, [542]); (547, [546]); (549, [548]);
   (551, [550]); (553, [552]); (555, [554]); (557, [556]); (559, [558]); (561, [560]);
   (563, [562]); (572, [571]); (575, [11390]); (576, [11391]); (578, [577]); (583, [582]);
   (585, [584]); (587, [586]); (589, [588]); (591, [590]); (592, [11375]); (593, [11373]);
   (594, [11376]); (595, [385]); (596, [390]); (598, [393]); (599, [394]); (601, [399]);
   (603, [400]); (604, [42923]); (608, [403]); (609, [42924]); (611, [404]); (613, [42893]);
   (614, [42922]); (616, [407]); (617, [406]); (618, [42926]); (619, [11362]); (620, [42925]);
   (623, [412]); (625, [11374]); (626, [413]); (629, [415]); (637, [11364]); (640, [422]);
   (642, [42949]); (643, [425]); (647, [42929]); (648, [430]); (649, [580]); (650, [433]);
   (651, [434]); (652, [581]); (658, [439]); (669, [42930]); (670, [42928]); (837, [921]);
   (881, [880]); (883, [882]); (887, [886]); (891, [1021]); (892, [1022]); (893, [1023]);
   (912, [921; 776; 769]); (940, [902]); (941, [904]); (942, [905]); (943, [906]);
   (944, [933; 776; 769]); (945, [913]); (946, [914]); (947, [915]); (948, [916]);
   (949, [917]); (950, [918]); (951, [919]); (952, [920]); (953, [921]); (954, [922]);
   (955, [923]); (956, [924]); (957, [925]); (958, [926]); (959, [927]); (960, [928]);
   (961, [929]); (962, [931]); (963, [931]); (964, [932]); (965, [933]); (966, [934]);
   (967, [935]); (968, [936]); (969, [937]); (970, [938]); (971, [939]); (972, [908]);
   (973, [910]); (974, [911]); (976, [914]); (977, [920]); (981, [934]); (982, [928]);
   (983, [975]); (985, [984]); (987, [986]); (989, [988]); (991, [990]); (993, [992]);
   (995, [994]); (997, [996]); (999, [998]); (1001, [1000]); (1003, [1002]); (1005, [1004]);
   (1007, [1006]); (1008, [922]); (1009, [929]); (1010, [1017]); (1011, [895]); (1013, [917]);
   (1016, [1015]); (1019, [1018]); (1072, [1040]); (1073, [1041]); (1074, [1042]);
   (1075, [1043]); (1076, [1044]); (1077, [1045]); (1078, [1046]); (1079, [1047]);
   (1080, [1048]); (1081, [1049]); (1082, [1050]); (1083, [1051]); (1084, [1052]);
   (1085, [1053]); (1086, [1054]); (1087, [1055]); (1088, [1056]); (1089, [1057]);
   (1090, [1058]); (1091, [1059]); (1092, [1060]); (1093, [1061]); (1094, [1062]);
   (1095, [1063]); (1096, [1064]); (1097, [1065]); (1098, [1066]); (1099, [1067]);
   (1100, [1068]); (1101, [1069]); (1102, [1070]); (1103, [1071]); (1104, [1024]);
   (1105, [1025]); (1106, [1026]); (1107, [1027]); (1108, [1028]); (1109, [1029]);
   (1110, [1030]); (1111, [1031]); (1112, [1032]); (1113, [1033]); (1114, [1034]);
   (1115, [1035]); (1116, [1036]); (1117, [1037]); (1118, [1038]); (1119, [1039]);
   (1121, [1120]); (1123, [1122]); (1125, [1124]); (1127, [1126]); (1129, [1128]);
   (1131, [1130]); (1133, [1132]); (1135, [1134]); (1137, [1136]); (1139, [1138]);
   (1141, [1140]); (1143, [1142]); (1145, [1144]); (1147, [1146]); (1149, [1148]);
   (1151, [1150]); (1153, [1152]); (1163, [1162]); (1165, [1164]); (1167, [1166]);
   (1169, [1168]); (1171, [1170]); (1173, [1172]); (1175, [1174]); (1177, [1176]);
   (1179, [1178]); (1181, [1180]); (1183, [1182]); (1185, [1184]); (1187, [1186]);
   (1189, [1188]); (1191, [1190]); (1193, [1192]); (1195, [1194]); (1197, [1196]);
   (1199, [1198]); (1201, [1200]); (1203, [1202]); (1205, [1204]); (1207, [1206]);
   (1209, [1208]); (1211, [1210]); (1213, [1212]); (1215, [1214]); (1218, [1217]);
   (1220, [1219]); (1222, [1221]); (1224, [1223]); (1226, [1225]); (1228, [1227]);
   (1230, [1229]); (1231, [1216]); (1233, [1232]); (1235, [1234]); (1237, [1236]);
   (1239, [1238]); (1241, [1240]); (1243, [1242]); (1245, [1244]); (1247, [1246]);
   (1249, [1248]); (1251, [1250]); (1253, [1252]); (1255, [1254]); (1257, [1256]);
   (1259, [1258]); (1261, [1260]); (1263, [1262]); (1265, [1264]); (1267, [1266]);
   (1269, [1268]); (1271, [1270]); (1273, [1272]); (1275, [1274]); (1277, [1276]);
   (1279, [1278]); (1281, [1280]); (1283, [1282]); (1285, [1284]); (1287, [1286]);
   (1289, [1288]); (1291, [1290]); (1293, [1292]); (1295, [1294]); (1297, [1296]);
   (1299, [1298]); (1301, [1300]); (1303, [1302]); (1305, [1304]); (1307, [1306]);
   (1309, [1308]); (1311, [1310]); (1313, [1312]); (1315, [1314]); (1317, [1316]);
   (1319, [1318]); (1321, [1320]); (1323, [1322]); (1325, [1324]); (1327, [1326]);
   (1377, [1329]); (1378, [1330]); (1379, [1331]); (1380, [1332]); (1381, [1333]);
   (1382, [1334]); (1383, [1335]); (1384, [1336]); (1385, [1337]); (1386, [1338]);
   (1387, [1339]); (1388, [1340]); (1389, [1341]); (1390, [1342]); (1391, [1343]);
   (1392, [1344]); (1393, [1345]); (1394, [1346]); (1395, [1347]); (1396, [1348]);
   (1397, [1349]); (1398, [1350]); (1399, [1351]); (1400, [1352]); (1401, [1353]);
   (1402, [1354]); (1403, [1355]); (1404, [1356]); (1405, [1357]); (1406, [1358]);
   (1407, [1359]); (1408, [1360]); (1409, [1361]); (1410, [1362]); (1411, [1363]);
   (1412, [1364]); (1413, [1365]); (1414, [1366]); (1415, [1333; 1362]); (4304, [7312]);
   (4305, [7313]); (4306, [7314]); (4307, [7315]); (4308, [7316]); (4309, [7317]);
   (4310, [7318]); (4311, [7319]); (4312, [7320]); (4313, [7321]); (4314, [7322]);
   (4315, [7323]); (4316, [7324]); (4317, [7325]); (4318, [7326]); (4319, [7327]);
   (4320, [7328]); (4321, [7329]); (4322, [7330]); (4323, [7331]); (4324, [7332]);
   (4325, [7333]); (4326, [7334]); (4327, [7335]); (4328, [7336]); (4329, [7337]);
   (4330, [7338]); (4331, [7339]); (4332, [7340]); (4333, [7341]); (4334, [7342]);
   (4335, [7343]); (4336, [7344]); (4337, [7345]); (4338, [7346]); (4339, [7347]);
   (4340, [7348]); (4341, [7349]); (4342, [7350]); (4343, [7351]); (4344, [7352]);
   (4345, [7353]); (4346, [7354]); (4349, [7357]); (4350, [7358]); (4351, [7359]);
   (5112, [5104]); (5113, [5105]); (5114, [5106]); (5115, [5107]); (5116, [5108]);
   (5117, [5109]); (7296, [1042]); (7297, [1044]); (7298, [1054]); (7299, [1057]);
   (7300, [1058]); (7301, [1058]); (7302, [1066]); (7303, [1122]); (7304, [42570]);
   (7545, [42877]); (7549, [11363]); (7566, [42950]); (7681, [7680]); (7683, [7682]);
   (7685, [7684]); (7687, [7686]); (7689, [7688]); (7691, [7690]); (7693, [7692]);
   (7695, [7694]); (7697, [7696]); (7699, [7698]); (7701, [7700]); (7703, [7702]);
   (7705, [7704]); (7707, [7706]); (7709, [7708]); (7711, [7710]); (7713, [7712]);
   (7715, [7714]); (7717, [7716]); (7719, [7718]); (7721, [7720]); (7723, [7722]);
   (7725, [7724]); (7727, [7726]); (7729, [7728]); (7731, [7730]); (7733, [7732]);
   (7735, [7734]); (7737, [7736]); (7739, [7738]); (7741, [7740]); (7743, [7742]);
   (7745, [7744]); (7747, [7746]); (7749, [7748]); (7751, [7750]); (7753, [7752]);
   (7755, [7754]); (7757, [7756]); (7759, [7758]); (7761, [7760]); (7763, [7762]);
   (7765, [7764]); (7767, [7766]); (7769, [7768]); (7771, [7770]); (7773, [7772]);
   (7775, [7774]); (7777, [7776]); (7779, [7778]); (7781, [7780]); (7783, [7782]);
   (7785, [7784]); (7787, [7786]); (7789, [7788]); (7791, [7790]); (7793, [7792]);
   (7795, [7794]); (7797, [7796]); (7799, [7798]); (7801, [7800]); (7803, [7802]);
   (7805, [7804]); (7807, [7806]); (7809, [7808]); (7811, [7810]); (7813, [7812]);
   (7815, [7814]); (7817, [7816]); (7819, [7818]); (7821, [7820]); (7823, [7822]);
   (7825, [7824]); (7827, [7826]); (7829, [7828]); (7830, [72; 817]); (7831, [84; 776]);
   (7832, [87; 778]); (7833, [89; 778]); (7834, [65; 702]); (7835, [7776]); (7841, [7840]);
   (7843, [7842]); (7845, [7844]); (7847, [7846]); (7849, [7848]); (7851, [7850]);
   (7853, [7852]); (7855, [7854]); (7857, [7856]); (7859, [7858]); (7861, [7860]);
   (7863, [7862]); (7865, [7864]); (7867, [7866]); (7869, [7868]); (7871, [7870]);
   (7873, [7872]); (7875, [7874]); (7877, [7876]); (7879, [7878]); (7881, [7880]);
   (7883, [7882]); (7885, [7884]); (7887, [7886]); (7889, [7888]); (7891, [7890]);
   (7893, [7892]); (7895, [7894]); (7897, [7896]); (7899, [7898]); (7901, [7900]);
   (7903, [7902]); (7905, [7904]); (7907, [7906]); (7909, [7908]); (7911, [7910]);
   (7913, [7912]); (7915, [7914]); (7917, [7916]); (7919, [7918]); (7921, [7920]);
   (7923, [7922]); (7925, [7924]); (7927, [7926]); (7929, [7928]); (7931, [7930]);
   (7933, [7932]); (7935, [7934]); (7936, [7944]); (7937, [7945]); (7938, [7946]);
   (7939, [7947]); (7940, [7948]); (7941, [7949]); (7942, [7950]); (7943, [7951]);
   (7952, [7960]); (7953, [7961]); (7954, [7962]); (7955, [7963]); (7956, [7964]);
   (7957, [7965]); (7968, [7976]); (7969, [7977]); (7970, [7978]); (7971, [7979]);
   (7972, [7980]); (7973, [7981]); (7974, [7982]); (7975, [7983]); (7984, [7992]);
   (7985, [7993]); (7986, [7994]); (7987, [7995]); (7988, [7996]); (7989, [7997]);
   (7990, [7998]); (7991, [7999]); (8000, [8008]); (8001, [8009]); (8002, [8010]);
   (8003, [8011]); (8004, [8012]); (8005, [8013]); (8016, [933; 787]); (8017, [8025]);
   (8018, [933; 787; 768]); (8019, [8027]); (8020, [933; 787; 769]); (8021, [8029]);
   (8022, [933; 787; 834]); (8023, [8031]); (8032, [8040]); (8033, [8041]); (8034, [8042]);
   (8035, [8043]); (8036, [8044]); (8037, [8045]); (8038, [8046]); (8039, [8047]);
   (8048, [8122]); (8049, [8123]); (8050, [8136]); (8051, [8137]); (8052, [8138]);
   (8053, [8139]); (8054, [8154]); (8055, [8155]); (8056, [8184]); (8057, [8185]);
   (8058, [8170]); (8059, [8171]); (8060, [8186]); (8061, [8187]); (8064, [7944; 921]);
   (8065, [7945; 921]); (8066, [7946; 921]); (8067, [7947; 921]); (8068, [7948; 921]);
   (8069, [7949; 921]); (8070, [7950; 921]); (8071, [7951; 921]); (8072, [7944; 921]);
   (8073, [7945; 921]); (8074, [7946; 921]); (8075, [7947; 921]); (8076, [7948; 921]);
   (8077, [7949; 921]); (8078, [7950; 921]); (8079, [7951; 921]); (8080, [7976; 921]);
   (8081, [7977; 921]); (8082, [7978; 921]); (8083, [7979; 921]); (8084, [7980; 921]);
   (8085, [7981; 921]); (8086, [7982; 921]); (8087, [7983; 921]); (8088, [7976; 921]);
   (8089, [7977; 921]); (8090, [7978; 921]); (8091, [7979; 921]); (8092, [7980; 921]);
   (8093, [7981; 921]); (8094, [7982; 921]); (8095, [7983; 921]); (8096, [8040; 921]);
   (8097, [8041; 921]); (8098, [8042; 921]); (8099, [8043; 921]); (8100, [8044; 921]);
   (8101, [8045; 921]); (8102, [8046; 921]); (8103, [8047; 921]); (8104, [8040; 921]);
   (8105, [8041; 921]); (8106, [8042; 921]); (8107, [8043; 921]); (8108, [8044; 921]);
   (8109, [8045; 921]); (8110, [8046; 921]); (8111, [8047; 921]); (8112, [8120]);
   (8113, [8121]); (8114, [8122; 921]); (8115, [913; 921]); (8116, [902; 921]);
   (8118, [913; 834]); (8119, [913; 834; 921]); (8124, [913; 921]); (8126, [921]);
   (8130, [8138; 921]); (8131, [919; 921]); (8132, [905; 921]); (8134, [919; 834]);
   (8135, [919; 834; 921]); (8140, [919; 921]); (8144, [8152]); (8145, [8153]);
   (8146, [921; 776; 768]); (8147, [921; 776; 769]); (8150, [921; 834]);
   (8151, [921; 776; 834]); (8160, [8168]); (8161, [8169]); (8162, [933; 776; 768]);
   (8163, [933; 776; 769]); (8164, [929; 787]); (8165, [8172]); (8166, [933; 834]);
   (8167, [933; 776; 834]); (8178, [8186; 921]); (8179, [937; 921]); (8180, [911; 921]);
   (8182, [937; 834]); (8183, [937; 834; 921]); (8188, [937; 921]); (8526, [8498]);
   (8560, [8544]); (8561, [8545]); (8562, [8546]); (8563, [8547]); (8564, [8548]);
   (8565, [8549]); (8566, [8550]); (8567, [8551]); (8568, [8552]); (8569, [8553]);
   (8570, [8554]); (8571, [8555]); (8572, [8556]); (8573, [8557]); (8574, [8558]);
   (8575, [8559]); (8580, [8579]); (9424, [9398]); (9425, [9399]); (9426, [9400]);
   (9427, [9401]); (9428, [9402]); (9429, [9403]); (9430, [9404]); (9431, [9405]);
   (9432, [9406]); (9433, [9407]); (9434, [9408]); (9435, [9409]); (9436, [9410]);
   (9437, [9411]); (9438, [9412]); (9439, [9413]); (9440, [9414]); (9441, [9415]);
   (9442, [9416]); (9443, [9417]); (9444, [9418]); (9445, [9419]); (9446, [9420]);
   (9447, [9421]); (9448, [9422]); (9449, [9423]); (11312, [11264]); (11313, [11265]);
   (11314, [11266]); (11315, [11267]); (11316, [11268]); (11317, [11269]); (11318, [11270]);
   (11319, [11271]); (11320, [11272]); (11321, [11273]); (11322, [11274]); (11323, [11275]);
   (11324, [11276]); (11325, [11277]); (11326, [11278]); (11327, [11279]); (11328, [11280]);
   (11329, [11281]); (11330, [11282]); (11331, [11283]); (11332, [11284]); (11333, [11285]);
   (11334, [11286]); (11335, [11287]); (11336, [11288]); (11337, [11289]); (11338, [11290]);
   (11339, [11291]); (11340, [11292]); (11341, [11293]); (11342, [11294]); (11343, [11295]);
   (11344, [11296]); (11345, [11297]); (11346, [11298]); (11347, [11299]); (11348, [11300]);
   (11349, [11301]); (11350, [11302]); (11351, [11303]); (11352, [11304]); (11353, [11305]);
   (11354, [11306]); (11355, [11307]); (11356, [11308]); (11357, [11309]); (11358, [11310]);
   (11359, [11311]); (11361, [11360]); (11365, [570]); (11366, [574]); (11368, [11367]);
   (11370, [11369]); (11372, [11371]); (11379, [11378]); (11382, [11381]); (11393, [11392]);
   (11395, [11394]); (11397, [11396]); (11399, [11398]); (11401, [11400]); (11403, [11402]);
   (11405, [11404]); (11407, [11406]); (11409, [11408]); (11411, [11410]); (11413, [11412]);
   (11415, [11414]); (11417, [11416]); (11419, [11418]); (11421, [11420]); (11423, [11422]);
   (11425, [11424]); (11427, [11426]); (11429, [11428]); (11431, [11430]); (11433, [11432]);
   (11435, [11434]); (11437, [11436]); (11439, [11438]); (11441, [11440]); (11443, [11442]);
   (11445, [11444]); (11447, [11446]); (11449, [11448]); (11451, [11450]); (11453, [11452]);
   (11455, [11454]); (11457, [11456]); (11459, [11458]); (11461, [11460]); (11463, [11462]);
   (11465, [11464]); (11467, [11466]); (11469, [11468]); (11471, [11470]); (11473, [11472]);
   (11475, [11474]); (11477, [11476]); (11479, [11478]); (11481, [11480]); (11483, [11482]);
   (11485, [11484]); (11487, [11486]); (11489, [11488]); (11491, [11490]); (11500, [11499]);
   (11502, [11501]); (11507, [11506]); (11520, [4256]); (11521, [4257]); (11522, [4258]);
   (11523, [4259]); (11524, [4260]); (11525, [4261]); (11526, [4262]); (11527, [4263]);
   (11528, [4264]); (11529, [4265]); (11530, [4266]); (11531, [4267]); (11532, [4268]);
   (11533, [4269]); (11534, [4270]); (11535, [4271]); (11536, [4272]); (11537, [4273]);
   (11538, [4274]); (11539, [4275]); (11540, [4276]); (11541, [4277]); (11542, [4278]);
   (11543, [4279]); (11544, [4280]); (11545, [4281]); (11546, [4282]); (11547, [4283]);
   (11548, [4284]); (11549, [4285]); (11550, [4286]); (11551, [4287]); (11552, [4288]);
   (11553, [4289]); (11554, [4290]); (11555, [4291]); (11556, [4292]); (11557, [4293]);
   (11559, [4295]); (11565, [4301]); (42561, [42560]); (42563, [42562]); (42565, [42564]);
   (42567, [42566]); (42569, [42568]); (42571, [42570]); (42573, [42572]); (42575, [42574]);
   (42577, [42576]); (42579, [42578]); (42581, [42580]); (42583, [42582]); (42585, [42584]);
   (42587, [42586]); (42589, [42588]); (42591, [42590]); (42593, [42592]); (42595, [42594]);
   (42597, [42596]); (42599, [42598]); (42601, [42600]); (42603, [42602]); (42605, [42604]);
   (42625, [42624]); (42627, [42626]); (42629, [42628]); (42631, [42630]); (42633, [42632]);
   (42635, [42634]); (42637, [42636]); (42639, [42638]); (42641, [42640]); (42643, [42642]);
   (42645, [42644]); (42647, [42646]); (42649, [42648]); (42651, [42650]); (42787, [42786]);
   (42789, [42788]); (42791, [42790]); (42793, [42792]); (42795, [42794]); (42797, [42796]);
   (42799, [42798]); (42803, [42802]); (42805, [42804]); (42807, [42806]); (42809, [42808]);
   (42811, [42810]); (42813, [42812]); (42815, [42814]); (42817, [42816]); (42819, [42818]);
   (42821, [42820]); (42823, [42822]); (42825, [42824]); (42827, [42826]); (42829, [42828]);
   (42831, [42830]); (42833, [42832]); (42835, [42834]); (42837, [42836]); (42839, [42838]);
   (42841, [42840]); (42843, [42842]); (42845, [42844]); (42847, [42846]); (42849, [42848]);
   (42851, [42850]); (42853, [42852]); (42855, [42854]); (42857, [42856]); (42859, [42858]);
   (42861, [42860]); (42863, [42862]); (42874, [42873]); (42876, [42875]); (42879, [42878]);
   (42881, [42880]); (42883, [42882]); (42885, [42884]); (42887, [42886]); (42892, [42891]);
   (42897, [42896]); (42899, [42898]); (42900, [42948]); (42903, [42902]); (42905, [42904]);
   (42907, [42906]); (42909, [42908]); (42911, [42910]); (42913, [42912]); (42915, [42914]);
   (42917, [42916]); (42919, [42918]); (42921, [42920]); (42933, [42932]); (42935, [42934]);
   (42937, [42936]); (42939, [42938]); (42941, [42940]); (42943, [42942]); (42945, [42944]);
   (42947, [42946]); (42952, [42951]); (42954, [42953]); (42961, [42960]); (42967, [42966]);
   (42969, [42968]); (42998, [42997]); (43859, [42931]); (43888, [5024]); (43889, [5025]);
   (43890, [5026]); (43891, [5027]); (43892, [5028]); (43893, [5029]); (43894, [5030]);
   (43895, [5031]); (43896, [5032]); (43897, [5033]); (43898, [5034]); (43899, [5035]);
   (43900, [5036]); (43901, [5037]); (43902, [5038]); (43903, [5039]); (43904, [5040]);
   (43905, [5041]); (43906, [5042]); (43907, [5043]); (43908, [5044]); (43909, [5045]);
   (43910, [5046]); (43911, [5047]); (43912, [5048]); (43913, [5049]); (43914, [5050]);
   (43915, [5051]); (43916, [5052]); (43917, [5053]); (43918, [5054]); (43919, [5055]);
   (43920, [5056]); (43921, [5057]); (43922, [5058]); (43923, [5059]); (43924, [5060]);
   (43925, [5061]); (43926, [5062]); (43927, [5063]); (43928, [5064]); (43929, [5065]);
   (43930, [5066]); (43931, [5067]); (43932, [5068]); (43933, [5069]); (43934, [5070]);
   (43935, [5071]); (43936, [5072]); (43937, [5073]); (43938, [5074]); (43939, [5075]);
   (43940, [5076]); (43941, [5077]); (43942, [5078]); (43943, [5079]); (43944, [5080]);
   (43945, [5081]); (43946, [5082]); (43947, [5083]); (43948, [5084]); (43949, [5085]);
   (43950, [5086]); (43951, [5087]); (43952, [5088]); (43953, [5089]); (43954, [5090]);
   (43955, [5091]); (43956, [5092]); (43957, [5093]); (43958, [5094]); (43959, [5095]);
   (43960, [5096]); (43961, [5097]); (43962, [5098]); (43963, [5099]); (43964, [5100]);
   (43965, [5101]); (43966, [5102]); (43967, [5103]); (64256, [70; 70]); (64257, [70; 73]);
   (64258, [70; 76]); (64259, [70; 70; 73]); (64260, [70; 70; 76]); (64261, [83; 84]);
   (64262, [83; 84]); (64275, [1348; 1350]); (64276, [1348; 1333]); (64277, [1348; 1339]);
   (64278, [1358; 1350]); (64279, [1348; 1341]); (65345, [65313]); (65346, [65314]);
   (65347, [65315]); (65348, [65316]); (65349, [65317]); (65350, [65318]); (65351, [65319]);
   (65352, [65320]); (65353, [65321]); (65354, [65322]); (65355, [65323]); (65356, [65324]);
   (65357, [65325]); (65358, [65326]); (65359, [65327]); (65360, [65328]); (65361, [65329]);
   (65362, [65330]); (65363, [65331]); (65364, [65332]); (65365, [65333]); (65366, [65334]);
   (65367, [65335]); (65368, [65336]); (65369, [65337]); (65370, [65338]); (66600, [66560]);
   (66601, [66561]); (66602, [66562]); (66603, [66563]); (66604, [66564]); (66605, [66565]);
   (66606, [66566]); (66607, [66567]); (66608, [66568]); (66609, [66569]); (66610, [66570]);
   (66611, [66571]); (66612, [66572]); (66613, [66573]); (66614, [66574]); (66615, [66575]);
   (66616, [66576]); (66617, [66577]); (66618, [66578]); (66619, [66579]); (66620, [66580]);
   (66621, [66581]); (66622, [66582]); (66623, [66583]); (66624, [66584]); (66625, [66585]);
   (66626, [66586]); (66627, [66587]); (66628, [66588]); (66629, [66589]); (66630, [66590]);
   (66631, [66591]); (66632, [66592]); (66633, [66593]); (66634, [66594]); (66635, [66595]);
   (66636, [66596]); (66637, [66597]); (66638, [66598]); (66639, [66599]); (66776, [66736]);
   (66777, [66737]); (66778, [66738]); (66779, [66739]); (66780, [66740]); (66781, [66741]);
   (66782, [66742]); (66783, [66743]); (66784, [66744]); (66785, [66745]); (66786, [66746]);
   (66787, [66747]); (66788, [66748]); (66789, [66749]); (66790, [66750]); (66791, [66751]);
   (66792, [66752]); (66793, [66753]); (66794, [66754]); (66795, [66755]); (66796, [66756]);
   (66797, [66757]); (66798, [66758]); (66799, [66759]); (66800, [66760]); (66801, [66761]);
   (66802, [66762]); (66803, [66763]); (66804, [66764]); (66805, [66765]); (66806, [66766]);
   (66807, [66767]); (66808, [66768]); (66809, [66769]); (66810, [66770]); (66811, [66771]);
   (66967, [66928]); (66968, [66929]); (66969, [66930]); (66970, [66931]); (66971, [66932]);
   (66972, [66933]); (66973, [66934]); (66974, [66935]); (66975, [66936]); (66976, [66937]);
   (66977, [66938]); (66979, [66940]); (66980, [66941]); (66981, [66942]); (66982, [66943]);
   (66983, [66944]); (66984, [66945]); (66985, [66946]); (66986, [66947]); (66987, [66948]);
   (66988, [66949]); (66989, [66950]); (66990, [66951]); (66991, [66952]); (66992, [66953]);
   (66993, [66954]); (66995, [66956]); (66996, [66957]); (66997, [66958]); (66998, [66959]);
   (66999, [66960]); (67000, [66961]); (67001, [66962]); (67003, [66964]); (67004, [66965]);
   (68800, [68736]); (68801, [68737]); (68802, [68738]); (68803, [68739]); (68804, [68740]);
   (68805, [68741]); (68806, [68742]); (68807, [68743]); (68808, [68744]); (68809, [68745]);
   (68810, [68746]); (68811, [68747]); (68812, [68748]); (68813, [68749]); (68814, [68750]);
   (68815, [68751]); (68816, [68752]); (68817, [68753]); (68818, [68754]); (68819, [68755]);
   (68820, [68756]); (68821, [68757]); (68822, [68758]); (68823, [68759]); (68824, [68760]);
   (68825, [68761]); (68826, [68762]); (68827, [68763]); (68828, [68764]); (68829, [68765]);
   (68830, [68766]); (68831, [68767]); (68832, [68768]); (68833, [68769]); (68834, [68770]);
   (68835, [68771]); (68836, [68772]); (68837, [68773]); (68838, [68774]); (68839, [68775]);
   (68840, [68776]); (68841, [68777]); (68842, [68778]); (68843, [68779]); (68844, [68780]);
   (68845, [68781]); (68846, [68782]); (68847, [68783]); (68848, [68784]); (68849, [68785]);
   (68850, [68786]); (71872, [71840]); (71873, [71841]); (71874, [71842]); (71875, [71843]);
   (71876, [71844]); (71877, [71845]); (71878, [71846]); (71879, [71847]); (71880, [71848]);
   (71881, [71849]); (71882, [71850]); (71883, [71851]); (71884, [71852]); (71885, [71853]);
   (71886, [71854]); (71887, [71855]); (71888, [71856]); (71889, [71857]); (71890, [71858]);
   (71891, [71859]); (71892, [71860]); (71893, [71861]); (71894, [71862]); (71895, [71863]);
   (71896, [71864]); (71897, [71865]); (71898, [71866]); (71899, [71867]); (71900, [71868]);
   (71901, [71869]); (71902, [71870]); (71903, [71871]); (93792, [93760]); (93793, [93761]);
   (93794, [93762]); (93795, [93763]); (93796, [93764]); (93797, [93765]); (93798, [93766]);
   (93799, [93767]); (93800, [93768]); (93801, [93769]); (93802, [93770]); (93803, [93771]);
   (93804, [93772]); (93805, [93773]); (93806, [93774]); (93807, [93775]); (93808, [93776]);
   (93809, [93777]); (93810, [93778]); (93811, [93779]); (93812, [93780]); (93813, [93781]);
   (93814, [93782]); (93815, [93783]); (93816, [93784]); (93817, [93785]); (93818, [93786]);
   (93819, [93787]); (93820, [93788]); (93821, [93789]); (93822, [93790]); (93823, [93791]);
   (125218, [125184]); (125219, [125185]); (125220, [125186]); (125221, [125187]);
   (125222, [125188]); (125223, [125189]); (125224, [125190]); (125225, [125191]);
   (125226, [125192]); (125227, [125193]); (125228, [125194]); (125229, [125195]);
   (125230, [125196]); (125231, [125197]); (125232, [125198]); (125233, [125199]);
   (125234, [125200]); (125235, [125201]); (125236, [125202]); (125237, [125203]);
   (125238, [125204]); (125239, [125205]); (125240, [125206]); (125241, [125207]);
   (125242, [125208]); (125243, [125209]); (125244, [125210]); (125245, [125211]);
   (125246, [125212]); (125247, [125213]); (125248, [125214]); (125249, [125215]);
   (125250, [125216]); (125251, [125217])]%N.

Definition uppercase (code : N) : option (list N) :=
  option_map snd (find (fun entry => (fst entry =? code)%N) uppercase_table).

(** The payload of a continuation byte [10xxxxxx]. *)
Definition continuation (c : ascii) : option N :=
  let b := N_of_ascii c in
  if ((128 <=? b) && (b <? 192))%N then Some (b - 128)%N else None.

(** The code point held by a sequence of two, three or four bytes. *)
Definition two_bytes (c0 c1 : ascii) : option N :=
  let b0 := N_of_ascii c0 in
  if ((192 <=? b0) && (b0 <? 224))%N then
    match continuation c1 with
    | Some x1 => Some ((b0 - 192) * 64 + x1)%N
    | None => None
    end
  else None.

Definition three_bytes (c0 c1 c2 : ascii) : option N :=
  let b0 := N_of_ascii c0 in
  if ((224 <=? b0) && (b0 <? 240))%N then
    match continuation c1, continuation c2 with
    | Some x1, Some x2 => Some (((b0 - 224) * 64 + x1) * 64 + x2)%N
    | _, _ => None
    end
  else None.

Definition four_bytes (c0 c1 c2 c3 : ascii) : option N :=
  let b0 := N_of_ascii c0 in
  if ((240 <=? b0) && (b0 <? 248))%N then
    match continuation c1, continuation c2, continuation c3 with
    | Some x1, Some x2, Some x3 => Some ((((b0 - 240) * 64 + x1) * 64 + x2) * 64 + x3)%N
    | _, _, _ => None
    end
  else None.

(** The UTF-8 encoding of a code point. *)
Definition encode (code : N) : string :=
  let tail (n : N) := ascii_of_N (128 + n mod 64)%N in
  if (code <? 128)%N then String (ascii_of_N code) ""
  else if (code <? 2048)%N then
    String (ascii_of_N (192 + code / 64)%N) (String (tail code) "")
  else if (code <? 65536)%N then
    String (ascii_of_N (224 + code / 4096)%N)
      (String (tail (code / 64)%N) (String (tail code) ""))
  else
    String (ascii_of_N (240 + code / 262144)%N)
      (String (tail (code / 4096)%N) (String (tail (code / 64)%N) (String (tail code) ""))).

Definition encode_all (codes : list N) : string :=
  fold_right (fun code text => (encode code ++ text)%string) "" codes.

Definition is_ascii (c : ascii) : bool := (N_of_ascii c <? 128)%N.

(** [s.upper()]. A character that the table does not list, and a byte that
    starts no character, is kept as it is. *)
Fixpoint upper (s : string) : string :=
  match s with
  | EmptyString => EmptyString
  | String c0 s1 =>
      if is_ascii c0 then String (upper_ascii c0) (upper s1)
      else
        let kept := String c0 (upper s1) in
        let mapped (code : N) (rest : string) :=
          match uppercase code with
          | Some codes => (encode_all codes ++ rest)%string
          | None => kept
          end in
        match s1 with
        | String c1 s2 =>
            match two_bytes c0 c1 with
            | Some code => mapped code (upper s2)
            | None =>
                match s2 with
                | String c2 s3 =>
                    match three_bytes c0 c1 c2 with
                    | Some code => mapped code (upper s3)
                    | None =>
                        match s3 with
                        | String c3 s4 =>
                            match four_bytes c0 c1 c2 c3 with
                            | Some code => mapped code (upper s4)
                            | None => kept
                            end
                        | EmptyString => kept
                        end
                    end
                | EmptyString => kept
                end
            end
        | EmptyString => kept
        end
  end.

(** [s.endswith(suffix)]: some tail of [s] is [suffix]. *)
Fixpoint endswith (s suffix : string) : bool :=
  (s =? suffix) ||
  match s with
  | EmptyString => false
  | String _ s' => endswith s' suffix
  end.

(** [s[:n]] for [0 <= n]. *)
Fixpoint take (n : nat) (s : string) : string :=
  match n, s with
  | S n', String c s' => String c (take n' s')
  | _, _ => EmptyString
  end.

(** [s[:-k]]: Python reads [-0] as [0], so [s[:-0]] is empty. *)
Definition drop_last (k : nat) (s : string) : string :=
  match k with
  | O => EmptyString
  | _ => take (String.length s - k) s
  end.

(** [sub in s]. *)
Fixpoint contains (sub s : string) : bool :=
  String.prefix sub s ||
  match s with
  | EmptyString => false
  | String _ s' => contains sub s'
  end.

(** [s.split('.')[0]]. *)
Fixpoint before_dot (s : string) : string :=
  match s with
  | EmptyString => EmptyString
  | String c s' => if Ascii.eqb c "."%char then EmptyString else String c (before_dot s')
  end.

(** Truthiness of a [str]. *)
Definition truthy (s : string) : bool := negb (s =? "").

(** [x in xs] for a list of strings. *)
Definition mem (x : string) (xs : list string) : bool :=
  existsb (String.eqb x) xs.

(** [min(a, b)]: the first argument unless the second is smaller. *)
Definition min (a b : float) : float :=
  if PrimFloat.ltb b a then b else a.

(** [float(n)] for the length of a list. *)
Definition float_of_nat (n : nat) : float :=
  PrimFloat.of_uint63 (Uint63.of_Z (Z.of_nat n)).

(** A value passed as a volume. Python does not check its type: the handler
    converts it with [float()], which gives a float (for a float, an int or
    a numeric string) or raises ([ValueError] for the string ['abc'],
    [TypeError] for a list, [OverflowError] for an int out of range). The
    value is known by what the conversion gives. *)
Inductive value :=
| Number (x : PrimFloat.float)
| NotNumber (e : exn).

(** A value passed as a total volume is also divided by a number of
    positions ([v / n], line 164), which gives another value or raises (a
    [TypeError] for a string). *)
Record total := {
  whole : value;
  truediv : nat -> outcome value }.

(** The total that is the float [x]. *)
Definition of_float (x : PrimFloat.float) : total :=
  {| whole := Number x;
     truediv := fun n => Ok (Number (x / float_of_nat n)) |}.

(** [float(v)]. *)
Definition float (v : value) : outcome PrimFloat.float :=
  match v with
  | Number x => Ok x
  | NotNumber e => Raised e
  end.

End Py.

(** ** The MetaTrader5 package: constants and reply records *)

Definition ORDER_TYPE_BUY : Z := 0.
Definition ORDER_TYPE_SELL : Z := 1.
Definition TRADE_ACTION_DEAL : Z := 1.
Definition ORDER_TIME_GTC : Z := 0.
Definition ORDER_FILLING_IOC : Z := 1.
Definition TRADE_RETCODE_DONE : Z := 10009.
Definition TIMEFRAME_M1 : Z := 1.

Module Tick.
Record t := { bid : float; ask : float }.
End Tick.

Module SymbolInfo.
Record t := { name : string; visible : bool }.
End SymbolInfo.

Module AccountInfo.
Record t := { login : Z; server : string; balance : float; leverage : Z }.
End AccountInfo.

Module TradePosition.
Record t := {
  ticket : Z;
  type : Z;
  volume : float;
  price_open : float;
  symbol : string }.
End TradePosition.

Module OrderSendResult.
Record t := {
  retcode : Z;
  deal : Z;
  order : Z;
  volume : float;
  price : float;
  comment : string }.
End OrderSendResult.

(** The request dictionary handed to [mt5.order_send]; the key ["position"]
    is present in closing requests only. *)
Module TradeRequest.
Record t := {
  action : Z;
  position : option Z;
  symbol : string;
  volume : float;
  type : Z;
  price : float;
  deviation : Z;
  magic : Z;
  comment : string;
  type_time : Z;
  type_filling : Z }.
End TradeRequest.

(** The sample returned by [mt5.copy_rates_from_pos]: its field names become
    the data frame's columns. *)
Module Rates.
Record t := { columns : list string; rows : nat }.
End Rates.

(** [position._asdict()], with the key ["broker_symbol"] that [get_positions]
    adds when it strips the suffix. *)
Module PositionDict.
Record t := {
  ticket : Z;
  type : Z;
  volume : float;
  price_open : float;
  symbol : string;
  broker_symbol : option string }.

Definition of_position (p : TradePosition.t) : t :=
  {| ticket := TradePosition.ticket p;
     type := TradePosition.type p;
     volume := TradePosition.volume p;
     price_open := TradePosition.price_open p;
     symbol := TradePosition.symbol p;
     broker_symbol := None |}.
End PositionDict.

(** [mt5.last_error()]: a code and a description. *)
Definition last_error : Type := Z * string.

(** The constants imported from [.config]. *)
Record config := {
  MT5_ACCOUNT : Z;
  MT5_PASSWORD : string;
  MT5_SERVER : string;
  MT5_PATH : string;
  DEFAULT_VOLUME : float;
  MT5_DEFAULT_SUFFIX : string }.

(** ** Calls to the outside world *)

Inductive positions_filter :=
| AllPositions
| BySymbol (symbol : string)
| ByTicket (ticket : Z).

Inductive call : Type -> Type :=
| Initialize (path : string) : call bool
| Login (account : Z) (password server : string) : call bool
| Shutdown : call unit
| LastError : call last_error
| AccountInfoGet : call (option AccountInfo.t)
| TerminalInfo : call bool  (* whether [mt5.terminal_info()] is truthy *)
| SymbolsGet : call (option (list SymbolInfo.t))
| SymbolSelect (symbol : string) (enable : bool) : call bool
| CopyRatesFromPos (symbol : string) (timeframe : Z) (start count : nat)
    : call (outcome (option Rates.t))
| SymbolInfoGet (symbol : string) : call (option SymbolInfo.t)
| SymbolInfoTick (symbol : string) : call (option Tick.t)
| PositionsGet (filter : positions_filter) : call (option (list TradePosition.t))
| OrderSend (request : TradeRequest.t) : call (option OrderSendResult.t)
| Sleep (seconds : float) : call unit.

(** A call together with the answer it got. *)
Inductive event :=
| Event {R : Type} (c : call R) (r : R).

(** The terminal answers a call from the calls made before it. *)
Definition terminal : Type := forall R : Type, list event -> call R -> R.

(** ** Formatted strings, logging and results *)

(** An f-string is kept as its literal parts and interpolated values. *)
Inductive piece :=
| Lit (s : string)
| Str (s : string)
| OptStr (s : option string)
| Strs (l : list string)
| Int (z : Z)
| Nat (n : nat)
| Flt (f : float)
| Val (v : Py.value)
| Err (e : last_error)
| Exn (e : exn)
| Req (r : TradeRequest.t)
| Res (r : OrderSendResult.t).

Definition fstring := list piece.

Inductive level := INFO | WARNING | ERROR.

(** The result dictionaries: a key that may be absent is an [option].
    ["details"] is the broker's record for a single order and the list of
    per-position results for a close-all. *)
#[local] Set Warnings "-register-all".
Inductive result : Type := mkResult {
  success : bool;
  message : fstring;
  closed_count : option nat;
  failed_count : option nat;
  total_volume_closed : option float;
  details : option (OrderSendResult.t + list result);
  volume_closed : option float }.

(** [{"success": s, "message": m}]. *)
Definition plain_result (s : bool) (m : fstring) : result :=
  mkResult s m None None None None None.

(** The text of an f-string, given how interpolated values are shown. *)
Definition piece_text (show : piece -> string) (p : piece) : string :=
  match p with
  | Lit s => s
  | _ => show p
  end.

Definition render (show : piece -> string) (m : fstring) : string :=
  fold_right (fun p text => (piece_text show p ++ text)%string) "" m.

(** A message that is not empty however its values are shown. *)
Definition message_nonempty (m : fstring) : Prop :=
  forall show, render show m <> "".

(** No count and no closed volume is present in the result. *)
Definition no_partial_success (r : result) : Prop :=
  closed_count r = None /\ failed_count r = None /\
  total_volume_closed r = None /\ volume_closed r = None.

(** ** The handler's state and the monad *)

Record MT5Handler := {
  connected : bool;
  volume_column : option string;
  symbol_map : list (string * string) }.

Record world := {
  self : MT5Handler;
  calls : list event;
  logs : list (level * fstring) }.

Definition M (A : Type) : Type := world -> outcome A * world.

Definition ret {A} (a : A) : M A := fun w => (Ok a, w).

Definition bind {A B} (c : M A) (k : A -> M B) : M B :=
  fun w =>
    match c w with
    | (Ok a, w') => k a w'
    | (Raised e, w') => (Raised e, w')
    end.

Definition raise {A} (e : exn) : M A := fun w => (Raised e, w).

(** A pure operation that may raise. *)
Definition lift {A} (o : outcome A) : M A := fun w => (o, w).

(** [try: body except Exception as e: handler e]. *)
Definition try_except {A} (body : M A) (handler : exn -> M A) : M A :=
  fun w =>
    match body w with
    | (Ok a, w') => (Ok a, w')
    | (Raised e, w') => handler e w'
    end.

Declare Scope py_scope.
Delimit Scope py_scope with py.
Notation "x <- c1 ;; c2" := (bind c1 (fun x => c2))
  (at level 61, c1 at next level, right associativity) : py_scope.
Notation "c1 ;; c2" := (bind c1 (fun _ => c2))
  (at level 61, right associativity) : py_scope.
Local Open Scope py_scope.

Definition log (l : level) (m : fstring) : M unit :=
  fun w => (Ok tt, {| self := self w; calls := calls w; logs := logs w ++ [(l, m)] |}).

Definition set_connected (b : bool) : M unit :=
  fun w => (Ok tt,
            {| self := {| connected := b;
                          volume_column := volume_column (self w);
                          symbol_map := symbol_map (self w) |};
               calls := calls w; logs := logs w |}).

Definition set_volume_column (c : option string) : M unit :=
  fun w => (Ok tt,
            {| self := {| connected := connected (self w);
                          volume_column := c;
                          symbol_map := symbol_map (self w) |};
               calls := calls w; logs := logs w |}).

Definition get_connected : M bool := fun w => (Ok (connected (self w)), w).

(** Attribute access on a value that may be [None]. *)
Definition attr {A B} (what : string) (o : option A) (f : A -> B) : M B :=
  match o with
  | Some a => ret (f a)
  | None => raise (AttributeError what)
  end.

(** ** The methods of [MT5Handler] *)

Section Handler.

Variable cfg : config.
Variable mt5 : terminal.

(** A call to the terminal: answered by the oracle and recorded. *)
Definition api {R} (c : call R) : M R :=
  fun w =>
    let r := mt5 R (calls w) c in
    (Ok r, {| self := self w; calls := calls w ++ [Event c r]; logs := logs w |}).

(** A call that may itself raise. *)
Definition api_raising {R} (c : call (outcome R)) : M R :=
  r <- api c ;;
  match r with
  | Ok v => ret v
  | Raised e => raise e
  end.

(** [for symbol in test_symbols: if mt5.symbol_select(symbol, True): ...; break] *)
Fixpoint first_selectable (test_symbols : list string) : M (option string) :=
  match test_symbols with
  | [] => ret None
  | symbol :: rest =>
      selected <- api (SymbolSelect symbol true) ;;
      if selected then ret (Some symbol) else first_selectable rest
  end.

Definition _check_data_columns : M unit :=
  try_except
    (all_symbols <- api SymbolsGet ;;
     match all_symbols with
     | None | Some [] =>
         log WARNING [Lit "No symbols found in MT5"] ;;
         set_volume_column None
     | Some (first :: _) =>
         found <- first_selectable ["EURUSD.r"; "EURUSD"] ;;
         test_symbol <-
           match found with
           | Some s => ret s
           | None =>
               let s := SymbolInfo.name first in
               api (SymbolSelect s true) ;; ret s
           end ;;
         rates <- api_raising (CopyRatesFromPos test_symbol TIMEFRAME_M1 0 1) ;;
         match rates with
         | Some r =>
             if (0 <? Rates.rows r)%nat then
               log INFO [Lit "MT5 data columns for "; Str test_symbol; Lit ": ";
                         Strs (Rates.columns r)] ;;
               if Py.mem "volume" (Rates.columns r) then
                 set_volume_column (Some "volume")
               else if Py.mem "tick_volume" (Rates.columns r) then
                 set_volume_column (Some "tick_volume")
               else
                 set_volume_column None ;;
                 log WARNING
                   [Lit "Neither 'volume' nor 'tick_volume' column found in MT5 data"]
             else
               log WARNING [Lit "Couldn't retrieve sample data for "; Str test_symbol] ;;
               set_volume_column None
         | None =>
             log WARNING [Lit "Couldn't retrieve sample data for "; Str test_symbol] ;;
             set_volume_column None
         end
     end)
    (fun e =>
       log ERROR [Lit "Error checking data columns: "; Exn e] ;;
       set_volume_column None).

(** [for pair in common_pairs: matches = ...; if matches: logger.info(...)] *)
Fixpoint log_variations (symbol_names common_pairs : list string) : M unit :=
  match common_pairs with
  | [] => ret tt
  | pair' :: rest =>
      let matches := filter (Py.contains pair') symbol_names in
      match matches with
      | [] => ret tt
      | _ => log INFO [Lit "Found "; Str pair'; Lit " variations: "; Strs matches]
      end ;;
      log_variations symbol_names rest
  end.

Definition initialize_mt5 : M bool :=
  initialized <- api (Initialize (MT5_PATH cfg)) ;;
  if negb initialized then
    e <- api LastError ;;
    log ERROR [Lit "MT5 initialize() failed. Error code: "; Err e] ;;
    ret false
  else
    authorized <- api (Login (MT5_ACCOUNT cfg) (MT5_PASSWORD cfg) (MT5_SERVER cfg)) ;;
    if negb authorized then
      e <- api LastError ;;
      log ERROR [Lit "MT5 login failed. Error code: "; Err e] ;;
      api Shutdown ;;
      ret false
    else
      account_info <- api AccountInfoGet ;;
      match account_info with
      | Some a =>
          log INFO [Lit "Connected to MT5 - Account: "; Int (AccountInfo.login a);
                    Lit ", Server: "; Str (AccountInfo.server a);
                    Lit ", Balance: "; Flt (AccountInfo.balance a);
                    Lit ", Leverage: 1:"; Int (AccountInfo.leverage a)]
      | None => log INFO [Lit "Connected to MT5 but couldn't retrieve account info"]
      end ;;
      _check_data_columns ;;
      all_symbols <- api SymbolsGet ;;
      match all_symbols with
      | None | Some [] => ret tt
      | Some symbols =>
          let symbol_names := map SymbolInfo.name symbols in
          log INFO [Lit "Total symbols available: "; Nat (List.length symbol_names)] ;;
          log_variations symbol_names ["EURUSD"; "GBPUSD"; "USDJPY"]
      end ;;
      set_connected true ;;
      ret true.

(** The constructor: the attributes, then a first connection attempt. *)
Definition __init__ : M unit :=
  (fun w =>
     (Ok tt,
      {| self := {| connected := false; volume_column := None; symbol_map := [] |};
         calls := calls w;
         logs := logs w |})) ;;
  initialize_mt5 ;;
  ret tt.

Definition check_connection : M bool :=
  is_connected <- get_connected ;;
  alive <- (if is_connected then api TerminalInfo else ret false) ;;
  if negb alive then
    log WARNING [Lit "MT5 connection lost, attempting to reconnect..."] ;;
    set_connected false ;;
    initialize_mt5
  else ret true.

Definition list_available_symbols : M (list string) :=
  ok <- check_connection ;;
  if negb ok then ret []
  else
    all_symbols <- api SymbolsGet ;;
    match all_symbols with
    | None | Some [] => ret []
    | Some symbols => ret (map SymbolInfo.name symbols)
    end.

(** The body of the loop of [get_positions]: the record as a dictionary,
    with the suffix removed from the symbol it shows. *)
Definition position_as_dict (position : TradePosition.t) : PositionDict.t :=
  let position_dict := PositionDict.of_position position in
  if Py.truthy (MT5_DEFAULT_SUFFIX cfg)
     && Py.endswith (PositionDict.symbol position_dict) (MT5_DEFAULT_SUFFIX cfg)
  then
    {| PositionDict.ticket := PositionDict.ticket position_dict;
       PositionDict.type := PositionDict.type position_dict;
       PositionDict.volume := PositionDict.volume position_dict;
       PositionDict.price_open := PositionDict.price_open position_dict;
       PositionDict.symbol :=
         Py.drop_last (String.length (MT5_DEFAULT_SUFFIX cfg))
                      (PositionDict.symbol position_dict);
       PositionDict.broker_symbol := Some (PositionDict.symbol position_dict) |}
  else position_dict.

(** What [get_positions] asks the terminal for (lines 327-333): the
    qualified symbol, the symbol as given, or every position. *)
Definition positions_query (symbol : option string) : positions_filter :=
  match symbol with
  | Some s =>
      if Py.truthy (MT5_DEFAULT_SUFFIX cfg)
         && negb (Py.endswith s (MT5_DEFAULT_SUFFIX cfg))
      then
        let mt5_symbol := (s ++ MT5_DEFAULT_SUFFIX cfg)%string in
        BySymbol mt5_symbol
      else if Py.truthy s then BySymbol s
      else AllPositions
  | None => AllPositions
  end.

Definition get_positions (symbol : option string) : M (list PositionDict.t) :=
  ok <- check_connection ;;
  if negb ok then ret []
  else
    positions <- api (PositionsGet (positions_query symbol)) ;;
    match positions with
    | None | Some [] => ret []
    | Some found => ret (map position_as_dict found)
    end.

Definition close_position (position_id : Z) (close_volume : option Py.value)
  : M result :=
  ok <- check_connection ;;
  if negb ok then ret (plain_result false [Lit "MT5 connection failed"])
  else
    positions <- api (PositionsGet (ByTicket position_id)) ;;
    match positions with
    | None | Some [] =>
        ret (plain_result false [Lit "Position "; Int position_id; Lit " not found"])
    | Some (position :: _) =>
        let position_symbol := TradePosition.symbol position in
        volume_to_close <-
          match close_volume with
          | None => ret (TradePosition.volume position)
          | Some v =>
              x <- lift (Py.float v) ;;
              ret (Py.min x (TradePosition.volume position))
          end ;;
        log INFO [Lit "Position "; Int position_id; Lit " - Total volume: ";
                  Flt (TradePosition.volume position); Lit ", Closing volume: ";
                  Flt volume_to_close] ;;
        let close_type :=
          if (TradePosition.type position =? ORDER_TYPE_BUY)%Z
          then ORDER_TYPE_SELL else ORDER_TYPE_BUY in
        price <-
          (if (TradePosition.type position =? ORDER_TYPE_BUY)%Z then
             tick <- api (SymbolInfoTick position_symbol) ;;
             attr "bid" tick Tick.bid
           else
             tick <- api (SymbolInfoTick position_symbol) ;;
             attr "ask" tick Tick.ask) ;;
        let request :=
          {| TradeRequest.action := TRADE_ACTION_DEAL;
             TradeRequest.position := Some position_id;
             TradeRequest.symbol := position_symbol;
             TradeRequest.volume := volume_to_close;
             TradeRequest.type := close_type;
             TradeRequest.price := price;
             TradeRequest.deviation := 30;
             TradeRequest.magic := 234000;
             TradeRequest.comment := "Close position";
             TradeRequest.type_time := ORDER_TIME_GTC;
             TradeRequest.type_filling := ORDER_FILLING_IOC |} in
        log INFO [Lit "Closing position "; Int position_id; Lit ": "; Req request] ;;
        result <- api (OrderSend request) ;;
        match result with
        | None =>
            error_code <- api LastError ;;
            log ERROR [Lit "Close position failed with error code: "; Err error_code] ;;
            ret (plain_result false
                   [Lit "Close position failed. Error: "; Err error_code])
        | Some r =>
            if negb (OrderSendResult.retcode r =? TRADE_RETCODE_DONE)%Z then
              log ERROR [Lit "Close position failed. Details: "; Res r] ;;
              ret {| success := false;
                     message := [Lit "Close position failed. Error code: ";
                                 Int (OrderSendResult.retcode r)];
                     closed_count := None;
                     failed_count := None;
                     total_volume_closed := None;
                     details := Some (inl r);
                     volume_closed := None |}
            else
              log INFO [Lit "Position "; Int position_id;
                        Lit " closed successfully. Volume closed: ";
                        Flt volume_to_close; Lit ", Details: "; Res r] ;;
              ret {| success := true;
                     message := [Lit "Position "; Int position_id;
                                 Lit " closed (Volume: "; Flt volume_to_close; Lit ")"];
                     closed_count := None;
                     failed_count := None;
                     total_volume_closed := None;
                     details := Some (inl r);
                     volume_closed := Some volume_to_close |}
        end
    end.

(** [result.get('volume_closed', 0)]. *)
Definition get_volume_closed (r : result) : float :=
  match volume_closed r with
  | Some v => v
  | None => 0%float
  end.

(** The loop of [close_all_positions], with its four accumulators. *)
Fixpoint close_loop (positions : list PositionDict.t)
    (volume_per_position : option Py.value)
    (closed_count failed_count : nat) (results : list result)
    (total_volume_closed : float)
  : M (nat * nat * list result * float) :=
  match positions with
  | [] => ret (closed_count, failed_count, results, total_volume_closed)
  | position :: rest =>
      result <- close_position (PositionDict.ticket position) volume_per_position ;;
      let results := results ++ [result] in
      if success result then
        close_loop rest volume_per_position (closed_count + 1) failed_count results
          (total_volume_closed + get_volume_closed result)%float
      else
        close_loop rest volume_per_position closed_count (failed_count + 1) results
          total_volume_closed
  end.

Definition close_all_positions (symbol : option string)
    (close_volume : option Py.total) : M result :=
  ok <- check_connection ;;
  if negb ok then ret (plain_result false [Lit "MT5 connection failed"])
  else
    positions <- get_positions symbol ;;
    match positions with
    | [] =>
        ret {| success := true;
               message := [Lit "No positions to close"];
               closed_count := Some 0%nat;
               failed_count := None;
               total_volume_closed := None;
               details := None;
               volume_closed := None |}
    | _ =>
        volume_per_position <-
          match close_volume with
          | Some v =>
              if (1 <? List.length positions)%nat then
                each <- lift (Py.truediv v (List.length positions)) ;;
                log INFO [Lit "Closing "; Val (Py.whole v); Lit " total volume across ";
                          Nat (List.length positions); Lit " positions (";
                          Val each; Lit " each)"] ;;
                ret (Some each)
              else ret (Some (Py.whole v))
          | None => ret None
          end ;;
        acc <- close_loop positions volume_per_position 0 0 [] 0%float ;;
        let '(closed, failed, results, total) := acc in
        log INFO [Lit "Closed "; Nat closed; Lit " positions, "; Nat failed;
                  Lit " failed for symbol: "; OptStr symbol;
                  Lit ", Total volume closed: "; Flt total] ;;
        ret {| success := (failed =? 0)%nat;
               message := [Lit "Closed "; Nat closed; Lit " positions, ";
                           Nat failed; Lit " failed"];
               closed_count := Some closed;
               failed_count := Some failed;
               total_volume_closed := Some total;
               details := Some (inr results);
               volume_closed := None |}
    end.

(** The broker-qualified symbol (lines 224-228 of [place_trade]). *)
Definition qualified (symbol : string) : string :=
  if Py.truthy (MT5_DEFAULT_SUFFIX cfg)
     && negb (Py.endswith symbol (MT5_DEFAULT_SUFFIX cfg))
  then (symbol ++ MT5_DEFAULT_SUFFIX cfg)%string
  else symbol.

(** The order type and the price for a direction (lines 258-266); [None]
    for a direction that is neither a buy nor a sell. *)
Definition order_side (order_type : string) (tick : Tick.t) : option (Z * float) :=
  if Py.mem (Py.upper order_type) ["BUY"; "LONG"] then
    let mt5_order_type := ORDER_TYPE_BUY in
    let current_price := Tick.ask tick in
    Some (mt5_order_type, current_price)
  else if Py.mem (Py.upper order_type) ["SELL"; "SHORT"] then
    let mt5_order_type := ORDER_TYPE_SELL in
    let current_price := Tick.bid tick in
    Some (mt5_order_type, current_price)
  else None.

(** [place_trade] from the suffix check to the end (lines 223-312). *)
Definition open_market_order (symbol order_type : string) (volume : Py.value)
    (comment : string) : M result :=
  let mt5_symbol := qualified symbol in
  (if Py.truthy (MT5_DEFAULT_SUFFIX cfg)
      && negb (Py.endswith symbol (MT5_DEFAULT_SUFFIX cfg))
   then log INFO [Lit "Adding suffix: "; Str symbol; Lit " -> "; Str mt5_symbol]
   else ret tt) ;;
  log INFO [Lit "Trading symbol: "; Str mt5_symbol] ;;
  symbol_info <- api (SymbolInfoGet mt5_symbol) ;;
  match symbol_info with
  | None =>
      all_symbols <- api SymbolsGet ;;
      let similar_symbols :=
        match all_symbols with
        | None | Some [] => []
        | Some symbols =>
            let base_name := Py.before_dot symbol in
            filter (Py.contains base_name) (map SymbolInfo.name symbols)
        end in
      log ERROR [Lit "Symbol "; Str mt5_symbol; Lit " not found. Similar symbols: ";
                 Strs similar_symbols] ;;
      ret (plain_result false [Lit "Symbol "; Str mt5_symbol; Lit " not found"])
  | Some info =>
      selected <-
        (if negb (SymbolInfo.visible info) then
           log INFO [Lit "Symbol "; Str mt5_symbol;
                     Lit " is not visible, trying to add it"] ;;
           api (SymbolSelect mt5_symbol true)
         else ret true) ;;
      if negb selected then
        ret (plain_result false [Lit "Failed to select symbol "; Str mt5_symbol])
      else
        tick <- api (SymbolInfoTick mt5_symbol) ;;
        match tick with
        | None =>
            ret (plain_result false
                   [Lit "Failed to get market data for "; Str mt5_symbol])
        | Some tick =>
            log INFO [Lit "Current "; Str mt5_symbol; Lit " prices - Bid: ";
                      Flt (Tick.bid tick); Lit ", Ask: "; Flt (Tick.ask tick)] ;;
            match order_side order_type tick with
            | None =>
                ret (plain_result false [Lit "Invalid order type: "; Str order_type])
            | Some (mt5_order_type, current_price) =>
                volume <- lift (Py.float volume) ;;
                let request :=
                  {| TradeRequest.action := TRADE_ACTION_DEAL;
                     TradeRequest.position := None;
                     TradeRequest.symbol := mt5_symbol;
                     TradeRequest.volume := volume;
                     TradeRequest.type := mt5_order_type;
                     TradeRequest.price := current_price;
                     TradeRequest.deviation := 30;
                     TradeRequest.magic := 234000;
                     TradeRequest.comment := comment;
                     TradeRequest.type_time := ORDER_TIME_GTC;
                     TradeRequest.type_filling := ORDER_FILLING_IOC |} in
                log INFO [Lit "Sending order: "; Req request] ;;
                result <- api (OrderSend request) ;;
                match result with
                | None =>
                    error_code <- api LastError ;;
                    log ERROR [Lit "Order failed with error code: "; Err error_code] ;;
                    ret (plain_result false [Lit "Order failed. Error: "; Err error_code])
                | Some r =>
                    if negb (OrderSendResult.retcode r =? TRADE_RETCODE_DONE)%Z then
                      log ERROR [Lit "Order failed. Details: "; Res r] ;;
                      ret {| success := false;
                             message := [Lit "Order failed. Error code: ";
                                         Int (OrderSendResult.retcode r)];
                             closed_count := None;
                             failed_count := None;
                             total_volume_closed := None;
                             details := Some (inl r);
                             volume_closed := None |}
                    else
                      log INFO [Lit "Order executed successfully. Details: "; Res r] ;;
                      ret {| success := true;
                             message := [Lit "Order executed: "; Str order_type;
                                         Lit " "; Str symbol];
                             closed_count := None;
                             failed_count := None;
                             total_volume_closed := None;
                             details := Some (inl r);
                             volume_closed := None |}
                end
            end
        end
  end.

(** [price], [stop_loss] and [take_profit] are accepted and never read. The
    defaults of the source ([volume=DEFAULT_VOLUME], [comment="TV Signal"],
    [close_existing=True]) are for the caller to pass. *)
Definition place_trade (symbol order_type : string) (volume : Py.value)
    (price : float) (stop_loss take_profit : option float) (comment : string)
    (close_existing : bool) : M result :=
  ok <- check_connection ;;
  if negb ok then ret (plain_result false [Lit "MT5 connection failed"])
  else
    (if close_existing then
       log INFO [Lit "Closing existing positions for "; Str symbol;
                 Lit " before placing new order"] ;;
       close_result <- close_all_positions (Some symbol) None ;;
       log INFO (Lit "Close result: " :: message close_result)
     else ret tt) ;;
    (if close_existing then api (Sleep 0.5%float) else ret tt) ;;
    open_market_order symbol order_type volume comment.

Definition close_session : M unit :=
  is_connected <- get_connected ;;
  if is_connected then
    api Shutdown ;;
    set_connected false ;;
    log INFO [Lit "MT5 connection closed"]
  else ret tt.

End Handler.

Arguments api mt5 {R} c w.
Arguments api_raising mt5 {R} c w.

(** ** Issuing close calls one after the other *)

(** The results of [close_position] applied to each (ticket, volume) in turn;
    an exception ends the sequence. *)
Fixpoint close_each (cfg : config) (mt5 : terminal)
    (requests : list (Z * option Py.value)) : M (list result) :=
  match requests with
  | [] => ret []
  | (ticket, volume) :: rest =>
      r <- close_position cfg mt5 ticket volume ;;
      rs <- close_each cfg mt5 rest ;;
      ret (r :: rs)
  end.

(** The number of results with the given [success] flag. *)
Definition count_success (flag : bool) (results : list result) : nat :=
  List.length (filter (fun r => Bool.eqb (success r) flag) results).

(** The volume closed by the successful results, added up in order. *)
Definition sum_volume_closed (start : float) (results : list result) : float :=
  fold_left
    (fun total r => if success r then (total + get_volume_closed r)%float else total)
    results start.

(** ** Reading the history of calls *)

(** The order requests submitted, with the terminal's answers. *)
Definition submission (e : event) : option (TradeRequest.t * option OrderSendResult.t) :=
  match e with
  | @Event R c r =>
      match c in call T return T -> option (TradeRequest.t * option OrderSendResult.t) with
      | OrderSend request => fun reply => Some (request, reply)
      | _ => fun _ => None
      end r
  end.

Fixpoint submissions (history : list event)
  : list (TradeRequest.t * option OrderSendResult.t) :=
  match history with
  | [] => []
  | e :: rest =>
      match submission e with
      | Some s => s :: submissions rest
      | None => submissions rest
      end
  end.

(** The quotes fetched, with the symbol asked for. *)
Definition quote (e : event) : option (string * option Tick.t) :=
  match e with
  | @Event R c r =>
      match c in call T return T -> option (string * option Tick.t) with
      | SymbolInfoTick symbol => fun reply => Some (symbol, reply)
      | _ => fun _ => None
      end r
  end.

Fixpoint quotes (history : list event) : list (string * option Tick.t) :=
  match history with
  | [] => []
  | e :: rest =>
      match quote e with
      | Some q => q :: quotes rest
      | None => quotes rest
      end
  end.

(** The error codes read with [mt5.last_error()]. *)
Fixpoint errors_read (history : list event) : list last_error :=
  match history with
  | [] => []
  | @Event R c r :: rest =>
      match c in call T return T -> list last_error with
      | LastError => fun code => code :: errors_read rest
      | _ => fun _ => errors_read rest
      end r
  end.

(** The queries for positions, in order. *)
Fixpoint position_queries (history : list event) : list positions_filter :=
  match history with
  | [] => []
  | Event c _ :: rest =>
      match c with
      | PositionsGet f => f :: position_queries rest
      | _ => position_queries rest
      end
  end.

(** ** The vocabulary of the properties *)

(** [emits P c]: whatever its outcome, [c] only appends calls that satisfy [P]. *)
Definition emits {A} (P : event -> Prop) (c : M A) : Prop :=
  forall w, exists new, calls (snd (c w)) = calls w ++ new /\ Forall P new.

(** The calls made while connecting: none of them looks up a symbol's
    record or quote, asks for positions, sends an order or sleeps. *)
Definition connecting (e : event) : Prop :=
  match e with
  | Event c _ =>
      match c with
      | Initialize _ | Login _ _ _ | Shutdown | LastError | AccountInfoGet
      | TerminalInfo | SymbolsGet | SymbolSelect _ _ | CopyRatesFromPos _ _ _ _ => True
      | SymbolInfoGet _ | SymbolInfoTick _ | PositionsGet _ | OrderSend _ | Sleep _ => False
      end
  end.

(** The calls of the close-all step: those made while connecting, the
    queries for positions (with the filter [q], or by ticket), the quotes
    and the closing orders. It contains no lookup of a symbol's record, no
    order that opens a position and no pause. *)
Definition closing (q : positions_filter) (e : event) : Prop :=
  match e with
  | Event c _ =>
      match c with
      | Initialize _ | Login _ _ _ | Shutdown | LastError | AccountInfoGet
      | TerminalInfo | SymbolsGet | SymbolSelect _ _ | CopyRatesFromPos _ _ _ _ => True
      | PositionsGet f => f = q \/ exists ticket, f = ByTicket ticket
      | SymbolInfoTick _ => True
      | OrderSend request => TradeRequest.position request <> None
      | SymbolInfoGet _ | Sleep _ => False
      end
  end.

(** The calls made for the new order: every symbol they carry is [symbol]
    and the order closes no position. They contain no query for positions,
    no pause and no call of the connection phase other than listing the
    symbols, selecting [symbol] and reading the last error. *)
Definition opening (symbol : string) (e : event) : Prop :=
  match e with
  | Event c _ =>
      match c with
      | SymbolInfoGet s | SymbolInfoTick s | SymbolSelect s _ => s = symbol
      | OrderSend request =>
          TradeRequest.position request = None /\ TradeRequest.symbol request = symbol
      | SymbolsGet | LastError => True
      | Initialize _ | Login _ _ _ | Shutdown | AccountInfoGet | TerminalInfo
      | CopyRatesFromPos _ _ _ _ | PositionsGet _ | Sleep _ => False
      end
  end.

(** The world after a line is logged. *)
Definition logged (l : level) (m : fstring) (w : world) : world :=
  {| self := self w; calls := calls w; logs := logs w ++ [(l, m)] |}.

(** The world in which the new order is placed after a close-all that
    returned [close_result]: its message is logged and the pause is taken. *)
Definition paused (close_result : result) (w : world) : world :=
  {| self := self w;
     calls := calls w ++ [Event (Sleep 0.5%float) tt];
     logs := logs w ++ [(INFO, Lit "Close result: " :: message close_result)] |}.

(** [close_volume] once [close_position] has converted it (lines 376-381):
    no volume, a float, or the exception of the conversion. *)
Definition converted (close_volume : option Py.value) : outcome (option float) :=
  match close_volume with
  | None => Ok None
  | Some v =>
      match Py.float v with
      | Ok x => Ok (Some x)
      | Raised e => Raised e
      end
  end.

(** The value [close_all_positions] hands to each close call (lines
    162-167): the total divided by the number of positions when there are
    several, the total itself otherwise. *)
Definition volume_per_position (close_volume : option Py.total)
    (positions : list PositionDict.t) : outcome (option Py.value) :=
  match close_volume with
  | Some v =>
      if (1 <? List.length positions)%nat then
        match Py.truediv v (List.length positions) with
        | Ok each => Ok (Some each)
        | Raised e => Raised e
        end
      else Ok (Some (Py.whole v))
  | None => Ok None
  end.

(** The request [close_position] builds for a position and a quote, given
    the converted [close_volume]. *)
Definition closing_request (position_id : Z) (close_volume : option float)
    (position : TradePosition.t) (tick : Tick.t) : TradeRequest.t :=
  let is_long := (TradePosition.type position =? ORDER_TYPE_BUY)%Z in
  {| TradeRequest.action := TRADE_ACTION_DEAL;
     TradeRequest.position := Some position_id;
     TradeRequest.symbol := TradePosition.symbol position;
     TradeRequest.volume :=
       match close_volume with
       | None => TradePosition.volume position
       | Some v => Py.min v (TradePosition.volume position)
       end;
     TradeRequest.type := if is_long then ORDER_TYPE_SELL else ORDER_TYPE_BUY;
     TradeRequest.price := if is_long then Tick.bid tick else Tick.ask tick;
     TradeRequest.deviation := 30;
     TradeRequest.magic := 234000;
     TradeRequest.comment := "Close position";
     TradeRequest.type_time := ORDER_TIME_GTC;
     TradeRequest.type_filling := ORDER_FILLING_IOC |}.

(** The request [place_trade] builds (lines 269-280). *)
Definition opening_request (mt5_symbol : string) (type : Z) (price volume : float)
    (comment : string) : TradeRequest.t :=
  {| TradeRequest.action := TRADE_ACTION_DEAL;
     TradeRequest.position := None;
     TradeRequest.symbol := mt5_symbol;
     TradeRequest.volume := volume;
     TradeRequest.type := type;
     TradeRequest.price := price;
     TradeRequest.deviation := 30;
     TradeRequest.magic := 234000;
     TradeRequest.comment := comment;
     TradeRequest.type_time := ORDER_TIME_GTC;
     TradeRequest.type_filling := ORDER_FILLING_IOC |}.

(** The result [place_trade] returns for an order that was answered (lines
    295-312). *)
Definition order_result (symbol order_type : string) (answer : OrderSendResult.t)
  : result :=
  if (OrderSendResult.retcode answer =? TRADE_RETCODE_DONE)%Z then
    {| success := true;
       message := [Lit "Order executed: "; Str order_type; Lit " "; Str symbol];
       closed_count := None;
       failed_count := None;
       total_volume_closed := None;
       details := Some (inl answer);
       volume_closed := None |}
  else
    {| success := false;
       message := [Lit "Order failed. Error code: "; Int (OrderSendResult.retcode answer)];
       closed_count := None;
       failed_count := None;
       total_volume_closed := None;
       details := Some (inl answer);
       volume_closed := None |}.

(** The terminal knows [symbol], as a symbol that is visible or can be
    selected, and has a quote for it, whatever was called before. *)
Definition tradable (mt5 : terminal) (symbol : string) : Prop :=
  (forall history, exists info,
      mt5 _ history (SymbolInfoGet symbol) = Some info /\
      (SymbolInfo.visible info = true \/
       forall history', mt5 _ history' (SymbolSelect symbol true) = true)) /\
  (forall history, mt5 _ history (SymbolInfoTick symbol) <> None).

(** The order was answered [TRADE_RETCODE_DONE]. *)
Definition answered_done (reply : option OrderSendResult.t) : bool :=
  match reply with
  | Some answer => (OrderSendResult.retcode answer =? TRADE_RETCODE_DONE)%Z
  | None => false
  end.

(** The volumes of the orders answered [TRADE_RETCODE_DONE], in order. *)
Definition filled_volumes (orders : list (TradeRequest.t * option OrderSendResult.t))
  : list float :=
  map (fun s => TradeRequest.volume (fst s)) (filter (fun s => answered_done (snd s)) orders).

(** How a result reports the orders submitted for it, given the error codes
    read afterwards: no order, an order left unanswered, or an answered one. *)
Definition reports (what : string) (r : result)
    (orders : list (TradeRequest.t * option OrderSendResult.t))
    (errors : list last_error) : Prop :=
  match orders with
  | [] => success r = false
  | [(_, None)] =>
      success r = false /\ details r = None /\
      exists code,
        errors = [code] /\ message r = [Lit (what ++ " Error: "); Err code]
  | [(_, Some answer)] =>
      details r = Some (inl answer) /\
      (success r = true <-> OrderSendResult.retcode answer = TRADE_RETCODE_DONE) /\
      (OrderSendResult.retcode answer <> TRADE_RETCODE_DONE ->
       success r = false /\
       message r = [Lit (what ++ " Error code: "); Int (OrderSendResult.retcode answer)])
  | _ => False
  end.

(** [never_raises c]: [c] returns a value from every state. *)
Definition never_raises {A} (c : M A) : Prop :=
  forall w, exists a, fst (c w) = Ok a.

(** [keeps c]: whatever its outcome, [c] leaves the attributes [connected]
    and [symbol_map] as they were. *)
Definition keeps {A} (c : M A) : Prop :=
  forall w,
    connected (self (snd (c w))) = connected (self w) /\
    symbol_map (self (snd (c w))) = symbol_map (self w).

(** Two states with the same [connected] flag and the same history: they
    may differ in [volume_column], in [symbol_map] and in the log. *)
Definition same_session (wa wb : world) : Prop :=
  connected (self wa) = connected (self wb) /\ calls wa = calls wb.

(** [respects c]: from two such states [c] has the same outcome and leaves
    two such states. *)
Definition respects {A} (c : M A) : Prop :=
  forall wa wb,
    same_session wa wb ->
    fst (c wa) = fst (c wb) /\ same_session (snd (c wa)) (snd (c wb)).

(** The samples of rates taken, with what the terminal answered. *)
Fixpoint samples (history : list event) : list (outcome (option Rates.t)) :=
  match history with
  | [] => []
  | @Event R c r :: rest =>
      match c in call T return T -> list (outcome (option Rates.t)) with
      | CopyRatesFromPos _ _ _ _ => fun sample => sample :: samples rest
      | _ => fun _ => samples rest
      end r
  end.

(** The fixed fields of every request the handler builds. *)
Definition market_deal (request : TradeRequest.t) : Prop :=
  TradeRequest.action request = TRADE_ACTION_DEAL /\
  TradeRequest.deviation request = 30%Z /\
  TradeRequest.magic request = 234000%Z /\
  TradeRequest.type_time request = ORDER_TIME_GTC /\
  TradeRequest.type_filling request = ORDER_FILLING_IOC.

(** The calls among which every order is such a request. *)
Definition deals_only (e : event) : Prop :=
  match e with
  | Event c _ =>
      match c with
      | OrderSend request => market_deal request
      | _ => True
      end
  end.

(** The calls of the column probe. *)
Definition probing (e : event) : Prop :=
  match e with
  | Event c _ =>
      match c with
      | SymbolsGet | SymbolSelect _ _ | CopyRatesFromPos _ _ _ _ => True
      | _ => False
      end
  end.

(** The calls that follow a successful login. *)
Definition settling (e : event) : Prop :=
  match e with
  | Event c _ =>
      match c with
      | AccountInfoGet | SymbolsGet | SymbolSelect _ _ | CopyRatesFromPos _ _ _ _ => True
      | _ => False
      end
  end.

(** ** A family of terminals for concrete runs *)

Module Demo.

Record script := {
  alive : bool;
  symbols : list SymbolInfo.t;
  open_positions : list TradePosition.t;
  tick_of : string -> option Tick.t;
  answer : TradeRequest.t -> option OrderSendResult.t;
  sample : outcome (option Rates.t) }.

Definition select (f : positions_filter) (ps : list TradePosition.t)
  : list TradePosition.t :=
  match f with
  | AllPositions => ps
  | BySymbol s => filter (fun p => TradePosition.symbol p =? s) ps
  | ByTicket t => filter (fun p => (TradePosition.ticket p =? t)%Z) ps
  end.

(** A terminal whose answers do not depend on the history. *)
Definition terminal_of (s : script) : terminal :=
  fun R _ c =>
    match c in call T return T with
    | Initialize _ => alive s
    | Login _ _ _ => alive s
    | Shutdown => tt
    | LastError => (1%Z, "Success")
    | AccountInfoGet => None
    | TerminalInfo => alive s
    | SymbolsGet => Some (symbols s)
    | SymbolSelect name _ => existsb (fun i => SymbolInfo.name i =? name) (symbols s)
    | CopyRatesFromPos _ _ _ _ => sample s
    | SymbolInfoGet name =>
        find (fun i => SymbolInfo.name i =? name) (symbols s)
    | SymbolInfoTick name => tick_of s name
    | PositionsGet f => Some (select f (open_positions s))
    | OrderSend request => answer s request
    | Sleep _ => tt
    end.

Definition cfg : config :=
  {| MT5_ACCOUNT := 1001;
     MT5_PASSWORD := "secret";
     MT5_SERVER := "Demo-Server";
     MT5_PATH := "terminal64.exe";
     DEFAULT_VOLUME := 0.5;
     MT5_DEFAULT_SUFFIX := ".r" |}.

Definition session : world :=
  {| self := {| connected := true; volume_column := Some "tick_volume";
                symbol_map := [] |};
     calls := [];
     logs := [] |}.

Definition eurusd (ticket : Z) (type : Z) (volume : float) : TradePosition.t :=
  {| TradePosition.ticket := ticket;
     TradePosition.type := type;
     TradePosition.volume := volume;
     TradePosition.price_open := 1.25;
     TradePosition.symbol := "EURUSD.r" |}.

(** The broker fills every request as asked. *)
Definition filled (request : TradeRequest.t) : option OrderSendResult.t :=
  Some {| OrderSendResult.retcode := TRADE_RETCODE_DONE;
          OrderSendResult.deal := 7;
          OrderSendResult.order := 8;
          OrderSendResult.volume := TradeRequest.volume request;
          OrderSendResult.price := TradeRequest.price request;
          OrderSendResult.comment := TradeRequest.comment request |}.

Definition quote_1_25 (_ : string) : option Tick.t :=
  Some {| Tick.bid := 1.25; Tick.ask := 1.5 |}.

Definition market (positions : list TradePosition.t) : script :=
  {| alive := true;
     symbols := [{| SymbolInfo.name := "EURUSD.r"; SymbolInfo.visible := true |}];
     open_positions := positions;
     tick_of := quote_1_25;
     answer := filled;
     sample := Ok (Some {| Rates.columns := ["time"; "open"; "tick_volume"];
                           Rates.rows := 1 |}) |}.

End Demo.

(** The broker fills the closing order of position 1 and leaves that of
    position 2 unanswered. *)
Definition one_of_two_closes : terminal :=
  Demo.terminal_of
    {| Demo.alive := true;
       Demo.symbols := [{| SymbolInfo.name := "EURUSD.r"; SymbolInfo.visible := true |}];
       Demo.open_positions := [Demo.eurusd 1 ORDER_TYPE_BUY 0.5;
                               Demo.eurusd 2 ORDER_TYPE_BUY 0.25];
       Demo.tick_of := Demo.quote_1_25;
       Demo.answer :=
         fun request =>
           match TradeRequest.position request with
           | Some 2%Z => None
           | _ => Demo.filled request
           end;
       Demo.sample := Ok None |}.

(** A terminal with one EURUSD position open and no quote available. *)
Definition no_quote : terminal :=
  Demo.terminal_of
    {| Demo.alive := true;
       Demo.symbols := [{| SymbolInfo.name := "EURUSD.r"; SymbolInfo.visible := true |}];
       Demo.open_positions := [Demo.eurusd 1 ORDER_TYPE_BUY 0.5];
       Demo.tick_of := fun _ => None;
       Demo.answer := Demo.filled;
       Demo.sample := Ok None |}.

(** A terminal that cannot be reached: no session, and [initialize] fails. *)
Definition unreachable : terminal :=
  Demo.terminal_of
    {| Demo.alive := false;
       Demo.symbols := [];
       Demo.open_positions := [Demo.eurusd 1 ORDER_TYPE_BUY 0.5];
       Demo.tick_of := Demo.quote_1_25;
       Demo.answer := Demo.filled;
       Demo.sample := Ok None |}.

(** A state in which the handler has no session. *)
Definition disconnected : world :=
  {| self := {| connected := false; volume_column := None; symbol_map := [] |};
     calls := [];
     logs := [] |}.

(** A terminal whose session answers once and is gone afterwards. *)
Definition session_lost_after_first_check : terminal :=
  fun R history c =>
    match c in call T return T with
    | TerminalInfo =>
        match history with
        | [] => true
        | _ => false
        end
    | other => unreachable _ history other
    end.

(** * Properties *)

(** ** Floats *)

Lemma SFcompare_refl_not_Lt (x : SpecFloat.spec_float) :
  SpecFloat.SFcompare x x <> Some Lt.
Proof.
  destruct x as [s | s | | s m e]; simpl; try discriminate.
  - destruct s; discriminate.
  - destruct s; rewrite Z.compare_refl, Pos.compare_cont_refl; discriminate.
Qed.

Lemma ltb_irrefl (x : float) : PrimFloat.ltb x x = false.
Proof.
  rewrite FloatAxioms.ltb_spec. unfold SpecFloat.SFltb.
  pose proof (SFcompare_refl_not_Lt (Prim2SF x)) as H.
  destruct (SpecFloat.SFcompare (Prim2SF x) (Prim2SF x)) as [[ | | ] | ];
    congruence.
Qed.

(** Python's [min] never returns more than its second argument. *)
Lemma min_not_above (a b : float) : PrimFloat.ltb b (Py.min a b) = false.
Proof.
  unfold Py.min. destruct (PrimFloat.ltb b a) eqn:E.
  - apply ltb_irrefl.
  - exact E.
Qed.

(** ** Running the monad *)

Lemma bind_ok {A B} (c : M A) (k : A -> M B) w a w1 :
  c w = (Ok a, w1) -> bind c k w = k a w1.
Proof. intros H. unfold bind. now rewrite H. Qed.

Lemma bind_raised {A B} (c : M A) (k : A -> M B) w e w1 :
  c w = (Raised e, w1) -> bind c k w = (Raised e, w1).
Proof. intros H. unfold bind. now rewrite H. Qed.

Lemma bind_inv {A B} (c : M A) (k : A -> M B) w out w' :
  bind c k w = (out, w') ->
  (exists a w1, c w = (Ok a, w1) /\ k a w1 = (out, w')) \/
  (exists e, c w = (Raised e, w') /\ out = Raised e).
Proof.
  unfold bind. destruct (c w) as [[a | e] w1]; intros H.
  - left; eauto.
  - right. inversion H; subst. eauto.
Qed.

Lemma submissions_app (h1 h2 : list event) :
  submissions (h1 ++ h2) = submissions h1 ++ submissions h2.
Proof.
  induction h1 as [ | e h1 IH]; simpl; [reflexivity | ].
  destruct (submission e); simpl; now rewrite IH.
Qed.


(** Symbolic execution of straight-line code: name each answer of the
    terminal and split on it. *)
Ltac run_step :=
  match goal with
  | |- context [match ?t with _ => _ end] =>
      lazymatch t with
      | context [match _ with _ => _ end] => fail
      | _ => destruct t eqn:?
      end
  end.

Ltac tidy_history :=
  repeat rewrite <- app_assoc; simpl app.

(** ** What a computation adds to the history *)

Section Emits.

Context {A B : Type} (P : event -> Prop).

Lemma emits_silent (c : M A) :
  (forall w, calls (snd (c w)) = calls w) -> emits P c.
Proof. intros H w. exists []. rewrite app_nil_r. auto. Qed.

Lemma emits_ret (a : A) : emits P (ret a).
Proof. now apply emits_silent. Qed.

Lemma emits_raise (e : exn) : emits P (@raise A e).
Proof. now apply emits_silent. Qed.

Lemma emits_bind (c : M A) (k : A -> M B) :
  emits P c -> (forall a, emits P (k a)) -> emits P (bind c k).
Proof.
  intros Hc Hk w. unfold bind.
  destruct (Hc w) as (n1 & E1 & F1).
  destruct (c w) as [[a | e] w1]; simpl in *.
  - destruct (Hk a w1) as (n2 & E2 & F2).
    exists (n1 ++ n2). rewrite E2, E1, app_assoc. split; [reflexivity | ].
    apply Forall_app; auto.
  - exists n1; auto.
Qed.

Lemma emits_try_except (body : M A) (handler : exn -> M A) :
  emits P body -> (forall e, emits P (handler e)) -> emits P (try_except body handler).
Proof.
  intros Hc Hk w. unfold try_except.
  destruct (Hc w) as (n1 & E1 & F1).
  destruct (body w) as [[a | e] w1]; simpl in *.
  - exists n1; auto.
  - destruct (Hk e w1) as (n2 & E2 & F2).
    exists (n1 ++ n2). rewrite E2, E1, app_assoc. split; [reflexivity | ].
    apply Forall_app; auto.
Qed.

Lemma emits_api (mt5 : terminal) (c : call A) :
  (forall r, P (Event c r)) -> emits P (api mt5 c).
Proof. intros H w. eexists; split; [reflexivity | ]. auto. Qed.

End Emits.

Lemma emits_attr {A B} P (what : string) (o : option A) (f : A -> B) :
  emits P (attr what o f).
Proof. destruct o; simpl; [apply emits_ret | apply emits_raise]. Qed.

Lemma emits_api_raising {A} P (mt5 : terminal) (c : call (outcome A)) :
  (forall r, P (Event c r)) -> emits P (api_raising mt5 c).
Proof.
  intros H. apply emits_bind; [now apply emits_api | ].
  intros [v | e]; [apply emits_ret | apply emits_raise].
Qed.

Lemma emits_log P l m : emits P (log l m).
Proof. now apply emits_silent. Qed.

Lemma emits_set_connected P b : emits P (set_connected b).
Proof. now apply emits_silent. Qed.

Lemma emits_set_volume_column P c : emits P (set_volume_column c).
Proof. now apply emits_silent. Qed.

Lemma emits_get_connected P : emits P get_connected.
Proof. now apply emits_silent. Qed.

Lemma emits_weaken {A} (P Q : event -> Prop) (c : M A) :
  (forall e, P e -> Q e) -> emits P c -> emits Q c.
Proof.
  intros H Hc w. destruct (Hc w) as (new & E & F).
  exists new; split; [assumption | ]. eapply Forall_impl; eauto.
Qed.

(** Splitting on the scrutinee of the computation under [emits]. *)
Ltac emits_case :=
  match goal with
  | |- emits _ (match ?x with _ => _ end) => destruct x
  | |- emits _ (let '(_, _) := ?x in _) => destruct x
  end.

Create HintDb emits.

Ltac emits_step :=
  first
    [ assumption
    | solve [auto 1 with emits nocore]
    | apply emits_ret | apply emits_raise | apply emits_log
    | apply emits_set_connected | apply emits_set_volume_column
    | apply emits_get_connected | apply emits_attr
    | apply emits_api; intros; cbn; solve [eauto | discriminate]
    | apply emits_api_raising; intros; cbn; solve [eauto | discriminate]
    | apply emits_bind; [ | intros ]
    | apply emits_try_except; [ | intros ]
    | emits_case ].

Ltac emits_auto := repeat emits_step.

Lemma connecting_closing q e : connecting e -> closing q e.
Proof. destruct e as [R c r]; destruct c; simpl; tauto. Qed.

Section HandlerTraces.

Variable cfg : config.
Variable mt5 : terminal.

Lemma emits_first_selectable l : emits connecting (first_selectable mt5 l).
Proof. induction l; simpl; emits_auto. Qed.

Hint Resolve emits_first_selectable : emits.

Lemma emits_check_data_columns : emits connecting (_check_data_columns mt5).
Proof. unfold _check_data_columns. emits_auto. Qed.

Lemma emits_log_variations P names pairs : emits P (log_variations names pairs).
Proof. induction pairs; simpl; emits_auto. Qed.

Hint Resolve emits_check_data_columns emits_log_variations : emits.

Lemma emits_initialize_mt5 : emits connecting (initialize_mt5 cfg mt5).
Proof. unfold initialize_mt5. emits_auto. Qed.

Hint Resolve emits_initialize_mt5 : emits.

Lemma emits_check_connection : emits connecting (check_connection cfg mt5).
Proof. unfold check_connection. emits_auto. Qed.

Lemma emits_get_positions symbol :
  emits (closing (positions_query cfg symbol)) (get_positions cfg mt5 symbol).
Proof.
  unfold get_positions.
  pose proof (emits_weaken _ _ _ (connecting_closing (positions_query cfg symbol))
                emits_check_connection).
  emits_auto.
Qed.

Lemma emits_close_position q position_id close_volume :
  emits (closing q) (close_position cfg mt5 position_id close_volume).
Proof.
  unfold close_position.
  pose proof (emits_weaken _ _ _ (connecting_closing q) emits_check_connection).
  emits_auto.
Qed.

Lemma emits_close_loop q positions :
  forall v c f rs t, emits (closing q) (close_loop cfg mt5 positions v c f rs t).
Proof.
  induction positions as [ | p rest IH]; intros; simpl.
  - apply emits_ret.
  - apply emits_bind; [apply emits_close_position | ].
    intros r. destruct (success r); apply IH.
Qed.

Hint Resolve emits_close_loop : emits.

Lemma emits_close_all_positions symbol close_volume :
  emits (closing (positions_query cfg symbol))
        (close_all_positions cfg mt5 symbol close_volume).
Proof.
  unfold close_all_positions.
  pose proof (emits_weaken _ _ _ (connecting_closing (positions_query cfg symbol))
                emits_check_connection).
  pose proof (emits_get_positions symbol).
  emits_auto.
Qed.

Lemma emits_open_market_order symbol order_type volume comment :
  emits (opening (qualified cfg symbol))
        (open_market_order cfg mt5 symbol order_type volume comment).
Proof.
  unfold open_market_order. emits_auto.
Qed.

End HandlerTraces.

Lemma position_queries_closing q history :
  Forall (closing q) history ->
  Forall (fun f => f = q \/ exists ticket, f = ByTicket ticket) (position_queries history).
Proof.
  induction 1 as [ | [R c r] rest Hc _ IH]; [constructor | ].
  destruct c; cbn; auto.
Qed.

Lemma submissions_closing q history :
  Forall (closing q) history ->
  Forall (fun s => TradeRequest.position (fst s) <> None) (submissions history).
Proof.
  induction 1 as [ | [R c r] rest Hc _ IH]; [constructor | ].
  destruct c; cbn; auto.
Qed.

(** The calls made while connecting send no order, fetch no quote and ask
    for no position. *)
Lemma connecting_no_trade history :
  Forall connecting history ->
  submissions history = [] /\ quotes history = [] /\ position_queries history = [].
Proof.
  induction 1 as [ | [R c r] rest Hc _ IH]; [repeat split | ].
  destruct c; cbn in Hc |- *; solve [exact IH | contradiction].
Qed.

(** ** Messages *)

Lemma message_nonempty_lit (c : ascii) (s : string) (rest : fstring) :
  message_nonempty (Lit (String c s) :: rest).
Proof. intros show. simpl. discriminate. Qed.

(** ** Suffixes *)

Lemma endswith_append (a suffix : string) : Py.endswith (a ++ suffix) suffix = true.
Proof.
  induction a as [ | c a IH]; simpl.
  - destruct suffix; simpl; [reflexivity | ].
    now rewrite Ascii.eqb_refl, String.eqb_refl.
  - rewrite IH. apply orb_true_r.
Qed.

Lemma endswith_empty (s : string) : Py.endswith s "" = true.
Proof. induction s as [ | c s IH]; simpl; auto. Qed.

Lemma lacking_suffix_truthy (s suffix : string) :
  Py.endswith s suffix = false -> Py.truthy suffix = true.
Proof.
  intros H. unfold Py.truthy. destruct (suffix =? "") eqn:E; [ | reflexivity].
  apply String.eqb_eq in E. subst. rewrite endswith_empty in H. discriminate.
Qed.

Lemma length_append (a b : string) :
  String.length (a ++ b) = (String.length a + String.length b)%nat.
Proof. induction a as [ | c a IH]; simpl; congruence. Qed.

Lemma take_length_append (a b : string) : Py.take (String.length a) (a ++ b) = a.
Proof. induction a as [ | c a IH]; simpl; [destruct b | ]; congruence. Qed.

Lemma drop_last_append (a suffix : string) :
  Py.truthy suffix = true ->
  Py.drop_last (String.length suffix) (a ++ suffix) = a.
Proof.
  intros H. unfold Py.drop_last.
  destruct suffix as [ | c suffix]; [discriminate | ].
  cbn [String.length]. rewrite length_append. cbn [String.length].
  replace (String.length a + S (String.length suffix) - S (String.length suffix))%nat
    with (String.length a) by lia.
  apply take_length_append.
Qed.

(** A logical symbol that lacks the suffix is qualified by appending it. *)
Lemma qualified_lacking cfg symbol :
  Py.endswith symbol (MT5_DEFAULT_SUFFIX cfg) = false ->
  qualified cfg symbol = (symbol ++ MT5_DEFAULT_SUFFIX cfg)%string /\
  positions_query cfg (Some symbol) = BySymbol (symbol ++ MT5_DEFAULT_SUFFIX cfg).
Proof.
  intros H. unfold qualified, positions_query.
  now rewrite H, (lacking_suffix_truthy _ _ H).
Qed.

(** A record under the qualified symbol is shown under the logical one. *)
Lemma position_as_dict_strips cfg symbol position :
  Py.endswith symbol (MT5_DEFAULT_SUFFIX cfg) = false ->
  TradePosition.symbol position = (symbol ++ MT5_DEFAULT_SUFFIX cfg)%string ->
  PositionDict.symbol (position_as_dict cfg position) = symbol /\
  PositionDict.broker_symbol (position_as_dict cfg position)
  = Some (symbol ++ MT5_DEFAULT_SUFFIX cfg)%string.
Proof.
  intros H Hs. unfold position_as_dict. cbn [PositionDict.of_position PositionDict.symbol].
  rewrite Hs, endswith_append, (lacking_suffix_truthy _ _ H). cbn.
  split; [apply drop_last_append, (lacking_suffix_truthy _ _ H) | reflexivity].
Qed.

(** ** The methods, read against the calls they make *)

Lemma get_positions_run cfg mt5 symbol w w0 :
  check_connection cfg mt5 w = (Ok true, w0) ->
  let reply := mt5 _ (calls w0) (PositionsGet (positions_query cfg symbol)) in
  get_positions cfg mt5 symbol w =
  (Ok (map (position_as_dict cfg) match reply with Some found => found | None => [] end),
   {| self := self w0;
      calls := calls w0 ++ [Event (PositionsGet (positions_query cfg symbol)) reply];
      logs := logs w0 |}).
Proof.
  intros Hconn reply. unfold get_positions.
  rewrite (bind_ok _ _ _ _ _ Hconn). cbn [negb].
  unfold bind, api. fold reply. destruct reply as [[ | p found] | ]; reflexivity.
Qed.

(** What [open_market_order] does, read against the calls it made: the
    lookup of the qualified symbol comes first; it raises only when the
    volume cannot be converted, after the quote was fetched and the
    direction accepted, and then submits nothing; at most one order is
    submitted, priced from the one quote fetched; the result mirrors the
    terminal's answer. *)
Lemma open_market_order_run cfg mt5 symbol order_type volume comment w out w' :
  open_market_order cfg mt5 symbol order_type volume comment w = (out, w') ->
  exists info rest,
    calls w' = calls w ++ Event (SymbolInfoGet (qualified cfg symbol)) info :: rest /\
    match out with
    | Raised e =>
        Py.float volume = Raised e /\
        submissions rest = [] /\
        exists tick,
          quotes rest = [(qualified cfg symbol, Some tick)] /\
          order_side order_type tick <> None
    | Ok r =>
        no_partial_success r /\
        message_nonempty (message r) /\
        match submissions rest with
        | [] => success r = false /\ details r = None
        | [(request, reply)] =>
            (exists tick,
                quotes rest = [(qualified cfg symbol, Some tick)] /\
                order_side order_type tick
                = Some (TradeRequest.type request, TradeRequest.price request)) /\
            TradeRequest.symbol request = qualified cfg symbol /\
            Py.float volume = Ok (TradeRequest.volume request) /\
            TradeRequest.position request = None /\
            match reply with
            | None =>
                success r = false /\ details r = None /\
                exists code,
                  errors_read rest = [code] /\
                  message r = [Lit "Order failed. Error: "; Err code]
            | Some answer =>
                details r = Some (inl answer) /\
                success r = (OrderSendResult.retcode answer =? TRADE_RETCODE_DONE)%Z /\
                (success r = false ->
                 message r = [Lit "Order failed. Error code: ";
                              Int (OrderSendResult.retcode answer)])
            end
        | _ => False
        end
    end.
Proof.
  unfold open_market_order, bind, api, log, ret, lift.
  generalize (qualified cfg symbol) as mt5_symbol. intros mt5_symbol.
  cbn -[Z.eqb order_side Py.truthy Py.endswith Py.float].
  repeat run_step; intros Hrun; inversion Hrun; subst; clear Hrun; cbn [calls];
    tidy_history;
    (do 2 eexists; split; [reflexivity | ]);
    cbn -[Z.eqb order_side Py.float];
    try (split; [repeat split | ]);
    try (split; [apply message_nonempty_lit | ]);
    cbn -[Z.eqb order_side Py.float]; repeat split; eauto; try discriminate;
    try congruence;
    try (eexists; split; reflexivity);
    try (eexists; split; [reflexivity | congruence]);
    match goal with
    | H : negb ?b = _ |- _ = ?b => destruct b; simpl in H; congruence
    end.
Qed.

(** [open_market_order] reads nothing but the history of calls. *)
Lemma open_market_order_calls_only cfg mt5 symbol order_type volume comment wa wb :
  calls wa = calls wb ->
  fst (open_market_order cfg mt5 symbol order_type volume comment wa)
  = fst (open_market_order cfg mt5 symbol order_type volume comment wb) /\
  calls (snd (open_market_order cfg mt5 symbol order_type volume comment wa))
  = calls (snd (open_market_order cfg mt5 symbol order_type volume comment wb)).
Proof.
  intros H.
  unfold open_market_order, bind, api, log, ret.
  generalize (qualified cfg symbol) as mt5_symbol. intros mt5_symbol.
  destruct wa as [sa ca la], wb as [sb cb lb]. simpl in H. subst cb.
  repeat (cbn -[Z.eqb order_side Py.truthy Py.endswith]; run_step);
    cbn; split; reflexivity.
Qed.

(** On a terminal that knows and quotes the symbol, [open_market_order]
    fetches the quote and, for a direction it accepts and a volume that
    converts, submits one order; its outcome is decided by the direction,
    the conversion and the answer to that order. *)
Lemma open_market_order_places cfg (mt5 : terminal) symbol order_type volume comment w :
  tradable mt5 (qualified cfg symbol) ->
  exists out w' info tick rest,
    open_market_order cfg mt5 symbol order_type volume comment w = (out, w') /\
    calls w' = calls w ++ Event (SymbolInfoGet (qualified cfg symbol)) (Some info) :: rest /\
    quotes rest = [(qualified cfg symbol, Some tick)] /\
    match order_side order_type tick with
    | None =>
        submissions rest = [] /\
        out = Ok (plain_result false [Lit "Invalid order type: "; Str order_type])
    | Some (type, price) =>
        match Py.float volume with
        | Raised e => submissions rest = [] /\ out = Raised e
        | Ok x =>
            exists reply,
              submissions rest
              = [(opening_request (qualified cfg symbol) type price x comment, reply)] /\
              match reply with
              | None =>
                  exists code,
                    errors_read rest = [code] /\
                    out = Ok (plain_result false [Lit "Order failed. Error: "; Err code])
              | Some answer =>
                  errors_read rest = [] /\
                  out = Ok (order_result symbol order_type answer)
              end
        end
    end.
Proof.
  intros [Hknown Hquote].
  unfold open_market_order, order_result, opening_request, bind, api, log, ret, lift.
  generalize dependent (qualified cfg symbol). intros q Hknown Hquote.
  destruct w as [s0 c0 l0].
  destruct (Py.truthy (MT5_DEFAULT_SUFFIX cfg)
            && negb (Py.endswith symbol (MT5_DEFAULT_SUFFIX cfg)));
    cbn [calls self logs];
    destruct (Hknown c0) as (info & Hinfo & Hsel); rewrite Hinfo;
    (destruct (SymbolInfo.visible info) eqn:Hvis; cbn [negb calls self logs];
     [ | destruct Hsel as [Hsel | Hsel];
         [discriminate Hsel | rewrite Hsel; cbn [negb calls self logs] ] ]);
    match goal with
    | |- context [mt5 _ ?h (SymbolInfoTick q)] =>
        destruct (mt5 _ h (SymbolInfoTick q)) as [tick | ] eqn:Htick;
        [ | exfalso; exact (Hquote _ Htick) ]
    end;
    cbn [calls self logs];
    (destruct (order_side order_type tick) as [[type price] | ] eqn:Hside;
     cbn [calls self logs];
     [ destruct volume as [x | e]; cbn [Py.float calls self logs];
       [ match goal with
         | |- context [mt5 _ ?h (OrderSend ?req)] =>
             destruct (mt5 _ h (OrderSend req)) as [answer | ] eqn:Hreply
         end;
         cbn [calls self logs];
         [ destruct (OrderSendResult.retcode answer =? TRADE_RETCODE_DONE)%Z eqn:Hdone;
           cbn [negb calls self logs] | ] | ] | ]);
    do 5 eexists;
    (split; [reflexivity | ]);
    cbn [calls]; tidy_history;
    (split; [reflexivity | ]);
    cbn [quotes quote submissions submission errors_read];
    (split; [reflexivity | ]);
    rewrite Hside;
    try (split; reflexivity);
    (eexists; split; [reflexivity | ]);
    cbn beta iota;
    try rewrite Hdone;
    try (split; reflexivity);
    eexists; split; reflexivity.
Qed.

Lemma order_side_cases order_type tick side price :
  order_side order_type tick = Some (side, price) ->
  (Py.mem (Py.upper order_type) ["BUY"; "LONG"] = true /\
   side = ORDER_TYPE_BUY /\ price = Tick.ask tick) \/
  (Py.mem (Py.upper order_type) ["SELL"; "SHORT"] = true /\
   side = ORDER_TYPE_SELL /\ price = Tick.bid tick).
Proof.
  unfold order_side.
  destruct (Py.mem (Py.upper order_type) ["BUY"; "LONG"]);
    [ | destruct (Py.mem (Py.upper order_type) ["SELL"; "SHORT"]) ];
    intros H; inversion H; auto.
Qed.

(** [place_trade] once the connection is up: the optional close-all and
    pause, then the new order. *)
Lemma place_trade_run cfg mt5 symbol order_type volume price stop_loss take_profit
    comment close_existing w w0 out w' :
  check_connection cfg mt5 w = (Ok true, w0) ->
  place_trade cfg mt5 symbol order_type volume price stop_loss take_profit comment
    close_existing w = (out, w') ->
  if close_existing then
    exists o1 w1,
      close_all_positions cfg mt5 (Some symbol) None
        (logged INFO [Lit "Closing existing positions for "; Str symbol;
                      Lit " before placing new order"] w0) = (o1, w1) /\
      match o1 with
      | Raised e => out = Raised e /\ w' = w1
      | Ok close_result =>
          open_market_order cfg mt5 symbol order_type volume comment
            (paused close_result w1) = (out, w')
      end
  else
    open_market_order cfg mt5 symbol order_type volume comment w0 = (out, w').
Proof.
  intros Hconn Hrun. unfold place_trade in Hrun.
  unfold bind at 1 in Hrun. rewrite Hconn in Hrun. cbn [negb] in Hrun.
  destruct close_existing.
  - unfold bind at 1 2 3 in Hrun. unfold log at 1 in Hrun.
    fold (logged INFO [Lit "Closing existing positions for "; Str symbol;
                       Lit " before placing new order"] w0) in Hrun.
    destruct (close_all_positions cfg mt5 (Some symbol) None _) as [[r1 | e] w1] eqn:Hclose.
    + exists (Ok r1), w1. split; [reflexivity | ].
      unfold log, bind, api in Hrun. cbn [calls self logs] in Hrun.
      destruct (mt5 unit (calls w1) (Sleep 0.5%float)). exact Hrun.
    + exists (Raised e), w1. split; [reflexivity | ].
      inversion Hrun; auto.
  - unfold bind, ret in Hrun. exact Hrun.
Qed.

(** The calls of [place_trade] after the connection check: those of the
    close-all step, the pause, then those of the new order, which begin
    with the lookup of the qualified symbol. *)
Lemma place_trade_phases cfg mt5 symbol order_type volume price stop_loss take_profit
    comment close_existing w w0 out w' :
  check_connection cfg mt5 w = (Ok true, w0) ->
  place_trade cfg mt5 symbol order_type volume price stop_loss take_profit comment
    close_existing w = (out, w') ->
  exists before pause after,
    calls w' = calls w0 ++ before ++ pause ++ after /\
    Forall (closing (positions_query cfg (Some symbol))) before /\
    Forall (opening (qualified cfg symbol)) after /\
    (close_existing = false -> before = [] /\ pause = []) /\
    match out with
    | Raised e =>
        (close_existing = true /\ pause = [] /\ after = []) \/
        (pause = (if close_existing then [Event (Sleep 0.5%float) tt] else []) /\
         exists start,
           calls start = calls w0 ++ before ++ pause /\
           open_market_order cfg mt5 symbol order_type volume comment start
           = (Raised e, w'))
    | Ok r =>
        pause = (if close_existing then [Event (Sleep 0.5%float) tt] else []) /\
        exists start,
          calls start = calls w0 ++ before ++ pause /\
          open_market_order cfg mt5 symbol order_type volume comment start = (Ok r, w')
    end.
Proof.
  intros Hconn Hrun.
  pose proof (place_trade_run _ _ _ _ _ _ _ _ _ _ _ _ _ _ Hconn Hrun) as H.
  destruct close_existing.
  - destruct H as (o1 & w1 & Hclose & H).
    destruct (emits_close_all_positions cfg mt5 (Some symbol) None
                (logged INFO [Lit "Closing existing positions for "; Str symbol;
                              Lit " before placing new order"] w0))
      as (before & Hb & Fb).
    rewrite Hclose in Hb. cbn [snd logged calls] in Hb.
    destruct o1 as [r1 | e].
    + destruct (emits_open_market_order cfg mt5 symbol order_type volume comment
                  (paused r1 w1)) as (after & Ha & Fa).
      rewrite H in Ha. cbn [snd paused calls] in Ha.
      exists before, [Event (Sleep 0.5%float) tt], after.
      split; [rewrite Ha, Hb, <- !app_assoc; reflexivity | ].
      split; [exact Fb | ]. split; [exact Fa | ]. split; [discriminate | ].
      assert (Hstart : calls (paused r1 w1)
                       = calls w0 ++ before ++ [Event (Sleep 0.5%float) tt]).
      { cbn [paused calls]. rewrite Hb, <- app_assoc. reflexivity. }
      destruct out as [r | e].
      * split; [reflexivity | ]. exists (paused r1 w1). split; [exact Hstart | exact H].
      * right. split; [reflexivity | ].
        exists (paused r1 w1). split; [exact Hstart | exact H].
    + destruct H as [-> ->].
      exists before, [], []. rewrite !app_nil_r.
      repeat split; auto; discriminate.
  - destruct (emits_open_market_order cfg mt5 symbol order_type volume comment w0)
      as (after & Ha & Fa).
    rewrite H in Ha. cbn [snd] in Ha.
    exists [], [], after. cbn [app].
    split; [exact Ha | ]. split; [constructor | ]. split; [exact Fa | ].
    split; [auto | ].
    destruct out as [r | e].
    + split; [reflexivity | ]. exists w0. split; [now rewrite app_nil_r | exact H].
    + right. split; [reflexivity | ].
      exists w0. split; [now rewrite app_nil_r | exact H].
Qed.

(** What [close_position] does after the connection check, read against
    the calls it made. *)
Lemma close_position_run cfg mt5 position_id close_volume w o0 w0 out w' :
  check_connection cfg mt5 w = (o0, w0) ->
  close_position cfg mt5 position_id close_volume w = (out, w') ->
  match o0 with
  | Raised e => out = Raised e /\ w' = w0
  | Ok false => out = Ok (plain_result false [Lit "MT5 connection failed"]) /\ w' = w0
  | Ok true =>
      let found := mt5 _ (calls w0) (PositionsGet (ByTicket position_id)) in
      exists rest,
        calls w' = calls w0 ++ Event (PositionsGet (ByTicket position_id)) found :: rest /\
        match found with
        | None | Some [] =>
            rest = [] /\
            out = Ok (plain_result false
                        [Lit "Position "; Int position_id; Lit " not found"])
        | Some (position :: _) =>
            match converted close_volume with
            | Raised e => rest = [] /\ out = Raised e
            | Ok volume =>
                let quoted :=
                  mt5 _ (calls w0 ++ [Event (PositionsGet (ByTicket position_id)) found])
                    (SymbolInfoTick (TradePosition.symbol position)) in
                exists rest',
                  rest
                  = Event (SymbolInfoTick (TradePosition.symbol position)) quoted :: rest' /\
                  match quoted with
                  | None => rest' = [] /\ exists what, out = Raised (AttributeError what)
                  | Some tick =>
                      let request := closing_request position_id volume position tick in
                      exists reply r,
                        out = Ok r /\
                        submissions rest' = [(request, reply)] /\
                        quotes rest' = [] /\
                        closed_count r = None /\ failed_count r = None /\
                        total_volume_closed r = None /\
                        message_nonempty (message r) /\
                        volume_closed r
                        = (if success r then Some (TradeRequest.volume request) else None) /\
                        match reply with
                        | None =>
                            success r = false /\ details r = None /\
                            exists code,
                              errors_read rest' = [code] /\
                              message r = [Lit "Close position failed. Error: "; Err code]
                        | Some answer =>
                            details r = Some (inl answer) /\
                            success r
                            = (OrderSendResult.retcode answer =? TRADE_RETCODE_DONE)%Z /\
                            (success r = false ->
                             message r = [Lit "Close position failed. Error code: ";
                                          Int (OrderSendResult.retcode answer)])
                        end
                  end
            end
        end
  end.
Proof.
  intros Hconn Hrun. unfold close_position in Hrun.
  unfold bind at 1 in Hrun. rewrite Hconn in Hrun.
  destruct o0 as [[ | ] | e]; cbn [negb] in Hrun.
  - revert Hrun.
    unfold closing_request, converted, Py.float, bind, api, log, attr, ret, raise, lift.
    destruct w0 as [s0 c0 l0].
    repeat (cbn -[Z.eqb Py.min]; run_step);
      cbn -[Z.eqb Py.min]; intros Hrun; inversion Hrun; subst; clear Hrun;
      tidy_history;
      (eexists; split; [reflexivity | ]); cbn -[Z.eqb Py.min];
      try (split; reflexivity);
      (eexists; split; [reflexivity | ]); cbn -[Z.eqb Py.min];
      try (split; [reflexivity | eexists; reflexivity]);
      (do 2 eexists; split; [reflexivity | ]);
      repeat match goal with
        | H : (_ =? _)%Z = _ |- _ => rewrite H
        end;
      cbn -[Z.eqb Py.min];
      repeat split; eauto; try apply message_nonempty_lit; try discriminate;
      try (eexists; split; reflexivity);
      match goal with
      | H : negb ?b = _ |- _ = ?b => destruct b; simpl in H; congruence
      end.
  - inversion Hrun; auto.
  - inversion Hrun; auto.
Qed.

(** With a position found and no quote for its symbol, [close_position]
    raises: the exception of the conversion if the volume given cannot be
    converted, [AttributeError] otherwise. *)
Lemma close_position_without_quote cfg mt5 position_id close_volume w w0
    position others :
  check_connection cfg mt5 w = (Ok true, w0) ->
  mt5 _ (calls w0) (PositionsGet (ByTicket position_id)) = Some (position :: others) ->
  (forall history, mt5 _ history (SymbolInfoTick (TradePosition.symbol position)) = None) ->
  match converted close_volume with
  | Ok _ =>
      exists what,
        fst (close_position cfg mt5 position_id close_volume w)
        = Raised (AttributeError what)
  | Raised e => fst (close_position cfg mt5 position_id close_volume w) = Raised e
  end.
Proof.
  intros Hconn Hfound Hquote.
  destruct (close_position cfg mt5 position_id close_volume w) as [out w'] eqn:Hrun.
  pose proof (close_position_run _ _ _ _ _ _ _ _ _ Hconn Hrun) as H.
  cbv iota zeta in H. destruct H as (rest & _ & H).
  rewrite Hfound in H.
  destruct (converted close_volume) as [volume | e]; [ | apply H].
  destruct H as (rest' & _ & H).
  rewrite Hquote in H. destruct H as (_ & what & H). eauto.
Qed.

Lemma success_iff_done (r : result) (answer : OrderSendResult.t) :
  success r = (OrderSendResult.retcode answer =? TRADE_RETCODE_DONE)%Z ->
  (success r = true <-> OrderSendResult.retcode answer = TRADE_RETCODE_DONE) /\
  (OrderSendResult.retcode answer <> TRADE_RETCODE_DONE -> success r = false).
Proof.
  intros ->. split; [apply Z.eqb_eq | apply Z.eqb_neq].
Qed.

(** ** The shape of the results *)

Lemma place_trade_result cfg mt5 symbol order_type volume price stop_loss take_profit
    comment close_existing w r w' :
  place_trade cfg mt5 symbol order_type volume price stop_loss take_profit comment
    close_existing w = (Ok r, w') ->
  message_nonempty (message r) /\ no_partial_success r.
Proof.
  intros Hrun.
  destruct (check_connection cfg mt5 w) as [[[ | ] | e] w0] eqn:Hconn.
  - destruct (place_trade_phases _ _ _ _ _ _ _ _ _ _ _ _ _ _ Hconn Hrun)
      as (_ & _ & _ & _ & _ & _ & _ & _ & start & _ & Horder).
    destruct (open_market_order_run _ _ _ _ _ _ _ _ _ Horder)
      as (_ & _ & _ & Hshape & Hmsg & _).
    auto.
  - unfold place_trade in Hrun. rewrite (bind_ok _ _ _ _ _ Hconn) in Hrun.
    inversion Hrun; subst. split; [apply message_nonempty_lit | repeat split].
  - unfold place_trade in Hrun. rewrite (bind_raised _ _ _ _ _ Hconn) in Hrun.
    discriminate.
Qed.

Lemma close_position_result cfg mt5 position_id close_volume w r w' :
  close_position cfg mt5 position_id close_volume w = (Ok r, w') ->
  message_nonempty (message r) /\
  closed_count r = None /\ failed_count r = None /\ total_volume_closed r = None /\
  (success r = false -> volume_closed r = None) /\
  (success r = true -> volume_closed r <> None).
Proof.
  intros Hrun.
  destruct (check_connection cfg mt5 w) as [o0 w0] eqn:Hconn.
  pose proof (close_position_run _ _ _ _ _ _ _ _ _ Hconn Hrun) as H.
  destruct o0 as [[ | ] | e].
  - cbv zeta in H. destruct H as (rest & _ & H).
    destruct (mt5 _ (calls w0) (PositionsGet (ByTicket position_id)))
      as [[ | position others] | ].
    + destruct H as (_ & H). inversion H; subst.
      repeat split; try apply message_nonempty_lit; discriminate.
    + destruct (converted close_volume) as [volume | e];
        [ | destruct H as (_ & H); discriminate H].
      cbv zeta in H. destruct H as (rest' & _ & H).
      destruct (mt5 _ _ (SymbolInfoTick _)) as [tick | ].
      * destruct H as (reply & r' & Hr & _ & _ & Hc & Hf & Ht & Hm & Hv & _).
        inversion Hr; subst r'. repeat split; auto; intros Hs; rewrite Hs in Hv.
        -- exact Hv.
        -- rewrite Hv. discriminate.
      * destruct H as (_ & what & H). discriminate.
    + destruct H as (_ & H). inversion H; subst.
      repeat split; try apply message_nonempty_lit; discriminate.
  - destruct H as (H & _). inversion H; subst.
    repeat split; try apply message_nonempty_lit; discriminate.
  - destruct H as (H & _). discriminate.
Qed.

Lemma close_all_positions_result cfg mt5 symbol close_volume w r w' :
  close_all_positions cfg mt5 symbol close_volume w = (Ok r, w') ->
  message_nonempty (message r) /\ volume_closed r = None /\
  (success r = false ->
   (closed_count r = None /\ failed_count r = None /\
    total_volume_closed r = None /\ details r = None) \/
   (exists closed failed total results,
       closed_count r = Some closed /\ failed_count r = Some failed /\
       (0 < failed)%nat /\ total_volume_closed r = Some total /\
       details r = Some (inr results))).
Proof.
  intros Hrun. unfold close_all_positions in Hrun.
  apply bind_inv in Hrun. destruct Hrun as [(ok & w0 & _ & Hrun) | (e & _ & H)];
    [ | discriminate].
  destruct ok; cbn [negb] in Hrun.
  - apply bind_inv in Hrun.
    destruct Hrun as [(positions & w1 & _ & Hrun) | (e & _ & H)]; [ | discriminate].
    destruct positions as [ | p rest].
    + inversion Hrun; subst. cbn.
      repeat split; try apply message_nonempty_lit; discriminate.
    + apply bind_inv in Hrun.
      destruct Hrun as [(v & w2 & _ & Hrun) | (e & _ & H)]; [ | discriminate].
      apply bind_inv in Hrun.
      destruct Hrun as [([[[closed failed] results] total] & w3 & _ & Hrun)
                       | (e & _ & H)]; [ | discriminate].
      unfold bind, log, ret in Hrun. inversion Hrun; subst. cbn.
      repeat split; try apply message_nonempty_lit.
      intros Hs. right. exists closed, failed, total, results.
      repeat split. apply Nat.eqb_neq in Hs. lia.
  - inversion Hrun; subst. cbn.
    repeat split; try apply message_nonempty_lit. intros _. left. repeat split.
Qed.

(** ** The loop of [close_all_positions] *)

Lemma count_success_cons flag r rs :
  count_success flag (r :: rs)
  = ((if Bool.eqb (success r) flag then 1 else 0) + count_success flag rs)%nat.
Proof. unfold count_success. simpl. destruct (Bool.eqb (success r) flag); reflexivity. Qed.

(** The loop issues the close calls one after the other and folds their
    results into its accumulators. *)
Lemma close_loop_each cfg mt5 positions v :
  forall closed failed results total w,
    close_loop cfg mt5 positions v closed failed results total w =
    match close_each cfg mt5 (map (fun p => (PositionDict.ticket p, v)) positions) w with
    | (Ok new, w') =>
        (Ok ((closed + count_success true new)%nat,
             (failed + count_success false new)%nat,
             results ++ new,
             sum_volume_closed total new), w')
    | (Raised e, w') => (Raised e, w')
    end.
Proof.
  induction positions as [ | p rest IH]; intros closed failed results total w.
  - cbn. unfold ret. now rewrite !Nat.add_0_r, app_nil_r.
  - cbn [close_loop map close_each].
    destruct (close_position cfg mt5 (PositionDict.ticket p) v w) as [[r | e] w1] eqn:E.
    + rewrite !(bind_ok _ _ _ _ _ E). cbv zeta.
      destruct (success r) eqn:Hr; rewrite IH; unfold bind, ret;
        destruct (close_each cfg mt5 _ w1) as [[new | e] w2];
        try reflexivity;
        rewrite !count_success_cons, Hr; cbn [Bool.eqb];
        unfold sum_volume_closed; cbn [fold_left]; rewrite Hr;
        rewrite <- app_assoc, <- ?Nat.add_assoc; cbn [app Nat.add];
        reflexivity.
    + rewrite !(bind_raised _ _ _ _ _ E). reflexivity.
Qed.

Lemma count_success_total results :
  (count_success false results + count_success true results = List.length results)%nat.
Proof.
  induction results as [ | r rs IH]; [reflexivity | ].
  rewrite !count_success_cons. cbn [List.length].
  destruct (success r); cbn [Bool.eqb]; lia.
Qed.

Lemma count_success_false_zero results :
  count_success false results = 0%nat <-> Forall (fun r => success r = true) results.
Proof.
  induction results as [ | r rs IH].
  - split; [constructor | reflexivity].
  - rewrite count_success_cons. split.
    + destruct (success r) eqn:Hr; cbn [Bool.eqb]; intros H; [ | discriminate].
      constructor; [assumption | apply IH; exact H].
    + intros H. inversion H as [ | ? ? Hr Hrs]; subst. rewrite Hr. cbn [Bool.eqb].
      apply IH. exact Hrs.
Qed.

Lemma close_each_Forall cfg mt5 (P : result -> Prop) requests :
  (forall ticket volume w r w',
      close_position cfg mt5 ticket volume w = (Ok r, w') -> P r) ->
  forall w results w',
    close_each cfg mt5 requests w = (Ok results, w') -> Forall P results.
Proof.
  intros HP.
  induction requests as [ | [t v] rest IH]; intros w results w' H.
  - inversion H. constructor.
  - cbn [close_each] in H. apply bind_inv in H.
    destruct H as [(r & w1 & Hr & H) | (e & _ & H)]; [ | discriminate].
    apply bind_inv in H.
    destruct H as [(rs & w2 & Hrs & H) | (e & _ & H)]; [ | discriminate].
    inversion H; subst. constructor; [eapply HP; eauto | eapply IH; eauto].
Qed.

Lemma close_each_length cfg mt5 requests :
  forall w results w',
    close_each cfg mt5 requests w = (Ok results, w') ->
    List.length results = List.length requests.
Proof.
  induction requests as [ | [t v] rest IH]; intros w results w' H.
  - inversion H. reflexivity.
  - cbn [close_each] in H. unfold bind at 1 in H.
    destruct (close_position cfg mt5 t v w) as [[r | e] w1]; [ | discriminate].
    unfold bind in H.
    destruct (close_each cfg mt5 rest w1) as [[rs | e] w2] eqn:E; [ | discriminate].
    inversion H; subst. cbn [List.length]. f_equal. eapply IH; eauto.
Qed.

(** What a close call adds to the orders submitted: at most one order,
    answered [TRADE_RETCODE_DONE] exactly when the call succeeds, and then
    for the volume the result reports. *)
Lemma filled_volumes_app a b : filled_volumes (a ++ b) = filled_volumes a ++ filled_volumes b.
Proof. unfold filled_volumes. now rewrite filter_app, map_app. Qed.

Lemma close_position_accounts cfg mt5 position_id close_volume w r w' :
  close_position cfg mt5 position_id close_volume w = (Ok r, w') ->
  exists new,
    calls w' = calls w ++ new /\
    (List.length (submissions new) <= 1)%nat /\
    filled_volumes (submissions new) = (if success r then [get_volume_closed r] else []).
Proof.
  intros Hrun.
  destruct (check_connection cfg mt5 w) as [o0 w0] eqn:Hconn.
  destruct (emits_check_connection cfg mt5 w) as (pre & Hpre & Fpre).
  rewrite Hconn in Hpre. cbn [snd] in Hpre.
  destruct (connecting_no_trade _ Fpre) as (Hsub & _ & _).
  pose proof (close_position_run _ _ _ _ _ _ _ _ _ Hconn Hrun) as H.
  destruct o0 as [[ | ] | e].
  - cbv zeta in H. destruct H as (rest & Hc & H).
    eexists. split; [rewrite Hc, Hpre, <- app_assoc; reflexivity | ].
    rewrite submissions_app, Hsub. cbn [app submissions submission].
    destruct (mt5 _ (calls w0) (PositionsGet (ByTicket position_id)))
      as [[ | position others] | ].
    + destruct H as (-> & H). inversion H; subst. cbn. split; [lia | reflexivity].
    + destruct (converted close_volume) as [volume | e];
        [ | destruct H as (_ & H); discriminate H].
      cbv zeta in H. destruct H as (rest' & -> & H).
      cbn [submissions submission].
      destruct (mt5 _ _ (SymbolInfoTick _)) as [tick | ].
      * destruct H as (reply & r' & Hr & -> & _ & _ & _ & _ & _ & Hv & Hreply).
        inversion Hr; subst r'; clear Hr.
        split; [cbn; lia | ].
        unfold filled_volumes, get_volume_closed. cbn [filter map snd fst].
        destruct reply as [answer | ]; cbn [answered_done].
        -- destruct Hreply as (_ & Hs & _). rewrite <- Hs.
           rewrite Hv. destruct (success r); reflexivity.
        -- destruct Hreply as (Hs & _). rewrite Hs. reflexivity.
      * destruct H as (_ & what & H). discriminate H.
    + destruct H as (-> & H). inversion H; subst. cbn. split; [lia | reflexivity].
  - destruct H as (H & ->). inversion H; subst. exists pre. rewrite Hsub.
    split; [exact Hpre | ]. cbn. split; [lia | reflexivity].
  - destruct H as (H & _). discriminate H.
Qed.

Lemma close_each_accounts cfg mt5 requests :
  forall w results w',
    close_each cfg mt5 requests w = (Ok results, w') ->
    exists new,
      calls w' = calls w ++ new /\
      (List.length (submissions new) <= List.length requests)%nat /\
      (Forall (fun r => success r = true) results <->
       List.length (submissions new) = List.length requests /\
       Forall (fun s => answered_done (snd s) = true) (submissions new)) /\
      forall total,
        sum_volume_closed total results
        = fold_left PrimFloat.add (filled_volumes (submissions new)) total.
Proof.
  induction requests as [ | [t v] rest IH]; intros w results w' H.
  - inversion H; subst. exists []. rewrite app_nil_r. cbn.
    split; [reflexivity | ]. split; [lia | ].
    split; [split; [intros _; split; [reflexivity | constructor] | constructor] | reflexivity].
  - cbn [close_each] in H. apply bind_inv in H.
    destruct H as [(r & w1 & Hr & H) | (e & _ & H)]; [ | discriminate].
    apply bind_inv in H.
    destruct H as [(rs & w2 & Hrs & H) | (e & _ & H)]; [ | discriminate].
    inversion H; subst results w'; clear H.
    destruct (close_position_accounts _ _ _ _ _ _ _ Hr) as (n1 & H1 & L1 & V1).
    destruct (IH _ _ _ Hrs) as (n2 & H2 & L2 & S2 & V2).
    exists (n1 ++ n2).
    split; [rewrite H2, H1, app_assoc; reflexivity | ].
    rewrite submissions_app, length_app. cbn [List.length].
    split; [lia | ].
    split.
    + split.
      * intros Hall. inversion Hall as [ | ? ? Hs Hrest]; subst.
        rewrite Hs in V1.
        destruct (proj1 S2 Hrest) as (Hlen & Hdone).
        destruct (submissions n1) as [ | s1 [ | ? ?] ]; cbn [List.length] in L1; try lia.
        { discriminate V1. }
        split; [cbn [List.length]; lia | ].
        apply Forall_app. split; [ | exact Hdone].
        constructor; [ | constructor].
        unfold filled_volumes in V1. cbn [filter] in V1.
        destruct (answered_done (snd s1)); [reflexivity | discriminate V1].
      * intros (Hlen & Hdone). apply Forall_app in Hdone. destruct Hdone as (D1 & D2).
        assert (K1 : List.length (submissions n1) = 1%nat) by lia.
        assert (K2 : List.length (submissions n2) = List.length rest) by lia.
        constructor; [ | apply S2; auto].
        destruct (submissions n1) as [ | s1 [ | ? ?] ]; try discriminate K1.
        inversion D1 as [ | ? ? Hd _]; subst.
        unfold filled_volumes in V1. cbn [filter map] in V1. rewrite Hd in V1.
        destruct (success r); [reflexivity | discriminate V1].
    + intros total. rewrite filled_volumes_app, fold_left_app, V1, <- V2.
      unfold sum_volume_closed at 1. cbn [fold_left].
      destruct (success r); reflexivity.
Qed.

(** [close_all_positions] once the positions are known and not empty: the
    division of the total comes first and may raise; then the close calls. *)
Lemma close_all_positions_run cfg mt5 symbol close_volume w w0 w1 positions :
  check_connection cfg mt5 w = (Ok true, w0) ->
  get_positions cfg mt5 symbol w0 = (Ok positions, w1) ->
  positions <> [] ->
  match volume_per_position close_volume positions with
  | Raised e => close_all_positions cfg mt5 symbol close_volume w = (Raised e, w1)
  | Ok each =>
      exists w1',
        calls w1' = calls w1 /\ self w1' = self w1 /\
        match close_each cfg mt5
                (map (fun p => (PositionDict.ticket p, each)) positions) w1' with
        | (Ok results, w2) =>
            exists w',
              calls w' = calls w2 /\ self w' = self w2 /\
              close_all_positions cfg mt5 symbol close_volume w =
              (Ok {| success := (count_success false results =? 0)%nat;
                     message := [Lit "Closed "; Nat (count_success true results);
                                 Lit " positions, "; Nat (count_success false results);
                                 Lit " failed"];
                     closed_count := Some (count_success true results);
                     failed_count := Some (count_success false results);
                     total_volume_closed := Some (sum_volume_closed 0 results);
                     details := Some (inr results);
                     volume_closed := None |}, w')
        | (Raised e, w2) =>
            close_all_positions cfg mt5 symbol close_volume w = (Raised e, w2)
        end
  end.
Proof.
  intros Hconn Hget Hne.
  destruct positions as [ | p rest]; [congruence | ].
  set (positions := p :: rest) in *.
  set (split_volume :=
         match close_volume with
         | Some v =>
             if (1 <? List.length positions)%nat then
               each <- lift (Py.truediv v (List.length positions)) ;;
               log INFO [Lit "Closing "; Val (Py.whole v); Lit " total volume across ";
                         Nat (List.length positions); Lit " positions (";
                         Val each; Lit " each)"] ;;
               ret (Some each)
             else ret (Some (Py.whole v))
         | None => ret None
         end).
  assert (Hrun : close_all_positions cfg mt5 symbol close_volume w =
                 bind split_volume
                   (fun volume_per_position =>
                      bind (close_loop cfg mt5 positions volume_per_position 0 0 []
                              0%float)
                        (fun acc =>
                           let '(closed, failed, results, total) := acc in
                           log INFO [Lit "Closed "; Nat closed; Lit " positions, ";
                                     Nat failed; Lit " failed for symbol: ";
                                     OptStr symbol;
                                     Lit ", Total volume closed: "; Flt total] ;;
                           ret {| success := (failed =? 0)%nat;
                                  message := [Lit "Closed "; Nat closed;
                                              Lit " positions, ";
                                              Nat failed; Lit " failed"];
                                  closed_count := Some closed;
                                  failed_count := Some failed;
                                  total_volume_closed := Some total;
                                  details := Some (inr results);
                                  volume_closed := None |})) w1).
  { unfold close_all_positions.
    rewrite (bind_ok _ _ _ _ _ Hconn). cbn [negb].
    rewrite (bind_ok _ _ _ _ _ Hget).
    subst positions. cbv iota. reflexivity. }
  assert (Hvol : match volume_per_position close_volume positions with
                 | Raised e => split_volume w1 = (Raised e, w1)
                 | Ok each =>
                     exists w1',
                       calls w1' = calls w1 /\ self w1' = self w1 /\
                       split_volume w1 = (Ok each, w1')
                 end).
  { subst split_volume. unfold volume_per_position.
    destruct close_volume as [v | ].
    - destruct (1 <? List.length positions)%nat.
      + unfold bind, lift, log, ret.
        destruct (Py.truediv v (List.length positions)) as [each | e];
          [ | reflexivity].
        eexists. split; [ | split; [ | reflexivity] ]; reflexivity.
      + exists w1. repeat split.
    - exists w1. repeat split. }
  destruct (volume_per_position close_volume positions) as [each | e].
  - destruct Hvol as (w1' & Hc & Hs & Hvol).
    exists w1'. split; [exact Hc | split; [exact Hs | ] ].
    rewrite Hrun. rewrite (bind_ok _ _ _ _ _ Hvol).
    unfold bind at 1 3. rewrite close_loop_each.
    destruct (close_each cfg mt5 _ w1') as [[results | e] w2]; [ | reflexivity].
    eexists. split; [ | split; [ | reflexivity] ]; reflexivity.
  - rewrite Hrun. rewrite (bind_raised _ _ _ _ _ Hvol). reflexivity.
Qed.

(** ** C1: the equal split *)




(** ** C2: the summary of a close-all *)

(** C2. When [close_all_positions] finds at least one position and returns,
    its per-position results are those of [close_position] called on each
    matching ticket in turn with the volume of lines 162-167, and [details]
    holds them, one per position. The counts are the numbers of successful
    and failed closes and add up to the number of positions. [success]
    holds exactly when every close succeeded, which is exactly when one
    closing order per position was submitted and each was answered
    [TRADE_RETCODE_DONE]. [total_volume_closed] is the sum, in order, of the
    [volume_closed] of the successful closes (each of which reports one),
    which is the sum of the volumes of the closing orders answered
    [TRADE_RETCODE_DONE]. *)
Theorem close_all_positions_summary
    (cfg : config) (mt5 : terminal) (symbol : option string)
    (close_volume : option Py.total) (w w0 w1 w' : world)
    (positions : list PositionDict.t) (r : result) :
  check_connection cfg mt5 w = (Ok true, w0) ->
  get_positions cfg mt5 symbol w0 = (Ok positions, w1) ->
  positions <> [] ->
  close_all_positions cfg mt5 symbol close_volume w = (Ok r, w') ->
  exists each start results w2 new,
    volume_per_position close_volume positions = Ok each /\
    calls start = calls w1 /\ self start = self w1 /\
    close_each cfg mt5 (map (fun p => (PositionDict.ticket p, each)) positions) start
    = (Ok results, w2) /\
    calls w' = calls w2 /\
    calls w' = calls w1 ++ new /\
    details r = Some (inr results) /\
    List.length results = List.length positions /\
    closed_count r = Some (count_success true results) /\
    failed_count r = Some (count_success false results) /\
    (count_success false results + count_success true results
     = List.length positions)%nat /\
    (success r = true <-> Forall (fun x => success x = true) results) /\
    (success r = true <->
     List.length (submissions new) = List.length positions /\
     Forall (fun s => answered_done (snd s) = true) (submissions new)) /\
    total_volume_closed r = Some (sum_volume_closed 0 results) /\
    total_volume_closed r
    = Some (fold_left PrimFloat.add (filled_volumes (submissions new)) 0%float) /\
    Forall (fun x => success x = true -> volume_closed x <> None) results.
Proof.
  intros Hconn Hget Hne Hrun.
  pose proof (close_all_positions_run cfg mt5 symbol close_volume w w0 w1 positions
                Hconn Hget Hne) as H.
  destruct (volume_per_position close_volume positions) as [each | e];
    [ | rewrite H in Hrun; discriminate Hrun].
  destruct H as (start & Hc & Hs & H).
  set (requests := map (fun p => (PositionDict.ticket p, each)) positions) in *.
  destruct (close_each cfg mt5 requests start) as [[results | e] w2] eqn:Heach;
    [ | rewrite H in Hrun; discriminate Hrun].
  destruct H as (wf & Hcf & _ & H). rewrite H in Hrun.
  injection Hrun as Hr Hw. subst wf r.
  assert (Hlen : List.length results = List.length positions).
  { rewrite (close_each_length _ _ _ _ _ _ Heach). apply length_map. }
  destruct (close_each_accounts _ _ _ _ _ _ Heach) as (new & Hnew & _ & Hdone & Hsum).
  assert (Hreq : List.length requests = List.length positions) by apply length_map.
  rewrite Hreq in Hdone.
  assert (Hall : (count_success false results =? 0)%nat = true
                 <-> Forall (fun x => success x = true) results).
  { rewrite Nat.eqb_eq. apply count_success_false_zero. }
  exists each, start, results, w2, new.
  cbn [details closed_count failed_count success total_volume_closed].
  split; [reflexivity | ].
  split; [exact Hc | ]. split; [exact Hs | ]. split; [exact Heach | ].
  split; [exact Hcf | ].
  split; [rewrite Hcf, Hnew, Hc; reflexivity | ].
  split; [reflexivity | ]. split; [exact Hlen | ].
  split; [reflexivity | ]. split; [reflexivity | ].
  split; [rewrite count_success_total; exact Hlen | ].
  split; [exact Hall | ].
  split; [rewrite Hall; exact Hdone | ].
  split; [reflexivity | ].
  split; [rewrite Hsum; reflexivity | ].
  eapply close_each_Forall; [ | exact Heach].
  intros ticket volume wa x wb Hx. now apply (close_position_result _ _ _ _ _ _ _ Hx).
Qed.

(** Two positions closed in full, the second closing order left unanswered:
    one close succeeds, the other fails. *)
Lemma close_all_positions_summary_witness :
  let positions :=
    map (position_as_dict Demo.cfg)
      [Demo.eurusd 1 ORDER_TYPE_BUY 0.5; Demo.eurusd 2 ORDER_TYPE_BUY 0.25] in
  let mt5 := one_of_two_closes in
  let w0 := snd (check_connection Demo.cfg mt5 Demo.session) in
  let w1 := snd (get_positions Demo.cfg mt5 None w0) in
  let run := close_all_positions Demo.cfg mt5 None None Demo.session in
  (exists r,
      fst run = Ok r /\
      exists each start results w2 new,
        volume_per_position None positions = Ok each /\
        calls start = calls w1 /\ self start = self w1 /\
        close_each Demo.cfg mt5
          (map (fun p => (PositionDict.ticket p, each)) positions) start
        = (Ok results, w2) /\
        calls (snd run) = calls w2 /\
        calls (snd run) = calls w1 ++ new /\
        details r = Some (inr results) /\
        List.length results = List.length positions /\
        closed_count r = Some (count_success true results) /\
        failed_count r = Some (count_success false results) /\
        (count_success false results + count_success true results
         = List.length positions)%nat /\
        (success r = true <-> Forall (fun x => success x = true) results) /\
        (success r = true <->
         List.length (submissions new) = List.length positions /\
         Forall (fun s => answered_done (snd s) = true) (submissions new)) /\
        total_volume_closed r = Some (sum_volume_closed 0 results) /\
        total_volume_closed r
        = Some (fold_left PrimFloat.add (filled_volumes (submissions new)) 0%float) /\
        Forall (fun x => success x = true -> volume_closed x <> None) results) /\
  (exists r,
      fst run = Ok r /\ success r = false /\
      closed_count r = Some 1%nat /\ failed_count r = Some 1%nat /\
      total_volume_closed r = Some 0.5%float) /\
  map (fun s => answered_done (snd s)) (submissions (calls (snd run))) = [true; false].
Proof.
  intros positions mt5 w0 w1 run.
  split; [ | split; [eexists; vm_compute; repeat split | vm_compute; reflexivity] ].
  destruct (fst run) as [r | e] eqn:Hr; [ | vm_compute in Hr; discriminate Hr].
  exists r. split; [reflexivity | ].
  apply (close_all_positions_summary Demo.cfg mt5 None None
           Demo.session w0 w1 (snd run) positions r).
  - vm_compute; reflexivity.
  - vm_compute; reflexivity.
  - discriminate.
  - rewrite <- Hr. apply surjective_pairing.
Defined.

(** ** C3: the volume closed *)

(** C3. [close_position] on an existing position with remaining volume [R],
    when the terminal has a quote for its symbol, returns after submitting
    exactly one request, for that ticket, whose volume is [R] when no volume
    is given and [min(v, R)] when the volume given converts to [v]; that
    volume is never above [R]; the result is a success exactly when the
    order was answered [TRADE_RETCODE_DONE], and a success reports that
    volume as [volume_closed]. Without a quote nothing is submitted and the
    call raises; a volume that cannot be converted makes the call raise
    before the quote is asked for. *)
Theorem close_position_volume
    (cfg : config) (mt5 : terminal) (position_id : Z) (close_volume : option Py.value)
    (w w0 : world) (position : TradePosition.t) (others : list TradePosition.t) :
  check_connection cfg mt5 w = (Ok true, w0) ->
  mt5 _ (calls w0) (PositionsGet (ByTicket position_id)) = Some (position :: others) ->
  let remaining := TradePosition.volume position in
  let found := Some (position :: others) in
  let run := close_position cfg mt5 position_id close_volume w in
  match converted close_volume with
  | Raised e =>
      fst run = Raised e /\
      calls (snd run) = calls w0 ++ [Event (PositionsGet (ByTicket position_id)) found]
  | Ok volume =>
      let requested :=
        match volume with
        | None => remaining
        | Some v => Py.min v remaining
        end in
      let quoted :=
        mt5 _ (calls w0 ++ [Event (PositionsGet (ByTicket position_id)) found])
          (SymbolInfoTick (TradePosition.symbol position)) in
      PrimFloat.ltb remaining requested = false /\
      exists rest,
        calls (snd run)
        = calls w0 ++ Event (PositionsGet (ByTicket position_id)) found
            :: Event (SymbolInfoTick (TradePosition.symbol position)) quoted :: rest /\
        match quoted with
        | Some tick =>
            exists request reply r,
              submissions rest = [(request, reply)] /\
              TradeRequest.position request = Some position_id /\
              TradeRequest.volume request = requested /\
              fst run = Ok r /\
              success r = answered_done reply /\
              volume_closed r = (if success r then Some requested else None)
        | None =>
            rest = [] /\ exists what, fst run = Raised (AttributeError what)
        end
  end.
Proof.
  intros Hconn Hfound remaining found run.
  pose proof (close_position_run _ _ _ _ _ _ _ _ _ Hconn (surjective_pairing run)) as H.
  cbv iota zeta in H. destruct H as (rest & Hc & H).
  rewrite Hfound in H, Hc.
  destruct (converted close_volume) as [volume | e].
  - intros requested quoted.
    split.
    { subst requested remaining. destruct volume; [apply min_not_above | apply ltb_irrefl]. }
    destruct H as (rest' & -> & H).
    exists rest'. split; [exact Hc | ].
    fold found quoted in H |- *.
    destruct quoted as [tick | ]; [ | exact H].
    destruct H as (reply & r & Hr & Hsub & _ & _ & _ & _ & _ & Hv & Hreply).
    exists (closing_request position_id volume position tick), reply, r.
    split; [exact Hsub | ].
    split; [reflexivity | ]. split; [reflexivity | ].
    split; [exact Hr | ].
    split; [ | exact Hv].
    destruct reply as [answer | ]; cbn [answered_done]; apply Hreply.
  - destruct H as (-> & H). split; [exact H | exact Hc].
Qed.

(** Position 1 has 0.5 lots open. Asked for 0.75, the request is capped at
    0.5; without a volume it is for 0.5; and the string ['abc'] raises the
    [ValueError] of [float('abc')] before any quote or order. *)
Lemma close_position_volume_witness :
  let mt5 := Demo.terminal_of (Demo.market [Demo.eurusd 1 ORDER_TYPE_BUY 0.5]) in
  let w0 := snd (check_connection Demo.cfg mt5 Demo.session) in
  let found := Some [Demo.eurusd 1 ORDER_TYPE_BUY 0.5] in
  let abc := ValueError "could not convert string to float: 'abc'" in
  let run := close_position Demo.cfg mt5 1 (Some (Py.Number 0.75)) Demo.session in
  let full := close_position Demo.cfg mt5 1 None Demo.session in
  let bad := close_position Demo.cfg mt5 1 (Some (Py.NotNumber abc)) Demo.session in
  let volumes history := map (fun s => TradeRequest.volume (fst s)) (submissions history) in
  (PrimFloat.ltb 0.5 (Py.min 0.75 0.5) = false /\
   exists rest,
     calls (snd run)
     = calls w0 ++ Event (PositionsGet (ByTicket 1)) found
         :: Event (SymbolInfoTick "EURUSD.r") (Demo.quote_1_25 "EURUSD.r") :: rest /\
     exists request reply r,
       submissions rest = [(request, reply)] /\
       TradeRequest.position request = Some 1%Z /\
       TradeRequest.volume request = Py.min 0.75 0.5 /\
       fst run = Ok r /\
       success r = answered_done reply /\
       volume_closed r = (if success r then Some (Py.min 0.75 0.5) else None)) /\
  (fst bad = Raised abc /\
   calls (snd bad) = calls w0 ++ [Event (PositionsGet (ByTicket 1)) found]) /\
  Py.min 0.75 0.5 = 0.5%float /\
  volumes (calls (snd run)) = [0.5%float] /\
  (exists r, fst run = Ok r /\ success r = true /\ volume_closed r = Some 0.5%float) /\
  volumes (calls (snd full)) = [0.5%float] /\
  (exists r, fst full = Ok r /\ success r = true /\ volume_closed r = Some 0.5%float).
Proof.
  intros mt5 w0 found abc run full bad volumes.
  split; [ | split].
  - apply (close_position_volume Demo.cfg mt5 1 (Some (Py.Number 0.75)) Demo.session w0
             (Demo.eurusd 1 ORDER_TYPE_BUY 0.5) []); reflexivity.
  - apply (close_position_volume Demo.cfg mt5 1 (Some (Py.NotNumber abc)) Demo.session w0
             (Demo.eurusd 1 ORDER_TYPE_BUY 0.5) []); reflexivity.
  - split; [vm_compute; reflexivity | ].
    split; [vm_compute; reflexivity | ].
    split; [eexists; vm_compute; repeat split | ].
    split; [vm_compute; reflexivity | ].
    eexists; vm_compute; repeat split.
Defined.

(** ** C4: closing before opening *)

(** C4. With [close_existing] set, every call of the close-all step on the
    symbol comes first, then the 500 ms pause, and only then the calls for
    the new order, the first of which looks up the broker-qualified symbol;
    a close-all step contains no such lookup, no new order and no pause.
    Without [close_existing], the calls after the connection check are those
    of the new order only: no query for positions, no closing order, no
    pause. *)
Theorem place_trade_closes_before_opening
    (cfg : config) (mt5 : terminal) (symbol order_type : string)
    (volume : Py.value) (price : float) (stop_loss take_profit : option float) (comment : string)
    (close_existing : bool) (w w0 w' : world) (out : outcome result) :
  check_connection cfg mt5 w = (Ok true, w0) ->
  place_trade cfg mt5 symbol order_type volume price stop_loss take_profit comment
    close_existing w = (out, w') ->
  if close_existing then
    exists before after o1 w1,
      close_all_positions cfg mt5 (Some symbol) None
        (logged INFO [Lit "Closing existing positions for "; Str symbol;
                      Lit " before placing new order"] w0) = (o1, w1) /\
      calls w1 = calls w0 ++ before /\
      Forall (closing (positions_query cfg (Some symbol))) before /\
      Forall (opening (qualified cfg symbol)) after /\
      match o1 with
      | Ok _ =>
          calls w' = calls w1 ++ Event (Sleep 0.5%float) tt :: after /\
          exists info rest,
            after = Event (SymbolInfoGet (qualified cfg symbol)) info :: rest
      | Raised e => calls w' = calls w1 /\ after = [] /\ out = Raised e
      end
  else
    exists info rest,
      calls w' = calls w0 ++ Event (SymbolInfoGet (qualified cfg symbol)) info :: rest /\
      Forall (opening (qualified cfg symbol)) rest.
Proof.
  intros Hconn Hrun.
  pose proof (place_trade_run _ _ _ _ _ _ _ _ _ _ _ _ _ _ Hconn Hrun) as H.
  destruct close_existing.
  - destruct H as (o1 & w1 & Hclose & H).
    destruct (emits_close_all_positions cfg mt5 (Some symbol) None
                (logged INFO [Lit "Closing existing positions for "; Str symbol;
                              Lit " before placing new order"] w0))
      as (before & Hb & Fb).
    rewrite Hclose in Hb. cbn [snd logged calls] in Hb.
    destruct o1 as [r1 | e].
    + destruct (emits_open_market_order cfg mt5 symbol order_type volume comment
                  (paused r1 w1)) as (after & Ha & Fa).
      rewrite H in Ha. cbn [snd paused calls] in Ha.
      destruct (open_market_order_run _ _ _ _ _ _ _ _ _ H)
        as (info & rest & Hc & _).
      cbn [paused calls] in Hc. rewrite Ha in Hc. apply app_inv_head in Hc.
      exists before, after, (Ok r1), w1.
      repeat split; auto.
      * rewrite Ha, <- app_assoc. reflexivity.
      * eauto.
    + destruct H as [-> ->].
      exists before, [], (Raised e), w1. repeat split; auto.
  - destruct (emits_open_market_order cfg mt5 symbol order_type volume comment w0)
      as (after & Ha & Fa).
    rewrite H in Ha. cbn [snd] in Ha.
    destruct (open_market_order_run _ _ _ _ _ _ _ _ _ H)
      as (info & rest & Hc & _).
    rewrite Ha in Hc. apply app_inv_head in Hc. subst after.
    exists info, rest. split; [exact Ha | ]. now inversion Fa.
Qed.

(** A buy of EURUSD with one position open: the position is closed, the
    pause is taken, and the new order follows. *)
Lemma place_trade_closes_before_opening_witness :
  let mt5 := Demo.terminal_of (Demo.market [Demo.eurusd 1 ORDER_TYPE_SELL 0.5]) in
  let w0 := snd (check_connection Demo.cfg mt5 Demo.session) in
  let run := place_trade Demo.cfg mt5 "EURUSD" "BUY" (Py.Number 0.25) 0 None None "TV Signal" true
               Demo.session in
  exists before after o1 w1,
    close_all_positions Demo.cfg mt5 (Some "EURUSD") None
      (logged INFO [Lit "Closing existing positions for "; Str "EURUSD";
                    Lit " before placing new order"] w0) = (o1, w1) /\
    calls w1 = calls w0 ++ before /\
    Forall (closing (positions_query Demo.cfg (Some "EURUSD"))) before /\
    Forall (opening (qualified Demo.cfg "EURUSD")) after /\
    match o1 with
    | Ok _ =>
        calls (snd run) = calls w1 ++ Event (Sleep 0.5%float) tt :: after /\
        exists info rest,
          after = Event (SymbolInfoGet (qualified Demo.cfg "EURUSD")) info :: rest
    | Raised e => calls (snd run) = calls w1 /\ after = [] /\ fst run = Raised e
    end.
Proof.
  intros mt5 w0 run.
  apply (place_trade_closes_before_opening Demo.cfg mt5 "EURUSD" "BUY" (Py.Number 0.25) 0 None None
           "TV Signal" true Demo.session w0 (snd run) (fst run)).
  - vm_compute; reflexivity.
  - vm_compute; reflexivity.
Defined.

(** ** C5: failure results *)

(** C5 (as amended). A failure result of [place_trade] or [close_position]
    has a non-empty message and carries no count and no closed volume. A
    failure result of [close_all_positions] has a non-empty message and no
    [volume_closed]. When its connection check failed it is the plain
    failure "MT5 connection failed"; otherwise positions were found, and it
    carries the per-position results (one per position), the counts of the
    successful and of the failed closes (at least one failed) and the total
    volume closed. *)
Theorem failure_result_shape
    (cfg : config) (mt5 : terminal) (w w' : world) (r : result) :
  success r = false ->
  (forall symbol order_type volume price stop_loss take_profit comment close_existing,
      place_trade cfg mt5 symbol order_type volume price stop_loss take_profit comment
        close_existing w = (Ok r, w') ->
      message_nonempty (message r) /\ no_partial_success r) /\
  (forall position_id close_volume,
      close_position cfg mt5 position_id close_volume w = (Ok r, w') ->
      message_nonempty (message r) /\ no_partial_success r) /\
  (forall symbol close_volume,
      close_all_positions cfg mt5 symbol close_volume w = (Ok r, w') ->
      message_nonempty (message r) /\ volume_closed r = None /\
      exists ok w0,
        check_connection cfg mt5 w = (Ok ok, w0) /\
        if ok then
          exists positions w1 results,
            get_positions cfg mt5 symbol w0 = (Ok positions, w1) /\
            positions <> [] /\
            details r = Some (inr results) /\
            List.length results = List.length positions /\
            closed_count r = Some (count_success true results) /\
            failed_count r = Some (count_success false results) /\
            (0 < count_success false results)%nat /\
            total_volume_closed r = Some (sum_volume_closed 0 results)
        else
          r = plain_result false [Lit "MT5 connection failed"]).
Proof.
  intros Hs. split; [ | split].
  - intros. eapply place_trade_result; eauto.
  - intros position_id close_volume Hrun.
    destruct (close_position_result _ _ _ _ _ _ _ Hrun) as (Hm & Hc & Hf & Ht & Hv & _).
    repeat split; auto.
  - intros symbol close_volume Hrun.
    destruct (close_all_positions_result _ _ _ _ _ _ _ Hrun) as (Hm & Hv & _).
    split; [exact Hm | ]. split; [exact Hv | ].
    pose proof Hrun as Hrun'. unfold close_all_positions in Hrun'.
    apply bind_inv in Hrun'.
    destruct Hrun' as [(ok & w0 & Hconn & Hrun') | (e & _ & H)]; [ | discriminate].
    exists ok, w0. split; [exact Hconn | ].
    destruct ok; cbn [negb] in Hrun'; [ | now inversion Hrun'].
    apply bind_inv in Hrun'.
    destruct Hrun' as [(positions & w1 & Hget & Hrun') | (e & _ & H)]; [ | discriminate].
    exists positions, w1.
    destruct positions as [ | p rest].
    { inversion Hrun'; subst r. discriminate Hs. }
    clear Hrun'.
    pose proof (close_all_positions_run cfg mt5 symbol close_volume w w0 w1 (p :: rest)
                  Hconn Hget ltac:(discriminate)) as H.
    destruct (volume_per_position close_volume (p :: rest)) as [each | e];
      [ | rewrite H in Hrun; discriminate Hrun].
    destruct H as (start & _ & _ & H).
    destruct (close_each cfg mt5 _ start) as [[results | e] w2] eqn:Heach;
      [ | rewrite H in Hrun; discriminate Hrun].
    destruct H as (wf & _ & _ & H). rewrite H in Hrun.
    injection Hrun as Hr Hw. subst r.
    exists results. cbn [details closed_count failed_count total_volume_closed].
    split; [exact Hget | ]. split; [discriminate | ]. split; [reflexivity | ].
    split; [rewrite (close_each_length _ _ _ _ _ _ Heach); apply length_map | ].
    split; [reflexivity | ]. split; [reflexivity | ].
    split; [ | reflexivity].
    cbn [success] in Hs. apply Nat.eqb_neq in Hs. lia.
Qed.

(** C5 as stated fails: a close-all in which one of two closes fails returns
    a failure result whose counts and closed volume are populated. *)
Lemma failure_with_partial_success :
  exists r,
    fst (close_all_positions Demo.cfg one_of_two_closes (Some "EURUSD") None Demo.session)
    = Ok r /\
    success r = false /\
    closed_count r = Some 1%nat /\
    failed_count r = Some 1%nat /\
    total_volume_closed r = Some 0.5%float /\
    ~ no_partial_success r.
Proof.
  eexists. split; [vm_compute; reflexivity | ].
  cbn. repeat split. intros (H & _). discriminate H.
Qed.

(** The three operations failing on one terminal: a close-all with one of
    two closes unanswered, the close of that position, and an order for a
    symbol the terminal does not know. *)
Lemma failure_result_shape_witness :
  let mt5 := one_of_two_closes in
  let closed_all := close_all_positions Demo.cfg mt5 (Some "EURUSD") None Demo.session in
  let closed := close_position Demo.cfg mt5 2 None Demo.session in
  let placed :=
    place_trade Demo.cfg mt5 "GBPUSD" "BUY" (Py.Number 0.25) 0 None None "TV Signal" false
      Demo.session in
  (exists r,
      fst closed_all = Ok r /\ success r = false /\
      message_nonempty (message r) /\ volume_closed r = None /\
      exists w0,
        check_connection Demo.cfg mt5 Demo.session = (Ok true, w0) /\
        exists positions w1 results,
          get_positions Demo.cfg mt5 (Some "EURUSD") w0 = (Ok positions, w1) /\
          positions <> [] /\
          details r = Some (inr results) /\
          List.length results = List.length positions /\
          closed_count r = Some (count_success true results) /\
          failed_count r = Some (count_success false results) /\
          (0 < count_success false results)%nat /\
          total_volume_closed r = Some (sum_volume_closed 0 results)) /\
  (exists r,
      fst closed = Ok r /\ success r = false /\
      message_nonempty (message r) /\ no_partial_success r) /\
  (exists r,
      fst placed = Ok r /\ success r = false /\
      message_nonempty (message r) /\ no_partial_success r).
Proof.
  intros mt5 closed_all closed placed.
  split; [ | split].
  - destruct (fst closed_all) as [r | e] eqn:Hr; [ | vm_compute in Hr; discriminate Hr].
    exists r. split; [reflexivity | ].
    assert (Hs : success r = false) by (vm_compute in Hr; inversion Hr; reflexivity).
    split; [exact Hs | ].
    destruct (proj2 (proj2 (failure_result_shape Demo.cfg mt5 Demo.session
                              (snd closed_all) r Hs)) (Some "EURUSD") None)
      as (Hm & Hv & ok & w0 & Hconn & H).
    { rewrite <- Hr. apply surjective_pairing. }
    split; [exact Hm | ]. split; [exact Hv | ].
    assert (Hok : ok = true).
    { assert (E : fst (check_connection Demo.cfg mt5 Demo.session) = Ok true)
        by (vm_compute; reflexivity).
      rewrite Hconn in E. now inversion E. }
    subst ok. exists w0. split; [exact Hconn | exact H].
  - destruct (fst closed) as [r | e] eqn:Hr; [ | vm_compute in Hr; discriminate Hr].
    exists r. split; [reflexivity | ].
    assert (Hs : success r = false) by (vm_compute in Hr; inversion Hr; reflexivity).
    split; [exact Hs | ].
    apply (proj1 (proj2 (failure_result_shape Demo.cfg mt5 Demo.session
                           (snd closed) r Hs)) 2%Z None).
    rewrite <- Hr. apply surjective_pairing.
  - destruct (fst placed) as [r | e] eqn:Hr; [ | vm_compute in Hr; discriminate Hr].
    exists r. split; [reflexivity | ].
    assert (Hs : success r = false) by (vm_compute in Hr; inversion Hr; reflexivity).
    split; [exact Hs | ].
    apply (proj1 (failure_result_shape Demo.cfg mt5 Demo.session (snd placed) r Hs)
             "GBPUSD" "BUY" (Py.Number 0.25) 0%float None None "TV Signal" false).
    rewrite <- Hr. apply surjective_pairing.
Defined.

(** ** C6: exceptions *)

(** The column probe never raises: a fault inside it is logged as an error
    and leaves [volume_column] unset. *)
Lemma check_data_columns_never_raises (mt5 : terminal) (w : world) :
  exists w', _check_data_columns mt5 w = (Ok tt, w').
Proof.
  unfold _check_data_columns, try_except.
  match goal with
  | |- context [match ?body w with _ => _ end] => destruct (body w) as [[[] | e] w1]
  end.
  - eexists; reflexivity.
  - eexists; reflexivity.
Qed.

(** A fault while sampling rates during a reconnect: the session is
    established all the same, with the fault logged. *)
Example reconnect_survives_probe_fault :
  let mt5 :=
    Demo.terminal_of
      {| Demo.alive := true;
         Demo.symbols := [{| SymbolInfo.name := "EURUSD.r"; SymbolInfo.visible := true |}];
         Demo.open_positions := [];
         Demo.tick_of := Demo.quote_1_25;
         Demo.answer := Demo.filled;
         Demo.sample := Raised (RuntimeFault "copy_rates_from_pos") |} in
  let lost := {| self := {| connected := false; volume_column := Some "volume";
                            symbol_map := [] |};
                 calls := []; logs := [] |} in
  let run := check_connection Demo.cfg mt5 lost in
  fst run = Ok true /\
  connected (self (snd run)) = true /\
  volume_column (self (snd run)) = None /\
  In (ERROR, [Lit "Error checking data columns: ";
              Exn (RuntimeFault "copy_rates_from_pos")]) (logs (snd run)).
Proof.
  split; [ | split; [ | split] ]; vm_compute; auto 10.
Qed.

(** C6 (defect in the code). With a position open and no market data for its
    symbol, [close_position] raises [AttributeError] instead of returning a
    failure result, and the exception propagates out of
    [close_all_positions] and out of [place_trade] with [close_existing];
    [place_trade]'s own quote lookup, on the same terminal, returns a
    failure result. *)
Theorem close_position_raises_without_quote :
  fst (close_position Demo.cfg no_quote 1 None Demo.session)
  = Raised (AttributeError "bid") /\
  fst (close_all_positions Demo.cfg no_quote (Some "EURUSD") None Demo.session)
  = Raised (AttributeError "bid") /\
  fst (place_trade Demo.cfg no_quote "EURUSD" "BUY" (Py.Number 0.25) 0 None None "TV Signal" true
         Demo.session)
  = Raised (AttributeError "bid") /\
  fst (place_trade Demo.cfg no_quote "EURUSD" "BUY" (Py.Number 0.25) 0 None None "TV Signal" false
         Demo.session)
  = Ok (plain_result false [Lit "Failed to get market data for "; Str "EURUSD.r"]).
Proof. split; [ | split; [ | split] ]; vm_compute; reflexivity. Qed.

(** ** C7: the broker suffix *)

(** C7. For a logical symbol that lacks the configured suffix,
    [get_positions] asks the terminal for the positions of [symbol + suffix]
    and shows every record the terminal returns under that name with the
    logical symbol, keeping the broker's name in [broker_symbol]; and
    [place_trade] looks up, quotes and orders [symbol + suffix], its
    close-all step asking for the positions of [symbol + suffix]. *)
Theorem suffix_applied_and_stripped
    (cfg : config) (mt5 : terminal) (symbol : string) (w w0 : world) :
  Py.endswith symbol (MT5_DEFAULT_SUFFIX cfg) = false ->
  check_connection cfg mt5 w = (Ok true, w0) ->
  let mt5_symbol := (symbol ++ MT5_DEFAULT_SUFFIX cfg)%string in
  (exists reply records,
      get_positions cfg mt5 (Some symbol) w
      = (Ok (map (position_as_dict cfg) records),
         {| self := self w0;
            calls := calls w0 ++ [Event (PositionsGet (BySymbol mt5_symbol)) reply];
            logs := logs w0 |}) /\
      records = match reply with Some found => found | None => [] end /\
      forall position,
        In position records ->
        TradePosition.symbol position = mt5_symbol ->
        PositionDict.symbol (position_as_dict cfg position) = symbol /\
        PositionDict.broker_symbol (position_as_dict cfg position) = Some mt5_symbol) /\
  (forall order_type volume price stop_loss take_profit comment close_existing r w',
      place_trade cfg mt5 symbol order_type volume price stop_loss take_profit comment
        close_existing w = (Ok r, w') ->
      exists before pause info rest,
        calls w' = calls w0 ++ before ++ pause
                     ++ Event (SymbolInfoGet mt5_symbol) info :: rest /\
        Forall (opening mt5_symbol) rest /\
        pause = (if close_existing then [Event (Sleep 0.5%float) tt] else []) /\
        Forall (fun f => f = BySymbol mt5_symbol \/ exists ticket, f = ByTicket ticket)
          (position_queries before)).
Proof.
  intros Hlack Hconn mt5_symbol.
  destruct (qualified_lacking cfg symbol Hlack) as [Hq Hpq].
  split.
  - pose proof (get_positions_run cfg mt5 (Some symbol) w w0 Hconn) as H.
    cbv zeta in H. rewrite Hpq in H. fold mt5_symbol in H.
    do 2 eexists. split; [exact H | ]. split; [reflexivity | ].
    intros position _ Hs. now apply position_as_dict_strips.
  - intros order_type volume price stop_loss take_profit comment close_existing r w' Hrun.
    destruct (place_trade_phases _ _ _ _ _ _ _ _ _ _ _ _ _ _ Hconn Hrun)
      as (before & pause & after & Hc & Fb & Fa & _ & Hp & start & Hs & Horder).
    destruct (open_market_order_run _ _ _ _ _ _ _ _ _ Horder)
      as (info & rest & Hc' & _).
    rewrite Hs, <- !app_assoc, Hc in Hc'.
    do 2 apply app_inv_head in Hc'. apply app_inv_head in Hc'. subst after.
    rewrite Hq in Fa, Hc. rewrite Hpq in Fb.
    exists before, pause, info, rest.
    split; [exact Hc | ].
    split; [now inversion Fa | ].
    split; [exact Hp | ].
    now apply position_queries_closing.
Qed.

Lemma suffix_applied_and_stripped_witness :
  let mt5 := Demo.terminal_of (Demo.market [Demo.eurusd 1 ORDER_TYPE_BUY 0.5]) in
  let w0 := snd (check_connection Demo.cfg mt5 Demo.session) in
  (exists reply records,
      get_positions Demo.cfg mt5 (Some "EURUSD") Demo.session
      = (Ok (map (position_as_dict Demo.cfg) records),
         {| self := self w0;
            calls := calls w0 ++ [Event (PositionsGet (BySymbol "EURUSD.r")) reply];
            logs := logs w0 |}) /\
      records = match reply with Some found => found | None => [] end /\
      forall position,
        In position records ->
        TradePosition.symbol position = "EURUSD.r" ->
        PositionDict.symbol (position_as_dict Demo.cfg position) = "EURUSD" /\
        PositionDict.broker_symbol (position_as_dict Demo.cfg position)
        = Some "EURUSD.r") /\
  fst (get_positions Demo.cfg mt5 (Some "EURUSD") Demo.session)
  = Ok [{| PositionDict.ticket := 1;
           PositionDict.type := ORDER_TYPE_BUY;
           PositionDict.volume := 0.5;
           PositionDict.price_open := 1.25;
           PositionDict.symbol := "EURUSD";
           PositionDict.broker_symbol := Some "EURUSD.r" |}].
Proof.
  intros mt5 w0.
  split; [ | vm_compute; reflexivity].
  apply (suffix_applied_and_stripped Demo.cfg mt5 "EURUSD" Demo.session w0).
  - vm_compute; reflexivity.
  - vm_compute; reflexivity.
Defined.

(** ** C8: the outcome of a submission *)

(** C8. In [place_trade] and in [close_position], an order left unanswered
    is reported as a failure whose message carries the error code read from
    the terminal, an order answered with a return code other than
    [TRADE_RETCODE_DONE] is reported as a failure carrying the code and the
    broker's record, and the result is a success exactly when the broker
    answered [TRADE_RETCODE_DONE]; without a submission the result is a
    failure. *)
Theorem submission_outcome
    (cfg : config) (mt5 : terminal) (w w0 w' : world) (r : result) :
  check_connection cfg mt5 w = (Ok true, w0) ->
  (forall symbol order_type volume price stop_loss take_profit comment close_existing,
      place_trade cfg mt5 symbol order_type volume price stop_loss take_profit comment
        close_existing w = (Ok r, w') ->
      exists before after,
        calls w' = calls w0 ++ before ++ after /\
        Forall (fun s => TradeRequest.position (fst s) <> None) (submissions before) /\
        Forall (fun s => TradeRequest.position (fst s) = None) (submissions after) /\
        reports "Order failed." r (submissions after) (errors_read after)) /\
  (forall position_id close_volume,
      close_position cfg mt5 position_id close_volume w = (Ok r, w') ->
      exists new,
        calls w' = calls w0 ++ new /\
        Forall (fun s => TradeRequest.position (fst s) = Some position_id)
          (submissions new) /\
        reports "Close position failed." r (submissions new) (errors_read new)).
Proof.
  intros Hconn. split.
  - intros symbol order_type volume price stop_loss take_profit comment close_existing
      Hrun.
    destruct (place_trade_phases _ _ _ _ _ _ _ _ _ _ _ _ _ _ Hconn Hrun)
      as (before & pause & after & Hc & Fb & _ & _ & Hp & start & Hs & Horder).
    destruct (open_market_order_run _ _ _ _ _ _ _ _ _ Horder)
      as (info & rest & Hc' & _ & _ & Hsub).
    rewrite Hs, <- !app_assoc, Hc in Hc'.
    do 2 apply app_inv_head in Hc'. apply app_inv_head in Hc'. subst after.
    exists (before ++ pause), (Event (SymbolInfoGet (qualified cfg symbol)) info :: rest).
    split; [rewrite Hc, <- app_assoc; reflexivity | ].
    split.
    { rewrite submissions_app. apply Forall_app. split.
      - eapply submissions_closing; eauto.
      - subst pause. destruct close_existing; constructor. }
    cbn [submissions submission errors_read].
    destruct (submissions rest) as [ | [request reply] [ | ? ?] ];
      try contradiction.
    + split; [constructor | ]. apply Hsub.
    + destruct Hsub as (_ & _ & _ & Hpos & Hsub).
      split; [repeat constructor; exact Hpos | ].
      destruct reply as [answer | ]; cbn [reports].
      * destruct Hsub as (Hd & Hs' & Hm).
        destruct (success_iff_done _ _ Hs') as [Hiff Hneq].
        repeat split; auto; apply Hiff.
      * exact Hsub.
  - intros position_id close_volume Hrun.
    pose proof (close_position_run _ _ _ _ _ _ _ _ _ Hconn Hrun) as H.
    cbv iota zeta in H. destruct H as (rest & Hc & H).
    eexists. split; [exact Hc | ].
    cbn [submissions submission errors_read].
    destruct (mt5 _ (calls w0) (PositionsGet (ByTicket position_id)))
      as [[ | position others] | ].
    + destruct H as [-> H]. inversion H; subst. split; constructor.
    + destruct (converted close_volume) as [volume | e];
        [ | destruct H as (_ & H); discriminate H].
      cbv zeta in H. destruct H as (rest' & -> & H).
      cbn [submissions submission errors_read].
      destruct (mt5 _ _ (SymbolInfoTick _)) as [tick | ].
      * destruct H as (reply & r' & Hr & Hsub & _ & _ & _ & _ & _ & _ & H).
        inversion Hr; subst r'; clear Hr. rewrite Hsub.
        split; [repeat constructor | ].
        destruct reply as [answer | ]; cbn [reports].
        -- destruct H as (Hd & Hs' & Hm).
           destruct (success_iff_done _ _ Hs') as [Hiff Hneq].
           repeat split; auto; apply Hiff.
        -- exact H.
      * destruct H as (_ & what & H). discriminate H.
    + destruct H as [-> H]. inversion H; subst. split; constructor.
Qed.

(** The broker answers the buy with a return code other than done. *)
Lemma submission_outcome_witness :
  let rejected request :=
    Some {| OrderSendResult.retcode := 10013;
            OrderSendResult.deal := 0;
            OrderSendResult.order := 0;
            OrderSendResult.volume := TradeRequest.volume request;
            OrderSendResult.price := TradeRequest.price request;
            OrderSendResult.comment := "Invalid request" |} in
  let mt5 :=
    Demo.terminal_of
      {| Demo.alive := true;
         Demo.symbols := [{| SymbolInfo.name := "EURUSD.r"; SymbolInfo.visible := true |}];
         Demo.open_positions := [];
         Demo.tick_of := Demo.quote_1_25;
         Demo.answer := rejected;
         Demo.sample := Ok None |} in
  let w0 := snd (check_connection Demo.cfg mt5 Demo.session) in
  let run := place_trade Demo.cfg mt5 "EURUSD" "SELL" (Py.Number 0.25) 0 None None "TV Signal" false
               Demo.session in
  exists r,
    fst run = Ok r /\ success r = false /\
    exists before after,
      calls (snd run) = calls w0 ++ before ++ after /\
      Forall (fun s => TradeRequest.position (fst s) <> None) (submissions before) /\
      Forall (fun s => TradeRequest.position (fst s) = None) (submissions after) /\
      reports "Order failed." r (submissions after) (errors_read after).
Proof.
  intros rejected mt5 w0 run.
  destruct (fst run) as [r | e] eqn:Hr; [ | vm_compute in Hr; discriminate Hr].
  exists r. split; [reflexivity | ].
  split; [vm_compute in Hr; inversion Hr; reflexivity | ].
  apply (submission_outcome Demo.cfg mt5 Demo.session w0 (snd run) r
           ltac:(vm_compute; reflexivity))
    with (symbol := "EURUSD") (order_type := "SELL") (volume := Py.Number 0.25)
         (price := 0%float) (stop_loss := None) (take_profit := None)
         (comment := "TV Signal") (close_existing := false).
  rewrite <- Hr. apply surjective_pairing.
Defined.

(** ** C9: the price of an order *)

(** C9. Every order is priced by its side from the one quote fetched for
    it. On a terminal that knows and quotes the qualified symbol,
    [place_trade] (after its close-all step, if any) fetches one quote and,
    for a volume that converts, submits exactly one order: a buy at the ask
    when the upper-cased direction is BUY or LONG, a sell at the bid when it
    is SELL or SHORT, and none for any other direction; it raises only if
    the close-all step does or the volume cannot be converted, and then
    submits no new order. [close_position], for a position that is found,
    fetches one quote and, if there is one, submits exactly one order: the
    inverse of the position's type, a sell at the bid to close a long and a
    buy at the ask to close any other. *)
Theorem order_priced_by_side
    (cfg : config) (mt5 : terminal) (w w0 w' : world) (out : outcome result) :
  check_connection cfg mt5 w = (Ok true, w0) ->
  (forall symbol order_type volume price stop_loss take_profit comment close_existing,
      tradable mt5 (qualified cfg symbol) ->
      place_trade cfg mt5 symbol order_type volume price stop_loss take_profit comment
        close_existing w = (out, w') ->
      exists before pause after,
        calls w' = calls w0 ++ before ++ pause ++ after /\
        Forall (closing (positions_query cfg (Some symbol))) before /\
        ((exists e,
             out = Raised e /\ close_existing = true /\ pause = [] /\ after = []) \/
         (pause = (if close_existing then [Event (Sleep 0.5%float) tt] else []) /\
          exists info tick rest,
            after = Event (SymbolInfoGet (qualified cfg symbol)) (Some info) :: rest /\
            quotes rest = [(qualified cfg symbol, Some tick)] /\
            let submits type price :=
              match Py.float volume with
              | Raised e => submissions rest = [] /\ out = Raised e
              | Ok x =>
                  exists reply r,
                    submissions rest
                    = [(opening_request (qualified cfg symbol) type price x comment,
                        reply)] /\
                    out = Ok r
              end in
            if Py.mem (Py.upper order_type) ["BUY"; "LONG"] then
              submits ORDER_TYPE_BUY (Tick.ask tick)
            else if Py.mem (Py.upper order_type) ["SELL"; "SHORT"] then
              submits ORDER_TYPE_SELL (Tick.bid tick)
            else
              submissions rest = [] /\ exists r, out = Ok r))) /\
  (forall position_id close_volume position others,
      mt5 _ (calls w0) (PositionsGet (ByTicket position_id)) = Some (position :: others) ->
      close_position cfg mt5 position_id close_volume w = (out, w') ->
      let found := Some (position :: others) in
      match converted close_volume with
      | Raised e =>
          out = Raised e /\
          calls w' = calls w0 ++ [Event (PositionsGet (ByTicket position_id)) found]
      | Ok _ =>
          let quoted :=
            mt5 _ (calls w0 ++ [Event (PositionsGet (ByTicket position_id)) found])
              (SymbolInfoTick (TradePosition.symbol position)) in
          exists rest,
            calls w' = calls w0 ++ Event (PositionsGet (ByTicket position_id)) found
                         :: Event (SymbolInfoTick (TradePosition.symbol position)) quoted
                         :: rest /\
            quotes rest = [] /\
            match quoted with
            | Some tick =>
                exists request reply,
                  submissions rest = [(request, reply)] /\
                  TradeRequest.position request = Some position_id /\
                  TradeRequest.symbol request = TradePosition.symbol position /\
                  if (TradePosition.type position =? ORDER_TYPE_BUY)%Z then
                    TradeRequest.type request = ORDER_TYPE_SELL /\
                    TradeRequest.price request = Tick.bid tick
                  else
                    TradeRequest.type request = ORDER_TYPE_BUY /\
                    TradeRequest.price request = Tick.ask tick
            | None => rest = [] /\ exists what, out = Raised (AttributeError what)
            end
      end).
Proof.
  intros Hconn. split.
  - intros symbol order_type volume price stop_loss take_profit comment close_existing
      Htrade Hrun.
    destruct (place_trade_phases _ _ _ _ _ _ _ _ _ _ _ _ _ _ Hconn Hrun)
      as (before & pause & after & Hc & Fb & _ & _ & Hout).
    exists before, pause, after.
    split; [exact Hc | ]. split; [exact Fb | ].
    assert (Hnew : (exists e, out = Raised e /\ close_existing = true /\
                              pause = [] /\ after = []) \/
                   (pause = (if close_existing then [Event (Sleep 0.5%float) tt] else []) /\
                    exists start,
                      calls start = calls w0 ++ before ++ pause /\
                      open_market_order cfg mt5 symbol order_type volume comment start
                      = (out, w'))).
    { destruct out as [r | e]; [right; exact Hout | ].
      destruct Hout as [H | H]; [left; exists e; auto | right; exact H]. }
    destruct Hnew as [H | (Hp & start & Hs & Horder)]; [left; exact H | right].
    split; [exact Hp | ].
    destruct (open_market_order_places cfg mt5 symbol order_type volume comment start Htrade)
      as (out' & w'' & info & tick & rest & Hrun' & Hc' & Hq & Hside).
    rewrite Horder in Hrun'. inversion Hrun'; subst out' w''; clear Hrun'.
    rewrite Hs, Hc, <- !app_assoc in Hc'.
    do 3 apply app_inv_head in Hc'.
    exists info, tick, rest.
    split; [exact Hc' | ]. split; [exact Hq | ].
    cbv zeta. unfold order_side in Hside.
    destruct (Py.mem (Py.upper order_type) ["BUY"; "LONG"]);
      [ | destruct (Py.mem (Py.upper order_type) ["SELL"; "SHORT"]) ].
    + destruct (Py.float volume) as [x | e]; [ | exact Hside].
      destruct Hside as (reply & Hsub & Hr). exists reply.
      destruct reply as [answer | ].
      * destruct Hr as (_ & ->). eexists. split; [exact Hsub | reflexivity].
      * destruct Hr as (code & _ & ->). eexists. split; [exact Hsub | reflexivity].
    + destruct (Py.float volume) as [x | e]; [ | exact Hside].
      destruct Hside as (reply & Hsub & Hr). exists reply.
      destruct reply as [answer | ].
      * destruct Hr as (_ & ->). eexists. split; [exact Hsub | reflexivity].
      * destruct Hr as (code & _ & ->). eexists. split; [exact Hsub | reflexivity].
    + destruct Hside as (Hsub & ->). split; [exact Hsub | eexists; reflexivity].
  - intros position_id close_volume position others Hfound Hrun found.
    pose proof (close_position_run _ _ _ _ _ _ _ _ _ Hconn Hrun) as H.
    cbv iota zeta in H. destruct H as (rest & Hc & H).
    rewrite Hfound in H, Hc.
    destruct (converted close_volume) as [volume | e].
    + intros quoted. destruct H as (rest' & -> & H).
      exists rest'. split; [exact Hc | ].
      fold found quoted in H |- *.
      destruct quoted as [tick | ].
      * destruct H as (reply & r & _ & Hsub & Hq & _).
        split; [exact Hq | ].
        eexists _, reply. split; [exact Hsub | ].
        unfold closing_request. cbn [TradeRequest.position TradeRequest.symbol
                                       TradeRequest.type TradeRequest.price].
        split; [reflexivity | ]. split; [reflexivity | ].
        destruct (TradePosition.type position =? ORDER_TYPE_BUY)%Z; split; reflexivity.
      * destruct H as (-> & H). split; [reflexivity | ]. split; [reflexivity | exact H].
    + destruct H as (-> & H). split; [exact H | exact Hc].
Qed.

(** On a terminal that quotes EURUSD.r at 1.25 bid and 1.5 ask: a BUY is
    sent at 1.5, a SELL (also spelt with a long s, which [upper] maps to S)
    and a short at 1.25, a HOLD sends nothing, and closing the long
    position 1 is a sell at 1.25. *)
Lemma order_priced_by_side_witness :
  let mt5 := Demo.terminal_of (Demo.market [Demo.eurusd 1 ORDER_TYPE_BUY 0.5]) in
  let w0 := snd (check_connection Demo.cfg mt5 Demo.session) in
  let placed order_type :=
    place_trade Demo.cfg mt5 "EURUSD" order_type (Py.Number 0.25) 0 None None "TV Signal"
      false Demo.session in
  let closed := close_position Demo.cfg mt5 1 None Demo.session in
  let sides run :=
    map (fun s => (TradeRequest.type (fst s), TradeRequest.price (fst s)))
      (submissions (calls (snd run))) in
  let priced order_type :=
    exists before pause after,
      calls (snd (placed order_type)) = calls w0 ++ before ++ pause ++ after /\
      Forall (closing (positions_query Demo.cfg (Some "EURUSD"))) before /\
      ((exists e,
           fst (placed order_type) = Raised e /\ false = true /\
           pause = [] /\ after = []) \/
       (pause = [] /\
        exists info tick rest,
          after = Event (SymbolInfoGet "EURUSD.r") (Some info) :: rest /\
          quotes rest = [("EURUSD.r", Some tick)] /\
          let submits type price :=
            exists reply r,
              submissions rest
              = [(opening_request "EURUSD.r" type price 0.25 "TV Signal", reply)] /\
              fst (placed order_type) = Ok r in
          if Py.mem (Py.upper order_type) ["BUY"; "LONG"] then
            submits ORDER_TYPE_BUY (Tick.ask tick)
          else if Py.mem (Py.upper order_type) ["SELL"; "SHORT"] then
            submits ORDER_TYPE_SELL (Tick.bid tick)
          else
            submissions rest = [] /\ exists r, fst (placed order_type) = Ok r)) in
  priced "BUY" /\ priced "ſell" /\
  (exists quoted rest,
      calls (snd closed)
      = calls w0 ++ Event (PositionsGet (ByTicket 1))
                      (Some [Demo.eurusd 1 ORDER_TYPE_BUY 0.5])
          :: Event (SymbolInfoTick "EURUSD.r") quoted :: rest /\
      quotes rest = [] /\
      match quoted with
      | Some tick =>
          exists request reply,
            submissions rest = [(request, reply)] /\
            TradeRequest.position request = Some 1%Z /\
            TradeRequest.symbol request = "EURUSD.r" /\
            TradeRequest.type request = ORDER_TYPE_SELL /\
            TradeRequest.price request = Tick.bid tick
      | None => rest = [] /\ exists what, fst closed = Raised (AttributeError what)
      end) /\
  Py.upper "ſell" = "SELL" /\
  sides (placed "BUY") = [(ORDER_TYPE_BUY, 1.5%float)] /\
  sides (placed "short") = [(ORDER_TYPE_SELL, 1.25%float)] /\
  sides (placed "ſell") = [(ORDER_TYPE_SELL, 1.25%float)] /\
  sides (placed "HOLD") = [] /\
  sides closed = [(ORDER_TYPE_SELL, 1.25%float)].
Proof.
  intros mt5 w0 placed closed sides priced.
  assert (Hconn : check_connection Demo.cfg mt5 Demo.session = (Ok true, w0))
    by (vm_compute; reflexivity).
  assert (Hpriced : forall order_type, priced order_type).
  { intros order_type.
    apply (proj1 (order_priced_by_side Demo.cfg mt5 Demo.session w0
                    (snd (placed order_type)) (fst (placed order_type)) Hconn)
             "EURUSD" order_type (Py.Number 0.25) 0%float None None "TV Signal" false).
    - split.
      + intros history. eexists. split; [reflexivity | left; reflexivity].
      + intros history. discriminate.
    - apply surjective_pairing. }
  split; [apply Hpriced | ].
  split; [apply Hpriced | ].
  split; [ | repeat split; vm_compute; reflexivity].
  eexists.
  apply (proj2 (order_priced_by_side Demo.cfg mt5 Demo.session w0
                  (snd closed) (fst closed) Hconn)
           1%Z None (Demo.eurusd 1 ORDER_TYPE_BUY 0.5) []).
  - reflexivity.
  - apply surjective_pairing.
Defined.

(** ** C10: the close-all result is not consulted *)

(** C10. Whatever result the preliminary close-all returns, a failure
    included, [place_trade] goes on to the pause and to the new order. On a
    terminal that knows and quotes the qualified symbol it then looks the
    symbol up, fetches the quote and, for a direction it accepts and a
    volume that converts, submits the new order; what it returns is decided
    by the direction, the conversion and the answer to that order alone,
    and carries no count, no closed volume and no per-position results of
    the close-all. *)
Theorem place_trade_ignores_close_result
    (cfg : config) (mt5 : terminal) (symbol order_type : string)
    (volume : Py.value) (price : float) (stop_loss take_profit : option float)
    (comment : string) (w w0 w1 : world) (close_result : result) :
  check_connection cfg mt5 w = (Ok true, w0) ->
  close_all_positions cfg mt5 (Some symbol) None
    (logged INFO [Lit "Closing existing positions for "; Str symbol;
                  Lit " before placing new order"] w0) = (Ok close_result, w1) ->
  tradable mt5 (qualified cfg symbol) ->
  let run :=
    place_trade cfg mt5 symbol order_type volume price stop_loss take_profit comment
      true w in
  exists info tick rest,
    calls (snd run)
    = calls w1 ++ Event (Sleep 0.5%float) tt
        :: Event (SymbolInfoGet (qualified cfg symbol)) (Some info) :: rest /\
    quotes rest = [(qualified cfg symbol, Some tick)] /\
    match order_side order_type tick with
    | None =>
        submissions rest = [] /\
        fst run = Ok (plain_result false [Lit "Invalid order type: "; Str order_type])
    | Some (type, price) =>
        match Py.float volume with
        | Raised e => submissions rest = [] /\ fst run = Raised e
        | Ok x =>
            exists reply,
              submissions rest
              = [(opening_request (qualified cfg symbol) type price x comment, reply)] /\
              match reply with
              | None =>
                  exists code,
                    errors_read rest = [code] /\
                    fst run
                    = Ok (plain_result false [Lit "Order failed. Error: "; Err code])
              | Some answer => fst run = Ok (order_result symbol order_type answer)
              end
        end
    end /\
    forall r,
      fst run = Ok r ->
      no_partial_success r /\ forall results, details r <> Some (inr results).
Proof.
  intros Hconn Hclose Htrade run.
  pose proof (place_trade_run cfg mt5 symbol order_type volume price stop_loss
                take_profit comment true w w0 (fst run) (snd run) Hconn
                (surjective_pairing run)) as H.
  cbv iota in H. destruct H as (o1 & w1' & Hc & H).
  rewrite Hclose in Hc. inversion Hc; subst o1 w1'; clear Hc.
  destruct (open_market_order_places cfg mt5 symbol order_type volume comment
              (paused close_result w1) Htrade)
    as (out & w' & info & tick & rest & Hrun & Hcalls & Hq & Hside).
  rewrite Hrun in H.
  assert (Hout : fst run = out) by now inversion H.
  assert (Hw : snd run = w') by now inversion H.
  exists info, tick, rest.
  split.
  { rewrite Hw, Hcalls. cbn [paused calls]. rewrite <- app_assoc. reflexivity. }
  split; [exact Hq | ].
  rewrite Hout. split.
  - destruct (order_side order_type tick) as [[type price'] | ]; [ | exact Hside].
    destruct (Py.float volume) as [x | e]; [ | exact Hside].
    destruct Hside as (reply & Hsub & Hr). exists reply. split; [exact Hsub | ].
    destruct reply as [answer | ]; [apply Hr | exact Hr].
  - intros r Hr. clear Hout H. subst out.
    destruct (open_market_order_run _ _ _ _ _ _ _ _ _ Hrun)
      as (_ & rest' & _ & Hshape & _ & _).
    split; [exact Hshape | ].
    intros results Hd. clear - Hside Hd.
    destruct (order_side order_type tick) as [[type price'] | ].
    + destruct (Py.float volume) as [x | e]; [ | destruct Hside as (_ & H); discriminate H].
      destruct Hside as ([answer | ] & _ & Hr).
      * destruct Hr as (_ & Hr). inversion Hr; subst r. unfold order_result in Hd.
        destruct (OrderSendResult.retcode answer =? TRADE_RETCODE_DONE)%Z; discriminate Hd.
      * destruct Hr as (code & _ & Hr). inversion Hr; subst r. discriminate Hd.
    + destruct Hside as (_ & Hr). inversion Hr; subst r. discriminate Hd.
Qed.

(** The position cannot be closed (the broker refuses every closing
    order), the close-all reports failure, and the buy still goes through. *)
Lemma place_trade_ignores_close_result_witness :
  let refuse_closing request :=
    match TradeRequest.position request with
    | Some _ => None
    | None => Demo.filled request
    end in
  let mt5 :=
    Demo.terminal_of
      {| Demo.alive := true;
         Demo.symbols := [{| SymbolInfo.name := "EURUSD.r"; SymbolInfo.visible := true |}];
         Demo.open_positions := [Demo.eurusd 1 ORDER_TYPE_SELL 0.5];
         Demo.tick_of := Demo.quote_1_25;
         Demo.answer := refuse_closing;
         Demo.sample := Ok None |} in
  let w0 := snd (check_connection Demo.cfg mt5 Demo.session) in
  let closed :=
    close_all_positions Demo.cfg mt5 (Some "EURUSD") None
      (logged INFO [Lit "Closing existing positions for "; Str "EURUSD";
                    Lit " before placing new order"] w0) in
  let run := place_trade Demo.cfg mt5 "EURUSD" "BUY" (Py.Number 0.25) 0 None None
               "TV Signal" true Demo.session in
  (exists close_result,
      fst closed = Ok close_result /\ success close_result = false /\
      failed_count close_result = Some 1%nat) /\
  (exists info tick rest,
      calls (snd run)
      = calls (snd closed) ++ Event (Sleep 0.5%float) tt
          :: Event (SymbolInfoGet "EURUSD.r") (Some info) :: rest /\
      quotes rest = [("EURUSD.r", Some tick)] /\
      exists reply,
        submissions rest
        = [(opening_request "EURUSD.r" ORDER_TYPE_BUY (Tick.ask tick) 0.25 "TV Signal",
            reply)] /\
        match reply with
        | None =>
            exists code,
              errors_read rest = [code] /\
              fst run = Ok (plain_result false [Lit "Order failed. Error: "; Err code])
        | Some answer => fst run = Ok (order_result "EURUSD" "BUY" answer)
        end) /\
  exists r, fst run = Ok r /\ success r = true /\
            message r = [Lit "Order executed: "; Str "BUY"; Lit " "; Str "EURUSD"].
Proof.
  intros refuse_closing mt5 w0 closed run.
  split; [eexists; vm_compute; repeat split | ].
  split; [ | eexists; vm_compute; repeat split].
  destruct (fst closed) as [close_result | e] eqn:Hc;
    [ | vm_compute in Hc; discriminate Hc].
  destruct (place_trade_ignores_close_result Demo.cfg mt5 "EURUSD" "BUY" (Py.Number 0.25)
              0 None None "TV Signal" Demo.session w0 (snd closed) close_result)
    as (info & tick & rest & Hcalls & Hq & Hsub & _).
  - vm_compute; reflexivity.
  - rewrite <- Hc. apply surjective_pairing.
  - split.
    + intros history. eexists. split; [reflexivity | left; reflexivity].
    + intros history. discriminate.
  - exists info, tick, rest. repeat split; assumption.
Defined.

(** * Further properties *)

(** ** Computations that never raise, and what they keep *)

Lemma never_raises_ret {A} (a : A) : never_raises (ret a).
Proof. intros w. now exists a. Qed.

Lemma never_raises_bind {A B} (c : M A) (k : A -> M B) :
  never_raises c -> (forall a, never_raises (k a)) -> never_raises (bind c k).
Proof.
  intros Hc Hk w. unfold bind. destruct (Hc w) as (a & Ha).
  destruct (c w) as [o w1]. simpl in Ha. subst o. apply Hk.
Qed.

Lemma never_raises_try_except {A} (body : M A) (handler : exn -> M A) :
  (forall e, never_raises (handler e)) -> never_raises (try_except body handler).
Proof.
  intros Hh w. unfold try_except. destruct (body w) as [[a | e] w1].
  - now exists a.
  - apply Hh.
Qed.

Lemma never_raises_api {A} (mt5 : terminal) (c : call A) : never_raises (api mt5 c).
Proof. intros w. eexists; reflexivity. Qed.

Lemma never_raises_log l m : never_raises (log l m).
Proof. intros w. now exists tt. Qed.

Lemma never_raises_set_connected b : never_raises (set_connected b).
Proof. intros w. now exists tt. Qed.

Lemma never_raises_set_volume_column c : never_raises (set_volume_column c).
Proof. intros w. now exists tt. Qed.

Lemma never_raises_get_connected : never_raises get_connected.
Proof. intros w. eexists; reflexivity. Qed.

Lemma keeps_silent {A} (c : M A) : (forall w, self (snd (c w)) = self w) -> keeps c.
Proof. intros H w. now rewrite H. Qed.

Lemma keeps_bind {A B} (c : M A) (k : A -> M B) :
  keeps c -> (forall a, keeps (k a)) -> keeps (bind c k).
Proof.
  intros Hc Hk w. unfold bind. destruct (Hc w) as [H1 H2].
  destruct (c w) as [[a | e] w1]; simpl in *.
  - destruct (Hk a w1) as [H3 H4]. split; congruence.
  - auto.
Qed.

Lemma keeps_try_except {A} (body : M A) (handler : exn -> M A) :
  keeps body -> (forall e, keeps (handler e)) -> keeps (try_except body handler).
Proof.
  intros Hc Hk w. unfold try_except. destruct (Hc w) as [H1 H2].
  destruct (body w) as [[a | e] w1]; simpl in *.
  - auto.
  - destruct (Hk e w1) as [H3 H4]. split; congruence.
Qed.

Lemma keeps_ret {A} (a : A) : keeps (ret a).
Proof. now apply keeps_silent. Qed.

Lemma keeps_raise {A} (e : exn) : keeps (@raise A e).
Proof. now apply keeps_silent. Qed.

Lemma keeps_api {A} (mt5 : terminal) (c : call A) : keeps (api mt5 c).
Proof. now apply keeps_silent. Qed.

Lemma keeps_api_raising {A} (mt5 : terminal) (c : call (outcome A)) :
  keeps (api_raising mt5 c).
Proof.
  apply keeps_bind; [apply keeps_api | ].
  intros [v | e]; [apply keeps_ret | apply keeps_raise].
Qed.

Lemma keeps_log l m : keeps (log l m).
Proof. now apply keeps_silent. Qed.

Lemma keeps_set_volume_column c : keeps (set_volume_column c).
Proof. intros w. split; reflexivity. Qed.

Create HintDb steady.

Ltac steady_case :=
  match goal with
  | |- never_raises (match ?x with _ => _ end) => destruct x
  | |- keeps (match ?x with _ => _ end) => destruct x
  end.

Ltac steady_step :=
  first
    [ assumption
    | solve [auto 1 with steady nocore]
    | apply never_raises_ret | apply never_raises_api | apply never_raises_log
    | apply never_raises_set_connected | apply never_raises_set_volume_column
    | apply never_raises_get_connected
    | apply never_raises_try_except; intros
    | apply never_raises_bind; [ | intros ]
    | apply keeps_ret | apply keeps_raise | apply keeps_api | apply keeps_api_raising
    | apply keeps_log | apply keeps_set_volume_column
    | apply keeps_try_except; [ | intros ]
    | apply keeps_bind; [ | intros ]
    | steady_case ].

Ltac steady_auto := repeat steady_step.

Section Steady.

Variable cfg : config.
Variable mt5 : terminal.

Lemma never_raises_first_selectable l : never_raises (first_selectable mt5 l).
Proof. induction l; simpl; steady_auto. Qed.

Lemma keeps_first_selectable l : keeps (first_selectable mt5 l).
Proof. induction l; simpl; steady_auto. Qed.

Lemma never_raises_log_variations names pairs : never_raises (log_variations names pairs).
Proof. induction pairs; simpl; steady_auto. Qed.

Lemma keeps_log_variations names pairs : keeps (log_variations names pairs).
Proof. induction pairs; simpl; steady_auto. Qed.

Hint Resolve never_raises_first_selectable keeps_first_selectable
  never_raises_log_variations keeps_log_variations : steady.

Lemma never_raises_check_data_columns : never_raises (_check_data_columns mt5).
Proof. unfold _check_data_columns. steady_auto. Qed.

Lemma keeps_check_data_columns : keeps (_check_data_columns mt5).
Proof. unfold _check_data_columns. steady_auto. Qed.

Lemma emits_probing_first_selectable l : emits probing (first_selectable mt5 l).
Proof. induction l; simpl; emits_auto. Qed.

Lemma emits_probing_check_data_columns : emits probing (_check_data_columns mt5).
Proof.
  unfold _check_data_columns. pose proof emits_probing_first_selectable. emits_auto.
Qed.

End Steady.

(** ** Connecting *)

(** [connects c]: [c] returns [True] and leaves the session flagged as
    connected, with [symbol_map] as it was. *)
Lemma connects_bind {A} (c : M A) (k : A -> M bool) :
  never_raises c -> keeps c ->
  (forall a w, exists w', k a w = (Ok true, w') /\
                          connected (self w') = true /\
                          symbol_map (self w') = symbol_map (self w)) ->
  forall w, exists w', bind c k w = (Ok true, w') /\
                       connected (self w') = true /\
                       symbol_map (self w') = symbol_map (self w).
Proof.
  intros Hn Hk Hc w. unfold bind.
  destruct (Hn w) as (a & Ha). destruct (Hk w) as (_ & Hm).
  destruct (c w) as [o w1]. simpl in Ha, Hm. subst o.
  destruct (Hc a w1) as (w' & Hr & Hf & Hs).
  exists w'. repeat split; congruence.
Qed.

Lemma probing_settling e : probing e -> settling e.
Proof. destruct e as [R c r]; destruct c; simpl; tauto. Qed.

(** [initialize_mt5], read against the terminal's answers to [initialize]
    and [login]. *)
Lemma initialize_mt5_run (cfg : config) (mt5 : terminal) (w : world) :
  let opened := mt5 bool (calls w) (Initialize (MT5_PATH cfg)) in
  let authorized :=
    mt5 bool (calls w ++ [Event (Initialize (MT5_PATH cfg)) opened])
      (Login (MT5_ACCOUNT cfg) (MT5_PASSWORD cfg) (MT5_SERVER cfg)) in
  exists w' rest,
    initialize_mt5 cfg mt5 w = (Ok (opened && authorized), w') /\
    calls w' = calls w ++ Event (Initialize (MT5_PATH cfg)) opened :: rest /\
    symbol_map (self w') = symbol_map (self w) /\
    connected (self w') = (opened && authorized) || connected (self w) /\
    match opened, authorized with
    | false, _ => self w' = self w /\ exists e, rest = [Event LastError e]
    | true, false =>
        self w' = self w /\
        exists e,
          rest = [Event (Login (MT5_ACCOUNT cfg) (MT5_PASSWORD cfg) (MT5_SERVER cfg)) false;
                  Event LastError e; Event Shutdown tt]
    | true, true =>
        exists more,
          rest = Event (Login (MT5_ACCOUNT cfg) (MT5_PASSWORD cfg) (MT5_SERVER cfg)) true
                   :: more /\
          Forall settling more
    end.
Proof.
  intros opened authorized. unfold initialize_mt5.
  unfold bind at 1, api at 1. cbv zeta. fold opened.
  destruct opened eqn:Ho; cbn [negb andb orb].
  - unfold bind at 1, api at 1. cbv zeta. cbn [calls]. fold authorized.
    destruct authorized eqn:Ha; cbn [negb andb orb].
    + set (tail := bind (api mt5 AccountInfoGet) _).
      match goal with |- context [tail ?x] => set (w2 := x) end.
      assert (Hrun : exists w', tail w2 = (Ok true, w') /\
                                connected (self w') = true /\
                                symbol_map (self w') = symbol_map (self w2)).
      { subst tail.
        pose proof (never_raises_check_data_columns mt5).
        pose proof (keeps_check_data_columns mt5).
        pose proof never_raises_log_variations.
        pose proof keeps_log_variations.
        do 5 (apply connects_bind; [steady_auto | steady_auto | intros ? ]).
        intros w0. eexists. unfold bind, set_connected, ret. cbn.
        repeat split. }
      assert (Hem : emits settling tail).
      { subst tail.
        pose proof (emits_weaken _ _ _ probing_settling
                      (emits_probing_check_data_columns mt5)).
        pose proof (emits_log_variations settling).
        emits_auto. }
      destruct Hrun as (w' & Hrun & Hc & Hs).
      destruct (Hem w2) as (more & Hmore & Fm). rewrite Hrun in Hmore.
      subst w2. cbn [snd calls self] in Hmore, Hs.
      exists w'. eexists. split; [exact Hrun | ].
      split; [rewrite Hmore, <- !app_assoc; reflexivity | ].
      repeat split; auto. eexists; split; [reflexivity | exact Fm].
    + unfold bind, api, log, ret. cbn.
      destruct (mt5 unit _ Shutdown).
      do 2 eexists. split; [reflexivity | ].
      split; [rewrite <- !app_assoc; reflexivity | ].
      repeat split. eexists; reflexivity.
  - unfold bind, api, log, ret. cbn.
    do 2 eexists. split; [reflexivity | ].
    split; [rewrite <- !app_assoc; reflexivity | ].
    repeat split. eexists; reflexivity.
Qed.

(** [check_connection], by the flag and the terminal's answer. *)
Lemma check_connection_run (cfg : config) (mt5 : terminal) (w : world) :
  exists b w' new,
    check_connection cfg mt5 w = (Ok b, w') /\
    calls w' = calls w ++ new /\
    connected (self w') = b /\
    symbol_map (self w') = symbol_map (self w) /\
    match connected (self w), mt5 bool (calls w) TerminalInfo with
    | true, true => b = true /\ new = [Event TerminalInfo true] /\ self w' = self w
    | true, false =>
        exists opened rest,
          new = Event TerminalInfo false
                  :: Event (Initialize (MT5_PATH cfg)) opened :: rest
    | false, _ =>
        exists opened rest, new = Event (Initialize (MT5_PATH cfg)) opened :: rest
    end.
Proof.
  unfold check_connection, bind at 1, get_connected.
  destruct (connected (self w)) eqn:Hc.
  - unfold bind at 1, api at 1. cbv zeta.
    destruct (mt5 bool (calls w) TerminalInfo) eqn:Ha; cbn [negb].
    + do 3 eexists. split; [reflexivity | ]. cbn. repeat split; auto.
    + unfold bind, log, set_connected. cbn [self calls logs].
      match goal with
      | |- context [initialize_mt5 cfg mt5 ?x] =>
          destruct (initialize_mt5_run cfg mt5 x)
            as (w' & rest & Hrun & Hcalls & Hs & Hf & _)
      end.
      cbn [self calls connected symbol_map] in Hrun, Hcalls, Hs, Hf.
      rewrite orb_false_r in Hf.
      do 3 eexists. split; [exact Hrun | ].
      split; [rewrite Hcalls, <- app_assoc; reflexivity | ].
      split; [exact Hf | ]. split; [exact Hs | ].
      do 2 eexists; reflexivity.
  - unfold bind, ret, log, set_connected. cbn [negb self calls logs].
    match goal with
    | |- context [initialize_mt5 cfg mt5 ?x] =>
        destruct (initialize_mt5_run cfg mt5 x)
          as (w' & rest & Hrun & Hcalls & Hs & Hf & _)
    end.
    cbn [self calls connected symbol_map] in Hrun, Hcalls, Hs, Hf.
    rewrite orb_false_r in Hf.
    do 3 eexists. split; [exact Hrun | ].
    split; [exact Hcalls | ].
    split; [exact Hf | ]. split; [exact Hs | ].
    do 2 eexists; reflexivity.
Qed.

Lemma never_raises_initialize_mt5 cfg mt5 : never_raises (initialize_mt5 cfg mt5).
Proof.
  intros w. destruct (initialize_mt5_run cfg mt5 w) as (w' & rest & H & _).
  rewrite H. eexists; reflexivity.
Qed.

Lemma never_raises_check_connection cfg mt5 : never_raises (check_connection cfg mt5).
Proof.
  intros w. destruct (check_connection_run cfg mt5 w) as (b & w' & new & H & _).
  rewrite H. eexists; reflexivity.
Qed.

(** ** X1: the session flag after a connection check *)

(** X1. [check_connection] never raises, and the flag [connected] it leaves
    is the value it returns; [symbol_map] is left as it was. *)
Theorem check_connection_flag (cfg : config) (mt5 : terminal) (w : world) :
  exists b,
    fst (check_connection cfg mt5 w) = Ok b /\
    connected (self (snd (check_connection cfg mt5 w))) = b /\
    symbol_map (self (snd (check_connection cfg mt5 w))) = symbol_map (self w).
Proof.
  destruct (check_connection_run cfg mt5 w) as (b & w' & new & H & _ & Hf & Hs & _).
  rewrite H. exists b. auto.
Qed.

(** ** X2: when a connection check reconnects *)

(** X2. With the flag up and the terminal answering, [check_connection] asks
    [terminal_info] once, calls nothing else and changes no attribute. With
    the flag up and no answer, it goes on to one [initialize]. With the flag
    down it does not ask [terminal_info]: its first call is [initialize]. *)
Theorem check_connection_reconnects (cfg : config) (mt5 : terminal) (w : world) :
  exists new,
    calls (snd (check_connection cfg mt5 w)) = calls w ++ new /\
    match connected (self w), mt5 bool (calls w) TerminalInfo with
    | true, true =>
        new = [Event TerminalInfo true] /\
        self (snd (check_connection cfg mt5 w)) = self w /\
        fst (check_connection cfg mt5 w) = Ok true
    | true, false =>
        exists opened rest,
          new = Event TerminalInfo false
                  :: Event (Initialize (MT5_PATH cfg)) opened :: rest
    | false, _ =>
        exists opened rest, new = Event (Initialize (MT5_PATH cfg)) opened :: rest
    end.
Proof.
  destruct (check_connection_run cfg mt5 w) as (b & w' & new & H & Hc & _ & _ & Hm).
  rewrite H. exists new. split; [exact Hc | ].
  destruct (connected (self w)), (mt5 bool (calls w) TerminalInfo); auto.
  destruct Hm as (-> & Hn & Hs). auto.
Qed.

(** ** X3: the outcome of [initialize_mt5] *)

(** X3. [initialize_mt5] never raises and returns [True] exactly when the
    terminal answers [True] to [initialize] and then to [login]. On success
    the session is flagged connected. On failure no attribute changes; a
    failed [initialize] is followed by reading the error and nothing else,
    and a failed [login] by reading the error and shutting the terminal
    down. *)
Theorem initialize_mt5_outcome (cfg : config) (mt5 : terminal) (w : world) :
  let run := initialize_mt5 cfg mt5 w in
  let opened := mt5 bool (calls w) (Initialize (MT5_PATH cfg)) in
  let login := Login (MT5_ACCOUNT cfg) (MT5_PASSWORD cfg) (MT5_SERVER cfg) in
  let authorized :=
    mt5 bool (calls w ++ [Event (Initialize (MT5_PATH cfg)) opened]) login in
  fst run = Ok (opened && authorized) /\
  (opened && authorized = true -> connected (self (snd run)) = true) /\
  (opened && authorized = false -> self (snd run) = self w) /\
  (opened = false ->
   exists e,
     calls (snd run)
     = calls w ++ [Event (Initialize (MT5_PATH cfg)) false; Event LastError e]) /\
  (opened = true -> authorized = false ->
   exists e,
     calls (snd run)
     = calls w ++ [Event (Initialize (MT5_PATH cfg)) true; Event login false;
                   Event LastError e; Event Shutdown tt]).
Proof.
  intros run opened login authorized.
  destruct (initialize_mt5_run cfg mt5 w) as (w' & rest & H & Hc & _ & Hf & Hm).
  fold opened in H, Hc, Hf, Hm. fold login in H, Hf, Hm. fold authorized in H, Hf, Hm.
  subst run. rewrite H. cbn [fst snd].
  split; [reflexivity | ].
  split; [intros E; rewrite E in Hf; exact Hf | ].
  split.
  { intros E. destruct opened; [destruct authorized; [discriminate | ] | ]; apply Hm. }
  split.
  - intros E. rewrite E in Hm, Hc. destruct Hm as (_ & e & ->). eauto.
  - intros E1 E2. rewrite E1 in Hm, Hc. rewrite E2 in Hm.
    destruct Hm as (_ & e & ->). eauto.
Qed.

(** ** X4: the column probe *)

(** X4. [_check_data_columns] never raises and leaves the session flag as it
    was. It takes at most one sample of rates, and the column it records is
    decided by that sample alone: ["volume"] if the sample has a row and a
    column of that name, else ["tick_volume"] likewise, and nothing when no
    sample was taken (no symbols listed), when sampling raised, or when the
    sample is missing or empty. *)
Theorem probe_detects_volume_column (mt5 : terminal) (w : world) :
  let run := _check_data_columns mt5 w in
  exists new,
    fst run = Ok tt /\
    calls (snd run) = calls w ++ new /\
    connected (self (snd run)) = connected (self w) /\
    volume_column (self (snd run)) =
    match samples new with
    | [Ok (Some rates)] =>
        if (0 <? Rates.rows rates)%nat then
          if Py.mem "volume" (Rates.columns rates) then Some "volume"
          else if Py.mem "tick_volume" (Rates.columns rates) then Some "tick_volume"
          else None
        else None
    | _ => None
    end.
Proof.
  intros run. subst run.
  unfold _check_data_columns, try_except, api_raising, bind, api, log, ret, raise,
    set_volume_column.
  destruct w as [s c l].
  repeat (cbn -[Py.mem Nat.ltb]; run_step);
    cbn -[Py.mem Nat.ltb]; tidy_history;
    (eexists; split; [reflexivity | split; [reflexivity | split; [reflexivity | ] ] ]);
    cbn -[Py.mem Nat.ltb];
    repeat match goal with
      | H : _ = _ |- _ => rewrite H
      end;
    reflexivity.
Qed.

(** ** X5 and X6: the read-only queries *)


(** X5. [list_available_symbols] never raises. It returns the names of the
    symbols the terminal lists, in the terminal's order, and the empty list
    when the connection check fails or the terminal lists none; beyond the
    connection check it makes the one call that lists the symbols, and so
    never asks for positions or quotes and never sends an order. *)
Theorem list_available_symbols_outcome (cfg : config) (mt5 : terminal) (w : world) :
  let run := list_available_symbols cfg mt5 w in
  exists names new,
    fst run = Ok names /\
    calls (snd run) = calls w ++ new /\
    Forall connecting new /\
    submissions new = [] /\ quotes new = [] /\ position_queries new = [] /\
    exists ok w0,
      check_connection cfg mt5 w = (Ok ok, w0) /\
      if ok then
        let listed := mt5 _ (calls w0) SymbolsGet in
        calls (snd run) = calls w0 ++ [Event SymbolsGet listed] /\
        names = map SymbolInfo.name (match listed with Some l => l | None => [] end)
      else snd run = w0 /\ names = [].
Proof.
  intros run.
  destruct (never_raises_check_connection cfg mt5 w) as (ok & Hok).
  destruct (check_connection cfg mt5 w) as [o w0] eqn:Hconn. simpl in Hok. subst o.
  destruct (emits_check_connection cfg mt5 w) as (pre & Hpre & Fpre).
  rewrite Hconn in Hpre. cbn [snd] in Hpre.
  assert (Hrun : run =
                 if ok then
                   let listed := mt5 _ (calls w0) SymbolsGet in
                   (Ok (map SymbolInfo.name match listed with Some l => l | None => [] end),
                    {| self := self w0;
                       calls := calls w0 ++ [Event SymbolsGet listed];
                       logs := logs w0 |})
                 else (Ok [], w0)).
  { subst run. unfold list_available_symbols. rewrite (bind_ok _ _ _ _ _ Hconn).
    destruct ok; cbn [negb]; [ | reflexivity].
    unfold bind, api. cbv zeta.
    destruct (mt5 _ (calls w0) SymbolsGet) as [[ | i l] | ]; reflexivity. }
  rewrite Hrun. destruct ok; cbv zeta; cbn [fst snd calls].
  - eexists. exists (pre ++ [Event SymbolsGet (mt5 _ (calls w0) SymbolsGet)]).
    split; [reflexivity | ].
    split; [rewrite app_assoc, <- Hpre; reflexivity | ].
    assert (F : Forall connecting
                  (pre ++ [Event SymbolsGet (mt5 _ (calls w0) SymbolsGet)])).
    { apply Forall_app. split; [exact Fpre | repeat constructor]. }
    split; [exact F | ].
    destruct (connecting_no_trade _ F) as (H1 & H2 & H3).
    repeat split; auto.
    exists true, w0. repeat split.
  - exists [], pre. split; [reflexivity | ]. split; [exact Hpre | ].
    split; [exact Fpre | ].
    destruct (connecting_no_trade _ Fpre) as (H1 & H2 & H3).
    repeat split; auto.
    exists false, w0. repeat split.
Qed.

(** X6. [get_positions] never raises and never returns anything but a list:
    one record per position the terminal returns, in the terminal's order,
    and the empty list when the connection check fails or the terminal
    returns nothing. Beyond the connection check it makes the one query for
    positions, and so never fetches a quote and never sends an order. *)
Theorem get_positions_outcome
    (cfg : config) (mt5 : terminal) (symbol : option string) (w : world) :
  let run := get_positions cfg mt5 symbol w in
  exists found new,
    fst run = Ok (map (position_as_dict cfg) found) /\
    calls (snd run) = calls w ++ new /\
    submissions new = [] /\ quotes new = [] /\
    exists ok w0,
      check_connection cfg mt5 w = (Ok ok, w0) /\
      if ok then
        let answer := mt5 _ (calls w0) (PositionsGet (positions_query cfg symbol)) in
        calls (snd run)
        = calls w0 ++ [Event (PositionsGet (positions_query cfg symbol)) answer] /\
        found = match answer with Some l => l | None => [] end
      else snd run = w0 /\ found = [].
Proof.
  intros run.
  destruct (never_raises_check_connection cfg mt5 w) as (ok & Hok).
  destruct (check_connection cfg mt5 w) as [o w0] eqn:Hconn. simpl in Hok. subst o.
  destruct (emits_check_connection cfg mt5 w) as (pre & Hpre & Fpre).
  rewrite Hconn in Hpre. cbn [snd] in Hpre.
  destruct (connecting_no_trade _ Fpre) as (H1 & H2 & _).
  destruct ok.
  - pose proof (get_positions_run cfg mt5 symbol w w0 Hconn) as Hrun.
    cbv zeta in Hrun. subst run. rewrite Hrun. cbn [fst snd calls].
    eexists.
    exists (pre ++ [Event (PositionsGet (positions_query cfg symbol))
                      (mt5 _ (calls w0) (PositionsGet (positions_query cfg symbol)))]).
    split; [reflexivity | ].
    split; [rewrite app_assoc, <- Hpre; reflexivity | ].
    rewrite submissions_app, H1. split; [reflexivity | ].
    split.
    { clear - H2. induction pre as [ | [R c r] pre IH]; [reflexivity | ].
      destruct c; cbn in H2 |- *; solve [auto | discriminate]. }
    exists true, w0. repeat split.
  - subst run. unfold get_positions. rewrite (bind_ok _ _ _ _ _ Hconn). cbn [negb].
    exists [], pre. cbn. repeat split; auto.
    exists false, w0. repeat split.
Qed.

(** ** X7 and X8: symbols with and without the suffix *)

Lemma endswith_split (s suffix : string) :
  Py.endswith s suffix = true -> exists a, s = (a ++ suffix)%string.
Proof.
  induction s as [ | c s IH]; cbn [Py.endswith]; intros H.
  - rewrite orb_false_r in H. apply String.eqb_eq in H. subst. now exists "".
  - apply orb_true_iff in H. destruct H as [H | H].
    + apply String.eqb_eq in H. now exists "".
    + destruct (IH H) as (a & ->). now exists (String c a).
Qed.

Lemma truthy_append (a suffix : string) :
  Py.truthy suffix = true -> Py.truthy (a ++ suffix) = true.
Proof. destruct a, suffix; auto. Qed.

(** X7. The record [get_positions] shows for a position keeps its ticket,
    type, volume and open price. Its broker name is never lost: when
    [broker_symbol] is present it is the terminal's name and equals the
    shown symbol followed by the suffix; when it is absent the shown symbol
    is the terminal's name, which then does not end with a non-empty
    suffix. *)
Theorem position_as_dict_keeps_broker_name (cfg : config) (position : TradePosition.t) :
  let shown := position_as_dict cfg position in
  PositionDict.ticket shown = TradePosition.ticket position /\
  PositionDict.type shown = TradePosition.type position /\
  PositionDict.volume shown = TradePosition.volume position /\
  PositionDict.price_open shown = TradePosition.price_open position /\
  match PositionDict.broker_symbol shown with
  | Some broker =>
      broker = TradePosition.symbol position /\
      (PositionDict.symbol shown ++ MT5_DEFAULT_SUFFIX cfg)%string = broker /\
      MT5_DEFAULT_SUFFIX cfg <> ""
  | None =>
      PositionDict.symbol shown = TradePosition.symbol position /\
      (MT5_DEFAULT_SUFFIX cfg = "" \/
       Py.endswith (TradePosition.symbol position) (MT5_DEFAULT_SUFFIX cfg) = false)
  end.
Proof.
  intros shown. subst shown. unfold position_as_dict.
  cbn [PositionDict.of_position PositionDict.symbol].
  destruct (Py.truthy (MT5_DEFAULT_SUFFIX cfg)) eqn:Ht; cbn [andb].
  - destruct (Py.endswith (TradePosition.symbol position) (MT5_DEFAULT_SUFFIX cfg)) eqn:He.
    + cbn. repeat split.
      * destruct (endswith_split _ _ He) as (a & Ha). rewrite Ha at 1.
        rewrite drop_last_append by exact Ht. now rewrite Ha.
      * intros E. rewrite E in Ht. discriminate.
    + cbn. repeat split. now right.
  - cbn. repeat split. left.
    unfold Py.truthy in Ht. apply negb_false_iff, String.eqb_eq in Ht. exact Ht.
Qed.

(** X8. The suffix is applied at most once: qualifying a qualified symbol
    changes nothing, and [get_positions] behaves on a symbol and on its
    qualified form alike. *)
Theorem qualified_idempotent (cfg : config) (symbol : string) :
  qualified cfg (qualified cfg symbol) = qualified cfg symbol /\
  Py.endswith (qualified cfg symbol) (MT5_DEFAULT_SUFFIX cfg) = true /\
  forall mt5 w,
    get_positions cfg mt5 (Some (qualified cfg symbol)) w
    = get_positions cfg mt5 (Some symbol) w.
Proof.
  assert (Hq : Py.endswith (qualified cfg symbol) (MT5_DEFAULT_SUFFIX cfg) = true).
  { unfold qualified.
    destruct (Py.truthy (MT5_DEFAULT_SUFFIX cfg)) eqn:Ht; cbn [andb].
    - destruct (Py.endswith symbol (MT5_DEFAULT_SUFFIX cfg)) eqn:He; cbn [negb].
      + exact He.
      + apply endswith_append.
    - unfold Py.truthy in Ht. apply negb_false_iff, String.eqb_eq in Ht.
      rewrite Ht. apply endswith_empty. }
  split; [ | split; [exact Hq | ] ].
  - unfold qualified at 1. rewrite Hq. cbn [negb]. now rewrite andb_false_r.
  - intros mt5 w. unfold get_positions.
    replace (positions_query cfg (Some (qualified cfg symbol)))
      with (positions_query cfg (Some symbol)); [reflexivity | ].
    unfold positions_query at 2. rewrite Hq. cbn [negb]. rewrite andb_false_r.
    unfold positions_query, qualified.
    destruct (Py.truthy (MT5_DEFAULT_SUFFIX cfg)) eqn:Ht; cbn [andb].
    + destruct (Py.endswith symbol (MT5_DEFAULT_SUFFIX cfg)) eqn:He; cbn [negb].
      * reflexivity.
      * now rewrite truthy_append.
    + reflexivity.
Qed.

(** ** X9: closing the session *)

(** X9. [close_session] never raises and leaves the session flagged as not
    connected, the other attributes untouched. It shuts the terminal down
    exactly when the session was flagged connected, so a second
    [close_session] calls nothing; and the next connection check does not
    ask [terminal_info] but starts with [initialize]. *)
Theorem close_session_outcome (cfg : config) (mt5 : terminal) (w : world) :
  let run := close_session mt5 w in
  fst run = Ok tt /\
  connected (self (snd run)) = false /\
  volume_column (self (snd run)) = volume_column (self w) /\
  symbol_map (self (snd run)) = symbol_map (self w) /\
  calls (snd run)
  = calls w ++ (if connected (self w) then [Event Shutdown tt] else []) /\
  close_session mt5 (snd run) = (Ok tt, snd run) /\
  exists opened rest,
    calls (snd (check_connection cfg mt5 (snd run)))
    = calls (snd run) ++ Event (Initialize (MT5_PATH cfg)) opened :: rest.
Proof.
  intros run.
  assert (Hf : connected (self (snd run)) = false).
  { subst run. unfold close_session, bind, get_connected, api, set_connected, log, ret.
    destruct (connected (self w)) eqn:Hc; cbn; auto. }
  split; [subst run; unfold close_session, bind, get_connected, api, set_connected,
            log, ret; destruct (connected (self w)); reflexivity | ].
  split; [exact Hf | ].
  split; [subst run; unfold close_session, bind, get_connected, api, set_connected,
            log, ret; destruct (connected (self w)); reflexivity | ].
  split; [subst run; unfold close_session, bind, get_connected, api, set_connected,
            log, ret; destruct (connected (self w)); reflexivity | ].
  split.
  { subst run. unfold close_session, bind, get_connected, api, set_connected, log, ret.
    destruct (connected (self w)); cbn.
    - destruct (mt5 unit (calls w) Shutdown). reflexivity.
    - now rewrite app_nil_r. }
  split.
  { unfold close_session at 1. unfold bind, get_connected. rewrite Hf. reflexivity. }
  destruct (check_connection_run cfg mt5 (snd run)) as (b & w' & new & H & Hc & _ & _ & Hm).
  rewrite Hf in Hm. destruct Hm as (opened & rest & ->).
  rewrite H. eauto.
Qed.

(** ** X10: the fixed fields of every request *)

Lemma connecting_deals_only e : connecting e -> deals_only e.
Proof. destruct e as [R c r]; destruct c; simpl; tauto. Qed.

Lemma submissions_deals_only history :
  Forall deals_only history ->
  Forall (fun s => market_deal (fst s)) (submissions history).
Proof.
  induction 1 as [ | [R c r] rest Hc _ IH]; [constructor | ].
  destruct c; cbn; auto.
Qed.

Section Deals.

Variable cfg : config.
Variable mt5 : terminal.

Lemma emits_deals_check_connection : emits deals_only (check_connection cfg mt5).
Proof. exact (emits_weaken _ _ _ connecting_deals_only (emits_check_connection cfg mt5)). Qed.

Hint Resolve emits_deals_check_connection : emits.

Lemma emits_deals_get_positions symbol : emits deals_only (get_positions cfg mt5 symbol).
Proof. unfold get_positions. emits_auto. Qed.

Lemma emits_deals_close_position position_id close_volume :
  emits deals_only (close_position cfg mt5 position_id close_volume).
Proof.
  unfold close_position. emits_auto;
    apply emits_api; intros; cbn; repeat split.
Qed.

Lemma emits_deals_close_loop positions :
  forall v c f rs t, emits deals_only (close_loop cfg mt5 positions v c f rs t).
Proof.
  induction positions as [ | p rest IH]; intros; simpl.
  - apply emits_ret.
  - apply emits_bind; [apply emits_deals_close_position | ].
    intros r. destruct (success r); apply IH.
Qed.

Hint Resolve emits_deals_get_positions emits_deals_close_loop : emits.

Lemma emits_deals_close_all_positions symbol close_volume :
  emits deals_only (close_all_positions cfg mt5 symbol close_volume).
Proof. unfold close_all_positions. emits_auto. Qed.

Lemma emits_deals_open_market_order symbol order_type volume comment :
  emits deals_only (open_market_order cfg mt5 symbol order_type volume comment).
Proof.
  unfold open_market_order. emits_auto;
    apply emits_api; intros; cbn; repeat split.
Qed.

Hint Resolve emits_deals_close_all_positions emits_deals_open_market_order : emits.

Lemma emits_deals_place_trade symbol order_type volume price stop_loss take_profit
    comment close_existing :
  emits deals_only
    (place_trade cfg mt5 symbol order_type volume price stop_loss take_profit comment
       close_existing).
Proof. unfold place_trade. emits_auto. Qed.

End Deals.

(** X10. Every order request the handler submits, to open or to close, in
    [place_trade], [close_position] and [close_all_positions] alike, is an
    immediate deal with deviation 30, magic number 234000, good-till-cancel
    lifetime and immediate-or-cancel filling. *)
Theorem every_request_is_a_market_deal (cfg : config) (mt5 : terminal) (w : world) :
  (forall symbol order_type volume price stop_loss take_profit comment close_existing,
      exists new,
        calls (snd (place_trade cfg mt5 symbol order_type volume price stop_loss
                      take_profit comment close_existing w)) = calls w ++ new /\
        Forall (fun s => market_deal (fst s)) (submissions new)) /\
  (forall position_id close_volume,
      exists new,
        calls (snd (close_position cfg mt5 position_id close_volume w)) = calls w ++ new /\
        Forall (fun s => market_deal (fst s)) (submissions new)) /\
  (forall symbol close_volume,
      exists new,
        calls (snd (close_all_positions cfg mt5 symbol close_volume w)) = calls w ++ new /\
        Forall (fun s => market_deal (fst s)) (submissions new)).
Proof.
  split; [ | split]; intros.
  - destruct (emits_deals_place_trade cfg mt5 symbol order_type volume price stop_loss
                take_profit comment close_existing w) as (new & H & F).
    exists new. split; [exact H | now apply submissions_deals_only].
  - destruct (emits_deals_close_position cfg mt5 position_id close_volume w)
      as (new & H & F).
    exists new. split; [exact H | now apply submissions_deals_only].
  - destruct (emits_deals_close_all_positions cfg mt5 symbol close_volume w)
      as (new & H & F).
    exists new. split; [exact H | now apply submissions_deals_only].
Qed.

(** ** X11: what the methods read of the state *)

Lemma same_session_refl w : same_session w w.
Proof. split; reflexivity. Qed.

Lemma respects_ret {A} (a : A) : respects (ret a).
Proof. intros wa wb H. split; [reflexivity | exact H]. Qed.

Lemma respects_raise {A} (e : exn) : respects (@raise A e).
Proof. intros wa wb H. split; [reflexivity | exact H]. Qed.

Lemma respects_bind {A B} (c : M A) (k : A -> M B) :
  respects c -> (forall a, respects (k a)) -> respects (bind c k).
Proof.
  intros Hc Hk wa wb H. unfold bind.
  destruct (Hc wa wb H) as [Ho Hs].
  destruct (c wa) as [oa wa'], (c wb) as [ob wb']. simpl in Ho, Hs. subst ob.
  destruct oa as [a | e].
  - apply Hk, Hs.
  - split; [reflexivity | exact Hs].
Qed.

Lemma respects_try_except {A} (body : M A) (handler : exn -> M A) :
  respects body -> (forall e, respects (handler e)) -> respects (try_except body handler).
Proof.
  intros Hc Hk wa wb H. unfold try_except.
  destruct (Hc wa wb H) as [Ho Hs].
  destruct (body wa) as [oa wa'], (body wb) as [ob wb']. simpl in Ho, Hs. subst ob.
  destruct oa as [a | e].
  - split; [reflexivity | exact Hs].
  - apply Hk, Hs.
Qed.

Lemma respects_api {A} (mt5 : terminal) (c : call A) : respects (api mt5 c).
Proof.
  intros wa wb [Hc Hh]. unfold api. cbn. rewrite Hh. repeat split. exact Hc.
Qed.

Lemma respects_api_raising {A} (mt5 : terminal) (c : call (outcome A)) :
  respects (api_raising mt5 c).
Proof.
  apply respects_bind; [apply respects_api | ].
  intros [v | e]; [apply respects_ret | apply respects_raise].
Qed.

Lemma respects_log l m : respects (log l m).
Proof. intros wa wb [Hc Hh]. repeat split; assumption. Qed.

Lemma respects_set_connected b : respects (set_connected b).
Proof. intros wa wb [Hc Hh]. repeat split; assumption. Qed.

Lemma respects_set_volume_column c : respects (set_volume_column c).
Proof. intros wa wb [Hc Hh]. repeat split; assumption. Qed.

Lemma respects_get_connected : respects get_connected.
Proof. intros wa wb [Hc Hh]. unfold get_connected. cbn. rewrite Hc. repeat split; assumption. Qed.

Lemma respects_attr {A B} (what : string) (o : option A) (f : A -> B) :
  respects (attr what o f).
Proof. destruct o; simpl; [apply respects_ret | apply respects_raise]. Qed.

Lemma respects_lift {A} (o : outcome A) : respects (lift o).
Proof. intros wa wb H. split; [reflexivity | exact H]. Qed.

Create HintDb respects.

Ltac respects_case :=
  match goal with
  | |- respects (match ?x with _ => _ end) => destruct x
  | |- respects (let '(_, _) := ?x in _) => destruct x
  end.

Ltac respects_step :=
  first
    [ assumption
    | solve [auto 1 with respects nocore]
    | apply respects_ret | apply respects_raise | apply respects_log
    | apply respects_set_connected | apply respects_set_volume_column
    | apply respects_get_connected | apply respects_attr | apply respects_lift
    | apply respects_api | apply respects_api_raising
    | apply respects_bind; [ | intros ]
    | apply respects_try_except; [ | intros ]
    | respects_case ].

Ltac respects_auto := repeat respects_step.

Section Respects.

Variable cfg : config.
Variable mt5 : terminal.

Lemma respects_first_selectable l : respects (first_selectable mt5 l).
Proof. induction l; simpl; respects_auto. Qed.

Lemma respects_log_variations names pairs : respects (log_variations names pairs).
Proof. induction pairs; simpl; respects_auto. Qed.

Hint Resolve respects_first_selectable respects_log_variations : respects.

Lemma respects_check_data_columns : respects (_check_data_columns mt5).
Proof. unfold _check_data_columns. respects_auto. Qed.

Hint Resolve respects_check_data_columns : respects.

Lemma respects_initialize_mt5 : respects (initialize_mt5 cfg mt5).
Proof. unfold initialize_mt5. respects_auto. Qed.

Hint Resolve respects_initialize_mt5 : respects.

Lemma respects_check_connection : respects (check_connection cfg mt5).
Proof. unfold check_connection. respects_auto. Qed.

Hint Resolve respects_check_connection : respects.

Lemma respects_list_available_symbols : respects (list_available_symbols cfg mt5).
Proof. unfold list_available_symbols. respects_auto. Qed.

Lemma respects_get_positions symbol : respects (get_positions cfg mt5 symbol).
Proof. unfold get_positions. respects_auto. Qed.

Lemma respects_close_position position_id close_volume :
  respects (close_position cfg mt5 position_id close_volume).
Proof. unfold close_position. respects_auto. Qed.

Lemma respects_close_loop positions :
  forall v c f rs t, respects (close_loop cfg mt5 positions v c f rs t).
Proof.
  induction positions as [ | p rest IH]; intros; simpl.
  - apply respects_ret.
  - apply respects_bind; [apply respects_close_position | ].
    intros r. destruct (success r); apply IH.
Qed.

Hint Resolve respects_get_positions respects_close_loop : respects.

Lemma respects_close_all_positions symbol close_volume :
  respects (close_all_positions cfg mt5 symbol close_volume).
Proof. unfold close_all_positions. respects_auto. Qed.

Lemma respects_open_market_order symbol order_type volume comment :
  respects (open_market_order cfg mt5 symbol order_type volume comment).
Proof. unfold open_market_order. respects_auto. Qed.

Hint Resolve respects_close_all_positions respects_open_market_order : respects.

Lemma respects_place_trade symbol order_type volume price stop_loss take_profit
    comment close_existing :
  respects
    (place_trade cfg mt5 symbol order_type volume price stop_loss take_profit comment
       close_existing).
Proof. unfold place_trade. respects_auto. Qed.

End Respects.

(** X11. No operation reads the detected volume column, the symbol cache or
    the log: from two states with the same [connected] flag and the same
    history of calls, each of [place_trade], [close_position],
    [close_all_positions], [get_positions] and [list_available_symbols]
    returns the same outcome and makes the same calls. *)
Theorem operations_read_flag_and_history_only
    (cfg : config) (mt5 : terminal) (wa wb : world) :
  connected (self wa) = connected (self wb) ->
  calls wa = calls wb ->
  (forall symbol order_type volume price stop_loss take_profit comment close_existing,
      let op := place_trade cfg mt5 symbol order_type volume price stop_loss take_profit
                  comment close_existing in
      fst (op wa) = fst (op wb) /\ calls (snd (op wa)) = calls (snd (op wb))) /\
  (forall position_id close_volume,
      let op := close_position cfg mt5 position_id close_volume in
      fst (op wa) = fst (op wb) /\ calls (snd (op wa)) = calls (snd (op wb))) /\
  (forall symbol close_volume,
      let op := close_all_positions cfg mt5 symbol close_volume in
      fst (op wa) = fst (op wb) /\ calls (snd (op wa)) = calls (snd (op wb))) /\
  (forall symbol,
      let op := get_positions cfg mt5 symbol in
      fst (op wa) = fst (op wb) /\ calls (snd (op wa)) = calls (snd (op wb))) /\
  (let op := list_available_symbols cfg mt5 in
   fst (op wa) = fst (op wb) /\ calls (snd (op wa)) = calls (snd (op wb))).
Proof.
  intros Hc Hh.
  assert (H : same_session wa wb) by (split; assumption).
  repeat split.
  all: try (apply respects_place_trade; exact H).
  all: try (apply respects_close_position; exact H).
  all: try (apply respects_close_all_positions; exact H).
  all: try (apply respects_get_positions; exact H).
  all: try (apply respects_list_available_symbols; exact H).
Qed.

(** ** X12 to X14: orders that are not placed *)

(** The ways [open_market_order] returns without having submitted an
    order. *)
Lemma open_market_order_rejections cfg mt5 symbol order_type volume comment w r w' :
  open_market_order cfg mt5 symbol order_type volume comment w = (Ok r, w') ->
  let q := qualified cfg symbol in
  exists new,
    calls w' = calls w ++ new /\
    (submissions new = [] ->
     success r = false /\ details r = None /\
     ((message r = [Lit "Symbol "; Str q; Lit " not found"] /\
       exists listed, new = [Event (SymbolInfoGet q) None; Event SymbolsGet listed]) \/
      (message r = [Lit "Failed to select symbol "; Str q] /\
       exists info,
         SymbolInfo.visible info = false /\
         new = [Event (SymbolInfoGet q) (Some info); Event (SymbolSelect q true) false]) \/
      (message r = [Lit "Failed to get market data for "; Str q] /\
       quotes new = [(q, None)]) \/
      (message r = [Lit "Invalid order type: "; Str order_type] /\
       exists tick, quotes new = [(q, Some tick)] /\ order_side order_type tick = None))).
Proof.
  unfold open_market_order, bind, api, log, ret, lift.
  generalize (qualified cfg symbol) as q. intros q.
  destruct w as [s c l].
  repeat (cbn -[Z.eqb order_side Py.truthy Py.endswith Py.float]; run_step);
    cbn -[Z.eqb order_side Py.truthy Py.endswith Py.float];
    intros Hrun; inversion Hrun; subst; clear Hrun; tidy_history;
    (eexists; split; [reflexivity | ]);
    cbn -[Z.eqb order_side Py.float]; intros Hs; try discriminate Hs;
    (split; [reflexivity | split; [reflexivity | ] ]).
  all: repeat match goal with
         | H : negb _ = true |- _ => apply negb_true_iff in H
         end.
  all: try (left; split; [reflexivity | eexists; reflexivity]).
  all: try (right; left; split; [reflexivity | ]; eexists; split; [eassumption | ];
            match goal with H : ?x = false |- context [Event _ ?x] => rewrite H end;
            reflexivity).
  all: try (right; right; left; split; reflexivity).
  all: try (right; right; right; split; [reflexivity | eexists; split; [reflexivity | assumption] ]).
Qed.

(** X12. When [place_trade] returns without having submitted an order for
    the new position, the result is a failure without details and names one
    of four causes: the qualified symbol is unknown (the only further call
    lists the symbols), the symbol is hidden and cannot be selected (no
    quote is fetched), no quote is available, or the direction is none of
    BUY, LONG, SELL, SHORT (found only after the quote was fetched). The
    calls of the new order are those from the lookup of the qualified
    symbol on: they follow the calls of the close-all step and the pause,
    none of which is such a lookup. *)
Theorem place_trade_rejections
    (cfg : config) (mt5 : terminal) (symbol order_type : string)
    (volume : Py.value) (price : float) (stop_loss take_profit : option float)
    (comment : string) (close_existing : bool) (w w0 w' : world) (r : result) :
  check_connection cfg mt5 w = (Ok true, w0) ->
  place_trade cfg mt5 symbol order_type volume price stop_loss take_profit comment
    close_existing w = (Ok r, w') ->
  let q := qualified cfg symbol in
  exists before after,
    calls w' = calls w0 ++ before
                 ++ (if close_existing then [Event (Sleep 0.5%float) tt] else [])
                 ++ after /\
    Forall (closing (positions_query cfg (Some symbol))) before /\
    (close_existing = false -> before = []) /\
    Forall (opening q) after /\
    (exists info rest, after = Event (SymbolInfoGet q) info :: rest) /\
    (submissions after = [] ->
     success r = false /\ details r = None /\
     ((message r = [Lit "Symbol "; Str q; Lit " not found"] /\
       exists listed, after = [Event (SymbolInfoGet q) None; Event SymbolsGet listed]) \/
      (message r = [Lit "Failed to select symbol "; Str q] /\
       exists info,
         SymbolInfo.visible info = false /\
         after = [Event (SymbolInfoGet q) (Some info);
                  Event (SymbolSelect q true) false]) \/
      (message r = [Lit "Failed to get market data for "; Str q] /\
       quotes after = [(q, None)]) \/
      (message r = [Lit "Invalid order type: "; Str order_type] /\
       exists tick,
         quotes after = [(q, Some tick)] /\ order_side order_type tick = None))).
Proof.
  intros Hconn Hrun q.
  destruct (place_trade_phases _ _ _ _ _ _ _ _ _ _ _ _ _ _ Hconn Hrun)
    as (before & pause & after & Hc & Fb & Fa & Hce & Hp & start & Hs & Horder).
  destruct (open_market_order_rejections _ _ _ _ _ _ _ _ _ Horder)
    as (new & Hc' & H).
  destruct (open_market_order_run _ _ _ _ _ _ _ _ _ Horder)
    as (info & rest & Hc'' & _).
  rewrite Hs, <- !app_assoc, Hc in Hc', Hc''.
  do 3 apply app_inv_head in Hc'. do 3 apply app_inv_head in Hc''. subst new.
  exists before, after. rewrite <- Hp.
  split; [exact Hc | ]. split; [exact Fb | ].
  split; [intros E; apply (Hce E) | ].
  split; [exact Fa | ].
  split; [exists info, rest; exact Hc'' | exact H].
Qed.

(** A HOLD with one position open: the position is closed, the pause is
    taken, and the new order is refused for its direction. *)
Lemma place_trade_rejections_witness :
  let mt5 := Demo.terminal_of (Demo.market [Demo.eurusd 1 ORDER_TYPE_BUY 0.5]) in
  let run := place_trade Demo.cfg mt5 "EURUSD" "HOLD" (Py.Number 0.25) 0 None None
               "TV Signal" true Demo.session in
  let w0 := snd (check_connection Demo.cfg mt5 Demo.session) in
  (exists r,
      fst run = Ok r /\
      message r = [Lit "Invalid order type: "; Str "HOLD"] /\
      map (fun s => TradeRequest.position (fst s)) (submissions (calls (snd run)))
      = [Some 1%Z]) /\
  forall r,
    fst run = Ok r ->
    exists before after,
      calls (snd run) = calls w0 ++ before ++ [Event (Sleep 0.5%float) tt] ++ after /\
      Forall (closing (positions_query Demo.cfg (Some "EURUSD"))) before /\
      (true = false -> before = []) /\
      Forall (opening "EURUSD.r") after /\
      (exists info rest, after = Event (SymbolInfoGet "EURUSD.r") info :: rest) /\
      (submissions after = [] ->
       success r = false /\ details r = None /\
       ((message r = [Lit "Symbol "; Str "EURUSD.r"; Lit " not found"] /\
         exists listed,
           after = [Event (SymbolInfoGet "EURUSD.r") None; Event SymbolsGet listed]) \/
        (message r = [Lit "Failed to select symbol "; Str "EURUSD.r"] /\
         exists info,
           SymbolInfo.visible info = false /\
           after = [Event (SymbolInfoGet "EURUSD.r") (Some info);
                    Event (SymbolSelect "EURUSD.r" true) false]) \/
        (message r = [Lit "Failed to get market data for "; Str "EURUSD.r"] /\
         quotes after = [("EURUSD.r", None)]) \/
        (message r = [Lit "Invalid order type: "; Str "HOLD"] /\
         exists tick,
           quotes after = [("EURUSD.r", Some tick)] /\
           order_side "HOLD" tick = None))).
Proof.
  intros mt5 run w0. split.
  - eexists. split; [vm_compute; reflexivity | ]. split; vm_compute; reflexivity.
  - intros r Hr.
    apply (place_trade_rejections Demo.cfg mt5 "EURUSD"
             "HOLD" (Py.Number 0.25) 0 None None "TV Signal" true Demo.session w0
             (snd run) r).
    + vm_compute; reflexivity.
    + rewrite <- Hr. apply surjective_pairing.
Defined.

Lemma open_market_order_unknown cfg (mt5 : terminal) symbol order_type volume comment w :
  (forall history, mt5 _ history (SymbolInfoGet (qualified cfg symbol)) = None) ->
  exists listed w',
    open_market_order cfg mt5 symbol order_type volume comment w
    = (Ok (plain_result false
             [Lit "Symbol "; Str (qualified cfg symbol); Lit " not found"]), w') /\
    calls w' = calls w ++ [Event (SymbolInfoGet (qualified cfg symbol)) None;
                           Event SymbolsGet listed].
Proof.
  intros Hq. unfold open_market_order, bind, api, log, ret.
  destruct w as [s c l].
  destruct (Py.truthy (MT5_DEFAULT_SUFFIX cfg)
            && negb (Py.endswith symbol (MT5_DEFAULT_SUFFIX cfg)));
    cbn -[qualified]; rewrite Hq;
    do 2 eexists; (split; [reflexivity | ]); cbn -[qualified];
    rewrite <- app_assoc; reflexivity.
Qed.

(** X13. An order for a symbol the terminal does not know is refused without
    going near the order endpoint: [place_trade] returns the failure
    "Symbol ... not found" for the qualified name, having asked for no quote
    and submitted no order for it; its last two calls are the failed lookup
    and the listing of the symbols. *)
Theorem place_trade_unknown_symbol
    (cfg : config) (mt5 : terminal) (symbol order_type : string)
    (volume : Py.value) (price : float) (stop_loss take_profit : option float) (comment : string)
    (close_existing : bool) (w w0 w' : world) (r : result) :
  check_connection cfg mt5 w = (Ok true, w0) ->
  (forall history, mt5 _ history (SymbolInfoGet (qualified cfg symbol)) = None) ->
  place_trade cfg mt5 symbol order_type volume price stop_loss take_profit comment
    close_existing w = (Ok r, w') ->
  r = plain_result false [Lit "Symbol "; Str (qualified cfg symbol); Lit " not found"] /\
  exists before listed,
    calls w' = calls w0 ++ before
                 ++ [Event (SymbolInfoGet (qualified cfg symbol)) None;
                     Event SymbolsGet listed] /\
    Forall (fun s => TradeRequest.position (fst s) <> None) (submissions before) /\
    (close_existing = false -> before = []).
Proof.
  intros Hconn Hq Hrun.
  destruct (place_trade_phases _ _ _ _ _ _ _ _ _ _ _ _ _ _ Hconn Hrun)
    as (before & pause & after & Hc & Fb & _ & Hce & Hp & start & Hs & Horder).
  destruct (open_market_order_unknown cfg mt5 symbol order_type volume comment start Hq)
    as (listed & w2 & Hrun2 & Hc2).
  rewrite Hrun2 in Horder. inversion Horder; subst r w2; clear Horder.
  split; [reflexivity | ].
  exists (before ++ pause), listed.
  split; [rewrite Hc2, Hs, <- !app_assoc; reflexivity | ].
  split.
  - rewrite submissions_app. apply Forall_app. split.
    + eapply submissions_closing; eauto.
    + subst pause. destruct close_existing; constructor.
  - intros E. destruct (Hce E) as [-> ->]. reflexivity.
Qed.

Lemma place_trade_unknown_symbol_witness :
  let mt5 := Demo.terminal_of (Demo.market []) in
  let run := place_trade Demo.cfg mt5 "XYZUSD" "BUY" (Py.Number 0.25) 0 None None "TV Signal" false
               Demo.session in
  let w0 := snd (check_connection Demo.cfg mt5 Demo.session) in
  exists r,
    fst run = Ok r /\
    r = plain_result false [Lit "Symbol "; Str (qualified Demo.cfg "XYZUSD");
                            Lit " not found"] /\
    exists before listed,
      calls (snd run) = calls w0 ++ before
                          ++ [Event (SymbolInfoGet (qualified Demo.cfg "XYZUSD")) None;
                              Event SymbolsGet listed] /\
      Forall (fun s => TradeRequest.position (fst s) <> None) (submissions before) /\
      (false = false -> before = []).
Proof.
  intros mt5 run w0.
  destruct (fst run) as [r | e] eqn:Hr; [ | vm_compute in Hr; discriminate Hr].
  exists r. split; [reflexivity | ].
  apply (place_trade_unknown_symbol Demo.cfg mt5 "XYZUSD" "BUY" (Py.Number 0.25) 0 None None
           "TV Signal" false Demo.session w0 (snd run) r).
  - vm_compute; reflexivity.
  - intros history. reflexivity.
  - rewrite <- Hr. apply surjective_pairing.
Defined.

(** X14. A direction that is none of BUY, LONG, SELL and SHORT (in any
    letter case) never opens a position: [place_trade] submits no order
    without a position ticket and returns a failure without details. *)
Theorem place_trade_invalid_direction
    (cfg : config) (mt5 : terminal) (symbol order_type : string)
    (volume : Py.value) (price : float) (stop_loss take_profit : option float) (comment : string)
    (close_existing : bool) (w w0 w' : world) (r : result) :
  Py.mem (Py.upper order_type) ["BUY"; "LONG"] = false ->
  Py.mem (Py.upper order_type) ["SELL"; "SHORT"] = false ->
  check_connection cfg mt5 w = (Ok true, w0) ->
  place_trade cfg mt5 symbol order_type volume price stop_loss take_profit comment
    close_existing w = (Ok r, w') ->
  success r = false /\ details r = None /\
  exists new,
    calls w' = calls w0 ++ new /\
    Forall (fun s => TradeRequest.position (fst s) <> None) (submissions new).
Proof.
  intros Hb Hs Hconn Hrun.
  destruct (place_trade_phases _ _ _ _ _ _ _ _ _ _ _ _ _ _ Hconn Hrun)
    as (before & pause & after & Hc & Fb & _ & _ & Hp & start & Hst & Horder).
  destruct (open_market_order_run _ _ _ _ _ _ _ _ _ Horder)
    as (info & rest & Hc' & _ & _ & Hsub).
  rewrite Hst, <- !app_assoc, Hc in Hc'.
  do 2 apply app_inv_head in Hc'. apply app_inv_head in Hc'. subst after.
  assert (Hnone : submissions rest = []).
  { destruct (submissions rest) as [ | [request reply] [ | ? ?] ];
      [reflexivity | | contradiction].
    destruct Hsub as ((tick & _ & Hside) & _).
    unfold order_side in Hside. rewrite Hb, Hs in Hside. discriminate. }
  rewrite Hnone in Hsub. destruct Hsub as [Hf Hd].
  split; [exact Hf | split; [exact Hd | ] ].
  eexists. split; [exact Hc | ].
  rewrite !submissions_app. cbn [submissions submission]. rewrite Hnone, app_nil_r.
  apply Forall_app. split.
  - eapply submissions_closing; eauto.
  - subst pause. destruct close_existing; constructor.
Qed.

Lemma place_trade_invalid_direction_witness :
  let mt5 := Demo.terminal_of (Demo.market [Demo.eurusd 1 ORDER_TYPE_BUY 0.5]) in
  let run := place_trade Demo.cfg mt5 "EURUSD" "hold" (Py.Number 0.25) 0 None None "TV Signal" true
               Demo.session in
  let w0 := snd (check_connection Demo.cfg mt5 Demo.session) in
  exists r,
    fst run = Ok r /\
    success r = false /\ details r = None /\
    exists new,
      calls (snd run) = calls w0 ++ new /\
      Forall (fun s => TradeRequest.position (fst s) <> None) (submissions new).
Proof.
  intros mt5 run w0.
  destruct (fst run) as [r | e] eqn:Hr; [ | vm_compute in Hr; discriminate Hr].
  exists r. split; [reflexivity | ].
  apply (place_trade_invalid_direction Demo.cfg mt5 "EURUSD" "hold" (Py.Number 0.25) 0 None None
           "TV Signal" true Demo.session w0 (snd run) r).
  - vm_compute; reflexivity.
  - vm_compute; reflexivity.
  - vm_compute; reflexivity.
  - rewrite <- Hr. apply surjective_pairing.
Defined.

(** ** X15: a ticket that is not open *)

(** X15. [close_position] on a ticket for which the terminal returns nothing
    (no answer, or an empty one) returns the failure "Position ... not
    found"; after the connection check its only call is that lookup, so it
    fetches no quote and submits no order. *)
Theorem close_position_missing_ticket
    (cfg : config) (mt5 : terminal) (position_id : Z) (close_volume : option Py.value)
    (w w0 : world) :
  check_connection cfg mt5 w = (Ok true, w0) ->
  let answer := mt5 _ (calls w0) (PositionsGet (ByTicket position_id)) in
  answer = None \/ answer = Some [] ->
  close_position cfg mt5 position_id close_volume w
  = (Ok (plain_result false [Lit "Position "; Int position_id; Lit " not found"]),
     {| self := self w0;
        calls := calls w0 ++ [Event (PositionsGet (ByTicket position_id)) answer];
        logs := logs w0 |}).
Proof.
  intros Hconn answer Ha. unfold close_position.
  rewrite (bind_ok _ _ _ _ _ Hconn). cbn [negb].
  unfold bind at 1, api at 1. cbv zeta. fold answer.
  destruct Ha as [-> | ->]; reflexivity.
Qed.

Lemma close_position_missing_ticket_witness :
  let mt5 := Demo.terminal_of (Demo.market [Demo.eurusd 1 ORDER_TYPE_BUY 0.5]) in
  let w0 := snd (check_connection Demo.cfg mt5 Demo.session) in
  let answer := mt5 _ (calls w0) (PositionsGet (ByTicket 2)) in
  close_position Demo.cfg mt5 2 None Demo.session
  = (Ok (plain_result false [Lit "Position "; Int 2; Lit " not found"]),
     {| self := self w0;
        calls := calls w0 ++ [Event (PositionsGet (ByTicket 2)) answer];
        logs := logs w0 |}).
Proof.
  intros mt5 w0 answer.
  apply (close_position_missing_ticket Demo.cfg mt5 2 None Demo.session w0).
  - vm_compute; reflexivity.
  - right. vm_compute; reflexivity.
Defined.

(** ** X16: a terminal that cannot be reached *)

(** X16. When the terminal reports no session and [initialize] fails, every
    operation ends after the one failed reconnection attempt: the trading
    operations return the failure "MT5 connection failed", the queries
    return the empty list, the session is left flagged as not connected,
    and the only calls made are [terminal_info] (if the session was flagged
    connected), the failed [initialize] and the reading of its error. *)
Theorem unreachable_terminal (cfg : config) (mt5 : terminal) (w : world) :
  (forall history, mt5 bool history TerminalInfo = false) ->
  (forall history, mt5 bool history (Initialize (MT5_PATH cfg)) = false) ->
  exists w0 e,
    check_connection cfg mt5 w = (Ok false, w0) /\
    connected (self w0) = false /\
    calls w0
    = calls w ++ (if connected (self w) then [Event TerminalInfo false] else [])
        ++ [Event (Initialize (MT5_PATH cfg)) false; Event LastError e] /\
    (forall symbol order_type volume price stop_loss take_profit comment close_existing,
        place_trade cfg mt5 symbol order_type volume price stop_loss take_profit comment
          close_existing w
        = (Ok (plain_result false [Lit "MT5 connection failed"]), w0)) /\
    (forall position_id close_volume,
        close_position cfg mt5 position_id close_volume w
        = (Ok (plain_result false [Lit "MT5 connection failed"]), w0)) /\
    (forall symbol close_volume,
        close_all_positions cfg mt5 symbol close_volume w
        = (Ok (plain_result false [Lit "MT5 connection failed"]), w0)) /\
    (forall symbol, get_positions cfg mt5 symbol w = (Ok [], w0)) /\
    list_available_symbols cfg mt5 w = (Ok [], w0).
Proof.
  intros Hinfo Hinit.
  assert (Hconn : exists w0 e,
             check_connection cfg mt5 w = (Ok false, w0) /\
             connected (self w0) = false /\
             calls w0
             = calls w ++ (if connected (self w) then [Event TerminalInfo false] else [])
                 ++ [Event (Initialize (MT5_PATH cfg)) false; Event LastError e]).
  { unfold check_connection, bind at 1, get_connected.
    destruct (connected (self w)) eqn:Hc.
    - unfold bind at 1, api at 1. cbv zeta. rewrite Hinfo. cbn [negb].
      unfold bind, log, set_connected. cbn [self calls logs].
      match goal with
      | |- context [initialize_mt5 cfg mt5 ?x] =>
          destruct (initialize_mt5_run cfg mt5 x) as (w' & rest & Hrun & Hcalls & _ & Hf & Hm)
      end.
      rewrite Hinit in Hrun, Hcalls, Hf, Hm. cbn in Hrun, Hcalls, Hf, Hm.
      destruct Hm as (_ & e & ->).
      exists w', e. split; [exact Hrun | ]. split; [exact Hf | ].
      rewrite Hcalls, <- app_assoc. reflexivity.
    - unfold bind, ret, log, set_connected. cbn [negb self calls logs].
      match goal with
      | |- context [initialize_mt5 cfg mt5 ?x] =>
          destruct (initialize_mt5_run cfg mt5 x) as (w' & rest & Hrun & Hcalls & _ & Hf & Hm)
      end.
      rewrite Hinit in Hrun, Hcalls, Hf, Hm. cbn in Hrun, Hcalls, Hf, Hm.
      destruct Hm as (_ & e & ->).
      exists w', e. split; [exact Hrun | ]. split; [exact Hf | ].
      exact Hcalls. }
  destruct Hconn as (w0 & e & Hconn & Hf & Hc).
  exists w0, e. split; [exact Hconn | ]. split; [exact Hf | ]. split; [exact Hc | ].
  split; [ | split; [ | split; [ | split] ] ]; intros.
  - unfold place_trade. now rewrite (bind_ok _ _ _ _ _ Hconn).
  - unfold close_position. now rewrite (bind_ok _ _ _ _ _ Hconn).
  - unfold close_all_positions. now rewrite (bind_ok _ _ _ _ _ Hconn).
  - unfold get_positions. now rewrite (bind_ok _ _ _ _ _ Hconn).
  - unfold list_available_symbols. now rewrite (bind_ok _ _ _ _ _ Hconn).
Qed.

Lemma unreachable_terminal_witness :
  exists w0 e,
    check_connection Demo.cfg unreachable Demo.session = (Ok false, w0) /\
    connected (self w0) = false /\
    calls w0
    = calls Demo.session
        ++ (if connected (self Demo.session) then [Event TerminalInfo false] else [])
        ++ [Event (Initialize (MT5_PATH Demo.cfg)) false; Event LastError e] /\
    (forall symbol order_type volume price stop_loss take_profit comment close_existing,
        place_trade Demo.cfg unreachable symbol order_type volume price stop_loss
          take_profit comment close_existing Demo.session
        = (Ok (plain_result false [Lit "MT5 connection failed"]), w0)) /\
    (forall position_id close_volume,
        close_position Demo.cfg unreachable position_id close_volume Demo.session
        = (Ok (plain_result false [Lit "MT5 connection failed"]), w0)) /\
    (forall symbol close_volume,
        close_all_positions Demo.cfg unreachable symbol close_volume Demo.session
        = (Ok (plain_result false [Lit "MT5 connection failed"]), w0)) /\
    (forall symbol, get_positions Demo.cfg unreachable symbol Demo.session = (Ok [], w0)) /\
    list_available_symbols Demo.cfg unreachable Demo.session = (Ok [], w0).
Proof.
  apply (unreachable_terminal Demo.cfg unreachable Demo.session).
  - intros history. reflexivity.
  - intros history. reflexivity.
Defined.

(** ** X17 and X18: close-all without a split *)

(** X17. When [get_positions] returns the empty list, [close_all_positions]
    returns a success with the message "No positions to close" and
    [closed_count] 0, without [failed_count], [total_volume_closed] or
    [details], and makes no further call. The empty list need not mean
    that nothing is open: if the connection check made by [get_positions]
    fails, after the one made by [close_all_positions] passed, the answer
    is that same success, with the session left flagged as not connected. *)
Theorem close_all_positions_nothing_to_close
    (cfg : config) (mt5 : terminal) (symbol : option string)
    (close_volume : option Py.total) (w w0 : world) :
  check_connection cfg mt5 w = (Ok true, w0) ->
  let nothing :=
    {| success := true;
       message := [Lit "No positions to close"];
       closed_count := Some 0%nat;
       failed_count := None;
       total_volume_closed := None;
       details := None;
       volume_closed := None |} in
  (forall w1,
      get_positions cfg mt5 symbol w0 = (Ok [], w1) ->
      close_all_positions cfg mt5 symbol close_volume w = (Ok nothing, w1)) /\
  (forall w1,
      check_connection cfg mt5 w0 = (Ok false, w1) ->
      close_all_positions cfg mt5 symbol close_volume w = (Ok nothing, w1) /\
      connected (self w1) = false).
Proof.
  intros Hconn nothing.
  assert (H : forall w1,
             get_positions cfg mt5 symbol w0 = (Ok [], w1) ->
             close_all_positions cfg mt5 symbol close_volume w = (Ok nothing, w1)).
  { intros w1 Hget. unfold close_all_positions.
    rewrite (bind_ok _ _ _ _ _ Hconn). cbn [negb].
    rewrite (bind_ok _ _ _ _ _ Hget). reflexivity. }
  split; [exact H | ].
  intros w1 Hlost. split.
  - apply H. unfold get_positions. now rewrite (bind_ok _ _ _ _ _ Hlost).
  - destruct (check_connection_run cfg mt5 w0) as (b & w' & new & Hr & _ & Hf & _).
    rewrite Hlost in Hr. assert (E1 : b = false) by congruence.
    assert (E2 : w' = w1) by congruence. rewrite E1, E2 in Hf. exact Hf.
Qed.

Lemma close_all_positions_nothing_to_close_witness :
  let mt5 := session_lost_after_first_check in
  let w0 := snd (check_connection Demo.cfg mt5 Demo.session) in
  let nothing :=
    {| success := true;
       message := [Lit "No positions to close"];
       closed_count := Some 0%nat;
       failed_count := None;
       total_volume_closed := None;
       details := None;
       volume_closed := None |} in
  let w1 := snd (check_connection Demo.cfg mt5 w0) in
  close_all_positions Demo.cfg mt5 (Some "EURUSD") None Demo.session = (Ok nothing, w1) /\
  connected (self w1) = false.
Proof.
  intros mt5 w0 nothing w1.
  assert (Hconn : check_connection Demo.cfg mt5 Demo.session = (Ok true, w0))
    by (vm_compute; reflexivity).
  apply (proj2 (close_all_positions_nothing_to_close Demo.cfg mt5 (Some "EURUSD") None
                  Demo.session w0 Hconn) w1).
  vm_compute; reflexivity.
Defined.

(** X18. [close_all_positions] divides nothing when no [close_volume] is
    given or when a single position matches: it issues one close call per
    matching position, in their order, each with the [close_volume] as
    given. Every position is then closed in full (no volume), or the one
    position is asked for the whole volume. *)
Theorem close_all_positions_unsplit
    (cfg : config) (mt5 : terminal) (symbol : option string)
    (close_volume : option Py.total) (w w0 w1 w' : world)
    (positions : list PositionDict.t) (out : outcome result) :
  check_connection cfg mt5 w = (Ok true, w0) ->
  get_positions cfg mt5 symbol w0 = (Ok positions, w1) ->
  positions <> [] ->
  close_volume = None \/ List.length positions = 1%nat ->
  close_all_positions cfg mt5 symbol close_volume w = (out, w') ->
  let requests :=
    map (fun p => (PositionDict.ticket p, option_map Py.whole close_volume)) positions in
  exists start,
    calls start = calls w1 /\ self start = self w1 /\
    match close_each cfg mt5 requests start with
    | (Ok results, w2) =>
        calls w' = calls w2 /\
        List.length results = List.length positions /\
        exists r, out = Ok r /\ details r = Some (inr results)
    | (Raised e, w2) => calls w' = calls w2 /\ out = Raised e
    end.
Proof.
  intros Hconn Hget Hne Hcase Hrun requests.
  pose proof (close_all_positions_run cfg mt5 symbol close_volume w w0 w1 positions
                Hconn Hget Hne) as H.
  assert (Hv : volume_per_position close_volume positions
               = Ok (option_map Py.whole close_volume)).
  { unfold volume_per_position.
    destruct Hcase as [-> | ->]; [reflexivity | ]. destruct close_volume; reflexivity. }
  rewrite Hv in H. destruct H as (start & Hc & Hs & H). fold requests in H.
  exists start. split; [exact Hc | split; [exact Hs | ] ].
  destruct (close_each cfg mt5 requests start) as [[results | e] w2] eqn:Heach.
  - destruct H as (wf & Hcf & _ & H). rewrite H in Hrun. inversion Hrun; subst.
    split; [exact Hcf | ].
    split.
    + rewrite (close_each_length _ _ _ _ _ _ Heach). apply length_map.
    + eexists; split; reflexivity.
  - rewrite H in Hrun. inversion Hrun; subst. auto.
Qed.

(** One position of 0.25 lots and 0.5 to close: the one close call asks for
    0.5, and the request sent is capped at 0.25. *)
Lemma close_all_positions_unsplit_witness :
  let mt5 := Demo.terminal_of (Demo.market [Demo.eurusd 1 ORDER_TYPE_BUY 0.25]) in
  let w0 := snd (check_connection Demo.cfg mt5 Demo.session) in
  let w1 := snd (get_positions Demo.cfg mt5 (Some "EURUSD") w0) in
  let positions := map (position_as_dict Demo.cfg) [Demo.eurusd 1 ORDER_TYPE_BUY 0.25] in
  let run := close_all_positions Demo.cfg mt5 (Some "EURUSD") (Some (Py.of_float 0.5))
               Demo.session in
  let requests := map (fun p => (PositionDict.ticket p, Some (Py.Number 0.5))) positions in
  (exists start,
      calls start = calls w1 /\ self start = self w1 /\
      match close_each Demo.cfg mt5 requests start with
      | (Ok results, w2) =>
          calls (snd run) = calls w2 /\
          List.length results = List.length positions /\
          exists r, fst run = Ok r /\ details r = Some (inr results)
      | (Raised e, w2) => calls (snd run) = calls w2 /\ fst run = Raised e
      end) /\
  map (fun s => TradeRequest.volume (fst s)) (submissions (calls (snd run)))
  = [0.25%float].
Proof.
  intros mt5 w0 w1 positions run requests.
  split; [ | vm_compute; reflexivity].
  apply (close_all_positions_unsplit Demo.cfg mt5 (Some "EURUSD") (Some (Py.of_float 0.5))
           Demo.session w0 w1 (snd run) positions (fst run)).
  - vm_compute; reflexivity.
  - vm_compute; reflexivity.
  - discriminate.
  - right. reflexivity.
  - vm_compute; reflexivity.
Defined.

(** Two states of one session that differ in the detected column, in the
    symbol cache and in the log. *)
Lemma operations_read_flag_and_history_only_witness :
  let mt5 := Demo.terminal_of (Demo.market [Demo.eurusd 1 ORDER_TYPE_BUY 0.5]) in
  let other :=
    {| self := {| connected := true; volume_column := None;
                  symbol_map := [("EURUSD", "EURUSD.r")] |};
       calls := [];
       logs := [(INFO, [Lit "started"])] |} in
  let op := close_all_positions Demo.cfg mt5 (Some "EURUSD") None in
  fst (op Demo.session) = fst (op other) /\
  calls (snd (op Demo.session)) = calls (snd (op other)).
Proof.
  intros mt5 other op.
  assert (Hc : connected (self Demo.session) = connected (self other)) by reflexivity.
  assert (Hh : calls Demo.session = calls other) by reflexivity.
  exact (proj1 (proj2 (proj2 (operations_read_flag_and_history_only Demo.cfg mt5
                                Demo.session other Hc Hh)))
           (Some "EURUSD") None).
Defined.

(** ** X19: the exceptions that can escape *)

Section Exceptions.

Variable cfg : config.
Variable mt5 : terminal.







End Exceptions.


(** ** X20: the tickets a close-all touches *)

Lemma close_position_submits cfg mt5 position_id close_volume w :
  exists new,
    calls (snd (close_position cfg mt5 position_id close_volume w)) = calls w ++ new /\
    Forall (fun s => TradeRequest.position (fst s) = Some position_id) (submissions new) /\
    (List.length (submissions new) <= 1)%nat.
Proof.
  destruct (check_connection cfg mt5 w) as [o0 w0] eqn:Hconn.
  destruct (emits_check_connection cfg mt5 w) as (pre & Hpre & Fpre).
  rewrite Hconn in Hpre. cbn [snd] in Hpre.
  destruct (connecting_no_trade _ Fpre) as (Hsub & _ & _).
  destruct (close_position cfg mt5 position_id close_volume w) as [out w'] eqn:Hrun.
  pose proof (close_position_run _ _ _ _ _ _ _ _ _ Hconn Hrun) as H.
  cbn [snd].
  destruct o0 as [[ | ] | e].
  - cbv zeta in H. destruct H as (rest & Hc & H).
    eexists. split; [rewrite Hc, Hpre, <- app_assoc; reflexivity | ].
    rewrite submissions_app, Hsub. cbn [app submissions submission].
    destruct (mt5 _ (calls w0) (PositionsGet (ByTicket position_id)))
      as [[ | position others] | ].
    + destruct H as (-> & _). split; [constructor | cbn; lia].
    + destruct (converted close_volume) as [volume | e'];
        [ | destruct H as (-> & _); split; [constructor | cbn; lia] ].
      cbv zeta in H. destruct H as (rest' & -> & H).
      cbn [submissions submission].
      destruct (mt5 _ _ (SymbolInfoTick _)) as [tick | ].
      * destruct H as (reply & r & _ & -> & _).
        split; [repeat constructor | cbn; lia].
      * destruct H as (-> & _). split; [constructor | cbn; lia].
    + destruct H as (-> & _). split; [constructor | cbn; lia].
  - destruct H as (_ & ->). exists pre. rewrite Hsub.
    split; [exact Hpre | split; [constructor | cbn; lia] ].
  - destruct H as (_ & ->). exists pre. rewrite Hsub.
    split; [exact Hpre | split; [constructor | cbn; lia] ].
Qed.

Lemma close_each_submits cfg mt5 requests :
  forall w,
  exists new,
    calls (snd (close_each cfg mt5 requests w)) = calls w ++ new /\
    Forall (fun s => exists ticket,
                TradeRequest.position (fst s) = Some ticket /\
                In ticket (map fst requests)) (submissions new) /\
    (List.length (submissions new) <= List.length requests)%nat.
Proof.
  induction requests as [ | [t v] rest IH]; intros w.
  - exists []. cbn. rewrite app_nil_r. repeat split; [constructor | lia].
  - cbn [close_each].
    destruct (close_position_submits cfg mt5 t v w) as (n1 & H1 & F1 & L1).
    unfold bind at 1.
    destruct (close_position cfg mt5 t v w) as [[r | e] w1]; cbn [snd] in H1.
    + destruct (IH w1) as (n2 & H2 & F2 & L2).
      exists (n1 ++ n2). split.
      * unfold bind, ret.
        destruct (close_each cfg mt5 rest w1) as [[rs | e] w2]; cbn [snd] in H2 |- *;
          rewrite H2, H1, app_assoc; reflexivity.
      * rewrite submissions_app. split.
        -- apply Forall_app. split.
           ++ eapply Forall_impl; [ | exact F1]. intros s Hs. exists t. cbn. auto.
           ++ eapply Forall_impl; [ | exact F2]. intros s (t' & Hs & Hin).
              exists t'. cbn. auto.
        -- rewrite length_app. cbn [List.length]. lia.
    + exists n1. cbn [snd]. split; [exact H1 | ]. split.
      * eapply Forall_impl; [ | exact F1]. intros s Hs. exists t. cbn. auto.
      * cbn [List.length]. lia.
Qed.

(** X20. [close_all_positions] sends closing orders only for tickets that
    [get_positions] returned, and no more orders than there are matching
    positions; it sends nothing else after the positions are known. *)
Theorem close_all_positions_closes_matched_tickets
    (cfg : config) (mt5 : terminal) (symbol : option string)
    (close_volume : option Py.total) (w w0 w1 w' : world)
    (positions : list PositionDict.t) (out : outcome result) :
  check_connection cfg mt5 w = (Ok true, w0) ->
  get_positions cfg mt5 symbol w0 = (Ok positions, w1) ->
  close_all_positions cfg mt5 symbol close_volume w = (out, w') ->
  exists new,
    calls w' = calls w1 ++ new /\
    (List.length (submissions new) <= List.length positions)%nat /\
    Forall (fun s => exists ticket,
                TradeRequest.position (fst s) = Some ticket /\
                In ticket (map PositionDict.ticket positions)) (submissions new).
Proof.
  intros Hconn Hget Hrun.
  destruct positions as [ | p rest].
  - unfold close_all_positions in Hrun.
    rewrite (bind_ok _ _ _ _ _ Hconn) in Hrun. cbn [negb] in Hrun.
    rewrite (bind_ok _ _ _ _ _ Hget) in Hrun. inversion Hrun; subst.
    exists []. rewrite app_nil_r. repeat split; [cbn; lia | constructor].
  - pose proof (close_all_positions_run cfg mt5 symbol close_volume w w0 w1 (p :: rest)
                  Hconn Hget ltac:(discriminate)) as H.
    destruct (volume_per_position close_volume (p :: rest)) as [each | e].
    2:{ rewrite H in Hrun. inversion Hrun; subst.
        exists []. rewrite app_nil_r. repeat split; [cbn; lia | constructor]. }
    destruct H as (start & Hc & _ & H).
    match type of H with
    | match close_each cfg mt5 ?requests start with _ => _ end =>
        destruct (close_each_submits cfg mt5 requests start) as (new & Hn & F & L);
        rewrite map_map in F; cbn [fst] in F; rewrite length_map in L;
        destruct (close_each cfg mt5 requests start) as [[results | e] w2]
    end; cbn [snd] in Hn.
    + destruct H as (wf & Hcf & _ & H). rewrite H in Hrun. inversion Hrun; subst.
      exists new. split; [rewrite Hcf, Hn, Hc; reflexivity | ]. split; assumption.
    + rewrite H in Hrun. inversion Hrun; subst.
      exists new. split; [rewrite Hn, Hc; reflexivity | ]. split; assumption.
Qed.

Lemma close_all_positions_closes_matched_tickets_witness :
  let mt5 := Demo.terminal_of
               (Demo.market [Demo.eurusd 1 ORDER_TYPE_BUY 0.5;
                             Demo.eurusd 2 ORDER_TYPE_SELL 0.25]) in
  let w0 := snd (check_connection Demo.cfg mt5 Demo.session) in
  let w1 := snd (get_positions Demo.cfg mt5 None w0) in
  let positions :=
    map (position_as_dict Demo.cfg)
      [Demo.eurusd 1 ORDER_TYPE_BUY 0.5; Demo.eurusd 2 ORDER_TYPE_SELL 0.25] in
  let run := close_all_positions Demo.cfg mt5 None None Demo.session in
  exists new,
    calls (snd run) = calls w1 ++ new /\
    (List.length (submissions new) <= List.length positions)%nat /\
    Forall (fun s => exists ticket,
                TradeRequest.position (fst s) = Some ticket /\
                In ticket (map PositionDict.ticket positions)) (submissions new).
Proof.
  intros mt5 w0 w1 positions run.
  apply (close_all_positions_closes_matched_tickets Demo.cfg mt5 None None
           Demo.session w0 w1 (snd run) positions (fst run)).
  - vm_compute; reflexivity.
  - vm_compute; reflexivity.
  - vm_compute; reflexivity.
Defined.

(** ** X21: the constructor *)

(** X21. Constructing the handler never raises, whatever the terminal does.
    It leaves the session flagged connected exactly when the terminal
    answers [True] to [initialize] and then to [login], starts from an
    empty symbol cache, and begins with the call to [initialize]. *)
Theorem constructor_outcome (cfg : config) (mt5 : terminal) (w : world) :
  let run := __init__ cfg mt5 w in
  let opened := mt5 bool (calls w) (Initialize (MT5_PATH cfg)) in
  let authorized :=
    mt5 bool (calls w ++ [Event (Initialize (MT5_PATH cfg)) opened])
      (Login (MT5_ACCOUNT cfg) (MT5_PASSWORD cfg) (MT5_SERVER cfg)) in
  fst run = Ok tt /\
  connected (self (snd run)) = opened && authorized /\
  symbol_map (self (snd run)) = [] /\
  exists rest,
    calls (snd run) = calls w ++ Event (Initialize (MT5_PATH cfg)) opened :: rest.
Proof.
  intros run opened authorized.
  destruct (initialize_mt5_run cfg mt5
              {| self := {| connected := false; volume_column := None; symbol_map := [] |};
                 calls := calls w;
                 logs := logs w |}) as (w' & rest & Hrun & Hc & Hs & Hf & _).
  cbn [calls self connected symbol_map] in Hrun, Hc, Hs, Hf.
  fold opened in Hrun, Hc, Hf. fold authorized in Hrun, Hf.
  rewrite orb_false_r in Hf.
  assert (H : run = (Ok tt, w')).
  { subst run. unfold __init__, bind, ret. now rewrite Hrun. }
  rewrite H. cbn [fst snd].
  split; [reflexivity | ]. split; [exact Hf | ]. split; [exact Hs | ].
  exists rest. exact Hc.
Qed.
